(** * Excel worksheet grader: a shallow embedding of [autograder.py] and
    [grader.py], and the properties of its scoring algorithm.

    Python values are embedded as follows.
    - [int] is [Z] (unbounded), [bool] is [bool]; a [bool] is an [int] for
      [isinstance] and for arithmetic, as in Python.
    - [float] is the kernel's binary64 [float] (round to nearest, ties to even),
      which is what CPython's [float] is.
    - [str] is [string]; the characters are the code points below 256, on
      which [strip] and [lower] are modelled exactly.
    - exceptions are values of [exn]; a computation that may raise has type
      [res A].

    The file has five parts: the model of the two source files (the
    grading functions, then the script of [autograder.py] around them),
    the notions its properties are stated with, the lemmas on binary64
    rounding and on the two passes, the properties C1 to C10, and the
    further properties X1 to X13. *)

From Stdlib Require Import ZArith Lia Bool List String Ascii Floats.
From stdpp Require Import base option gmap strings pretty.

Set Warnings "-inexact-float".
#[local] Open Scope Z_scope.

(** ** Exceptions *)

Inductive exn : Type :=
  | OverflowError (msg : string)
  | ZeroDivisionError (msg : string)
  | LoadError (msg : string).

(** [str(e)] *)
Definition exn_str (e : exn) : string :=
  match e with
  | OverflowError msg | ZeroDivisionError msg | LoadError msg => msg
  end.

Inductive res (A : Type) : Type :=
  | Ok (a : A)
  | Raise (e : exn).
Arguments Ok {A} a.
Arguments Raise {A} e.

Definition res_bind {A B : Type} (c : res A) (k : A -> res B) : res B :=
  match c with
  | Ok a => k a
  | Raise e => Raise e
  end.

Notation "'do' x <- c ; k" := (res_bind c (fun x => k))
  (at level 10, x name, c at level 100, k at level 200).

(** ** Cell values *)

(** The non-numeric, non-text cell types of openpyxl; their content is
    abstracted to an integer (a count of microseconds). *)
Inductive other_kind : Type := KDatetime | KDate | KTime | KTimedelta.

Definition other_kind_eqb (a b : other_kind) : bool :=
  match a, b with
  | KDatetime, KDatetime | KDate, KDate | KTime, KTime
  | KTimedelta, KTimedelta => true
  | _, _ => false
  end.

Inductive value : Type :=
  | VNone
  | VBool (b : bool)
  | VInt (n : Z)
  | VFloat (f : float)
  | VStr (s : string)
  | VOther (k : other_kind) (ticks : Z).

(** The Python type of a value, for statements about "same type". *)
Inductive py_type : Type :=
  | TNone | TBool | TInt | TFloat | TStr | TOther (k : other_kind).

Definition type_of (v : value) : py_type :=
  match v with
  | VNone => TNone
  | VBool _ => TBool
  | VInt _ => TInt
  | VFloat _ => TFloat
  | VStr _ => TStr
  | VOther k _ => TOther k
  end.

Definition is_none (v : value) : bool :=
  match v with VNone => true | _ => false end.

(** [isinstance(v, str)] *)
Definition isinstance_str (v : value) : bool :=
  match v with VStr _ => true | _ => false end.

(** [isinstance(v, (int, float))]: [bool] is a subclass of [int]. *)
Definition isinstance_int_float (v : value) : bool :=
  match v with VBool _ | VInt _ | VFloat _ => true | _ => false end.

(** ** Python numbers *)

(** A number is an [int] (left) or a [float] (right); a [bool] counts as
    the [int] 1 or 0. *)
Definition number : Type := Z + float.

Definition as_number (v : value) : option number :=
  match v with
  | VBool b => Some (inl (Z.b2z b))
  | VInt n => Some (inl n)
  | VFloat f => Some (inr f)
  | _ => None
  end.

(** The exact integer [z] as a binary64 number, rounded to nearest even. *)
Definition Z2SF (z : Z) : spec_float := binary_normalize prec emax z 0 false.

(** [float(z)], the implicit conversion of mixed arithmetic. *)
Definition float_of_int (z : Z) : res float :=
  match Z2SF z with
  | S754_infinity _ => Raise (OverflowError "int too large to convert to float")
  | sf => Ok (SF2Prim sf)
  end.

(** [a - b] *)
Definition py_sub (a b : number) : res number :=
  match a, b with
  | inl x, inl y => Ok (inl (x - y))
  | inl x, inr g => do f <- float_of_int x; Ok (inr (f - g)%float)
  | inr f, inl y => do g <- float_of_int y; Ok (inr (f - g)%float)
  | inr f, inr g => Ok (inr (f - g)%float)
  end.

(** [abs(a)] *)
Definition py_abs (a : number) : number :=
  match a with
  | inl x => inl (Z.abs x)
  | inr f => inr (abs f)
  end.

(** Python compares an [int] with a [float] exactly, without converting
    the [int]: [None] when the float is a NaN. *)
Definition int_cmp_float (z : Z) (f : float) : option comparison :=
  match Prim2SF f with
  | S754_nan => None
  | S754_infinity s => Some (if s then Gt else Lt)
  | S754_zero _ => Some (z ?= 0)
  | S754_finite s m e =>
      let v := cond_Zopp s (Zpos m) in
      Some (if 0 <=? e then z ?= v * 2 ^ e else z * 2 ^ (- e) ?= v)
  end.

(** [a < b] *)
Definition py_lt (a b : number) : bool :=
  match a, b with
  | inl x, inl y => x <? y
  | inl x, inr g =>
      match int_cmp_float x g with Some Lt => true | _ => false end
  | inr f, inl y =>
      match int_cmp_float y f with Some Gt => true | _ => false end
  | inr f, inr g => (f <? g)%float
  end.

(** [a == b] on numbers *)
Definition number_eq (a b : number) : bool :=
  match a, b with
  | inl x, inl y => x =? y
  | inl x, inr g =>
      match int_cmp_float x g with Some Eq => true | _ => false end
  | inr f, inl y =>
      match int_cmp_float y f with Some Eq => true | _ => false end
  | inr f, inr g => (f =? g)%float
  end.

(** [a == b] on cell values. Values of unrelated types are unequal; the
    numeric types compare by numeric value whatever their type. *)
Definition py_eq (a b : value) : bool :=
  match a, b with
  | VNone, VNone => true
  | VStr s, VStr t => String.eqb s t
  | VOther k x, VOther k' y => other_kind_eqb k k' && (x =? y)
  | _, _ =>
      match as_number a, as_number b with
      | Some x, Some y => number_eq x y
      | _, _ => false
      end
  end.

(** [a / b] on two [int]s: the quotient of the exact integers, correctly
    rounded. *)
Definition int_to_SF (z : Z) : spec_float :=
  match z with
  | Z0 => S754_zero false
  | Zpos p => S754_finite false p 0
  | Zneg p => S754_finite true p 0
  end.

Definition int_truediv (a b : Z) : res float :=
  if b =? 0 then Raise (ZeroDivisionError "division by zero")
  else
    match SFdiv prec emax (int_to_SF a) (int_to_SF b) with
    | S754_infinity _ =>
        Raise (OverflowError "integer division result too large for a float")
    | sf => Ok (SF2Prim sf)
    end.

(** ** Python strings *)

(** [c.isspace()] on the code points below 256. *)
Definition isspace (c : ascii) : bool :=
  let n := Z.of_N (N_of_ascii c) in
  ((9 <=? n) && (n <=? 13)) || ((28 <=? n) && (n <=? 32))
  || (n =? 133) || (n =? 160).

(** [c.lower()] on the code points below 256. *)
Definition lower_char (c : ascii) : ascii :=
  let n := Z.of_N (N_of_ascii c) in
  if ((65 <=? n) && (n <=? 90))
     || ((192 <=? n) && (n <=? 222) && negb (n =? 215))
  then ascii_of_N (Z.to_N (n + 32))
  else c.

Fixpoint lower (s : string) : string :=
  match s with
  | EmptyString => EmptyString
  | String c s' => String (lower_char c) (lower s')
  end.

Fixpoint lstrip (s : string) : string :=
  match s with
  | EmptyString => EmptyString
  | String c s' => if isspace c then lstrip s' else s
  end.

(** Removes trailing whitespace: a character is kept when something is
    kept after it or when it is not whitespace. *)
Fixpoint rstrip (s : string) : string :=
  match s with
  | EmptyString => EmptyString
  | String c s' =>
      match rstrip s' with
      | EmptyString => if isspace c then EmptyString else String c EmptyString
      | r => String c r
      end
  end.

(** [s.strip()] *)
Definition strip (s : string) : string := rstrip (lstrip s).

(** ** [equal_values] (the same text in both source files) *)

(** [v is None or v == ""] *)
Definition none_or_empty (v : value) : bool :=
  match v with
  | VNone => true
  | VStr s => String.eqb s ""
  | _ => false
  end.

Definition equal_values (val1 val2 : value) : res bool :=
  (* Both are None or empty *)
  if none_or_empty val1 && none_or_empty val2 then Ok true
  else
    match as_number val1, as_number val2 with
    | Some n1, Some n2 =>
        (* Both are numeric: [abs(val1 - val2) < 0.0001] *)
        do d <- py_sub n1 n2;
        Ok (py_lt (py_abs d) (inr 0.0001%float))
    | _, _ =>
        match val1, val2 with
        | VStr s1, VStr s2 =>
            (* String comparison (case-insensitive for text) *)
            Ok (String.eqb (lower (strip s1)) (lower (strip s2)))
        | _, _ =>
            (* Direct comparison for other types *)
            Ok (py_eq val1 val2)
        end
    end.

(** ** Worksheets and workbooks (the openpyxl interface the grader uses) *)

(** A worksheet stores its cells by (row, column), both counted from 1; a
    stored cell may hold [None]. [max_column] is the extent openpyxl
    reports for the sheet. *)
Record Worksheet : Type := {
  cells : gmap (Z * Z) value;
  max_column : Z
}.

(** [sheet.cell(row=r, column=c).value]: a cell that is not stored reads as
    [None]. *)
Definition cell_value (sheet : Worksheet) (row column : Z) : value :=
  default VNone (cells sheet !! (row, column)).

(** A workbook: its sheets by name ([wb.sheetnames] are the keys). *)
Definition Workbook : Type := gmap string Worksheet.

Definition code (c : ascii) : Z := Z.of_N (N_of_ascii c).

Definition letter_index (c : ascii) : option Z :=
  let n := code c in
  if (65 <=? n) && (n <=? 90) then Some (n - 64)
  else if (97 <=? n) && (n <=? 122) then Some (n - 96)
  else None.

Definition digit_value (c : ascii) : option Z :=
  let n := code c in
  if (48 <=? n) && (n <=? 57) then Some (n - 48) else None.

(** An optional ["$"], as in an absolute reference. *)
Definition skip_dollar (s : string) : string :=
  match s with
  | String c s' => if Ascii.eqb c "$" then s' else s
  | EmptyString => s
  end.

(** The row digits, to the end of the key; the pattern openpyxl matches a
    key with ends in [$], which also holds before a final line feed. *)
Fixpoint parse_row (s : string) (acc : Z) : option Z :=
  match s with
  | EmptyString => Some acc
  | String c s' =>
      match digit_value c with
      | Some d => parse_row s' (10 * acc + d)
      | None =>
          if (code c =? 10) && String.eqb s' "" then Some acc else None
      end
  end.

(** Reads the column letters (at most three, of either case), then an
    optional ["$"] and the row digits. *)
Fixpoint parse_column (s : string) (col : Z) (letters : nat)
  : option (Z * Z) :=
  match s with
  | EmptyString => None
  | String c s' =>
      match letter_index c, letters with
      | Some i, S k => parse_column s' (26 * col + i) k
      | Some _, O => None
      | None, _ =>
          if col =? 0 then None
          else
            match parse_row (skip_dollar s) 0 with
            | Some row =>
                if (0 <? row) && (row <? 1048577) then Some (row, col)
                else None
            | None => None
            end
      end
  end.

(** The (row, column) of the cell that [sheet[cell_addr]] is, when it is
    one: the key is a column of one to three letters and a row from 1 to
    1048576, each with an optional ["$"] before it, as in ["AD21"] or
    ["$AD$21"]. For any other key [sheet[cell_addr]] raises, or is a tuple
    of cells (a row, a column, a range), which has no [value]. *)
Definition coordinate_to_tuple (cell_addr : string) : option (Z * Z) :=
  parse_column (skip_dollar cell_addr) 0 3.

(** [get_cell_value] (the same text in both source files): any failure of
    the lookup gives [None]. *)
Definition get_cell_value (sheet : Worksheet) (cell_addr : string) : value :=
  match coordinate_to_tuple cell_addr with
  | Some (row, column) => cell_value sheet row column
  | None => VNone
  end.

(** ** The two passes of [grade_excel_worksheet] (the same text in both
    source files) *)

Record HiddenTest : Type := { cell : string; description : string }.

(** [range(lo, hi)] *)
Definition range (lo hi : Z) : list Z := seqZ lo (hi - lo).

(** The counters of PART 1. *)
Record Counters : Type := { matches : Z; total_cells : Z }.

(** The body of the loop over [col_idx]. *)
Definition indicator_step (student_sheet solution_sheet : Worksheet)
    (st : Counters) (col_idx : Z) : Counters :=
  let student_cell := cell_value student_sheet 1 col_idx in
  let solution_cell := cell_value solution_sheet 1 col_idx in
  if negb (is_none student_cell) && negb (is_none solution_cell) then
    let total_cells := total_cells st + 1 in
    if py_eq student_cell solution_cell
    then {| matches := matches st + 1; total_cells := total_cells |}
    else {| matches := matches st; total_cells := total_cells |}
  else st.

Definition max_col (student_sheet solution_sheet : Worksheet) : Z :=
  Z.max (max_column solution_sheet) (max_column student_sheet).

(** PART 1: Check Y/N values in row 1. *)
Definition indicator_pass (student_sheet solution_sheet : Worksheet)
  : Counters :=
  fold_left (indicator_step student_sheet solution_sheet)
    (range 5 (max_col student_sheet solution_sheet + 1))
    {| matches := 0; total_cells := 0 |}.

(** PART 2: Check hidden test cells; [hidden_tests_passed] is the counter.
    A comparison that raises ends the loop with its exception. *)
Fixpoint hidden_pass (tests : list HiddenTest)
    (student_sheet solution_sheet : Worksheet) (hidden_tests_passed : Z)
  : res Z :=
  match tests with
  | [] => Ok hidden_tests_passed
  | test :: rest =>
      let cell_addr := cell test in
      let student_value := get_cell_value student_sheet cell_addr in
      let solution_value := get_cell_value solution_sheet cell_addr in
      do eq <- equal_values student_value solution_value;
      hidden_pass rest student_sheet solution_sheet
        (if eq then hidden_tests_passed + 1 else hidden_tests_passed)
  end.

(** [matches / total_cells if total_cells > 0 else 0.0] *)
Definition yn_score (c : Counters) : res float :=
  if 0 <? total_cells c then int_truediv (matches c) (total_cells c)
  else Ok 0%float.

(** [hidden_tests_passed / len(HIDDEN_TEST_CELLS)] *)
Definition hidden_score (hidden_tests_passed : Z) (tests : list HiddenTest)
  : res float :=
  int_truediv hidden_tests_passed (Z.of_nat (length tests)).

(** [yn_score * 0.8 + hidden_score * 0.2] *)
Definition total_score (yn hidden : float) : float :=
  (yn * 0.8 + hidden * 0.2)%float.

(** ** Formatting *)

(** The integer nearest to [a / b] for [0 < b], ties to even. *)
Definition round_half_even (a b : Z) : Z :=
  let q := a / b in
  match 2 * (a mod b) ?= b with
  | Lt => q
  | Gt => q + 1
  | Eq => if Z.even q then q else q + 1
  end.

Definition two_digits (n : Z) : string :=
  if n <? 10 then "0" +:+ pretty n else pretty n.

(** [f"{x:.2f}"]: the decimal nearest to the exact value of [x]. *)
Definition format_2f (x : float) : string :=
  match Prim2SF x with
  | S754_nan => "nan"
  | S754_infinity s => (if s then "-inf" else "inf")
  | S754_zero s => (if s then "-0.00" else "0.00")
  | S754_finite s m e =>
      let n :=
        if 0 <=? e then 100 * Zpos m * 2 ^ e
        else round_half_even (100 * Zpos m) (2 ^ (- e)) in
      (if s then "-" else "") +:+ pretty (n / 100) +:+ "."
        +:+ two_digits (n mod 100)
  end.

(** The feedback of a completed grading: only the Y/N results are shown. *)
Definition score_feedback (total : float) (c : Counters) : string :=
  let percentage := (total * 100)%float in
  "Your score: " +:+ format_2f percentage +:+ "%" +:+ String "010" ""
    +:+ "You correctly matched " +:+ pretty (matches c) +:+ " out of "
    +:+ pretty (total_cells c) +:+ " cells.".

Record GradeResult : Type := { score : float; feedback : string }.

(** ** autograder.py *)

Module autograder.

Definition STUDENT_SHEET_NAME : string := "blank".
Definition SOLUTION_SHEET_NAME : string := "solution".

Definition HIDDEN_TEST_CELLS : list HiddenTest :=
  [ {| cell := "AD21"; description := "Financial calculation test" |};
    {| cell := "M62"; description := "Data processing test" |};
    {| cell := "AE187"; description := "Formula application test" |} ].

(** The body of the [try] block. The two arguments are the outcomes of the
    two calls of [openpyxl.load_workbook]; [tests] stands for the module
    constant [HIDDEN_TEST_CELLS]. *)
Definition grade_body (tests : list HiddenTest)
    (student_load solution_load : res Workbook) : res GradeResult :=
  do student_wb <- student_load;
  do solution_wb <- solution_load;
  match student_wb !! STUDENT_SHEET_NAME with
  | None =>
      Ok {| score := 0;
            feedback := "Error: Worksheet '" +:+ STUDENT_SHEET_NAME
                        +:+ "' not found in your submission." |}
  | Some student_sheet =>
      match solution_wb !! SOLUTION_SHEET_NAME with
      | None =>
          Ok {| score := 0;
                feedback :=
                  "Error: Internal error - Solution worksheet not found." |}
      | Some solution_sheet =>
          let counters := indicator_pass student_sheet solution_sheet in
          do hidden_tests_passed <-
            hidden_pass tests student_sheet solution_sheet 0;
          do yn <- yn_score counters;
          do hidden <- hidden_score hidden_tests_passed tests;
          let total := total_score yn hidden in
          Ok {| score := total; feedback := score_feedback total counters |}
      end
  end.

(** The [except Exception as e] clause. *)
Definition grade_with (tests : list HiddenTest)
    (student_load solution_load : res Workbook) : GradeResult :=
  match grade_body tests student_load solution_load with
  | Ok result => result
  | Raise e =>
      {| score := 0;
         feedback := "Error grading your submission: " +:+ exn_str e |}
  end.

Definition grade_excel_worksheet : res Workbook -> res Workbook -> GradeResult :=
  grade_with HIDDEN_TEST_CELLS.

End autograder.

(** ** grader.py *)

Module grader.

Definition STUDENT_SHEET_NAME : string := "blank".
Definition SOLUTION_SHEET_NAME : string := "solution".

Definition HIDDEN_TEST_CELLS : list HiddenTest :=
  [ {| cell := "AD21"; description := "Financial calculation test" |};
    {| cell := "M62"; description := "Data processing test" |};
    {| cell := "AE187"; description := "Formula application test" |} ].

(** The keys a completed grading adds to the returned dictionary. *)
Record Details : Type := {
  d_matches : Z;
  d_total_cells : Z;
  hidden_passed : Z;
  hidden_total : Z
}.

(** The returned dictionary: ["score"] and ["feedback"], and the four
    diagnostic keys when the grading ran to its end. *)
Record LocalResult : Type := {
  result : GradeResult;
  details : option Details
}.

Definition grade_body (tests : list HiddenTest)
    (student_load solution_load : res Workbook) : res LocalResult :=
  do student_wb <- student_load;
  do solution_wb <- solution_load;
  match student_wb !! STUDENT_SHEET_NAME with
  | None =>
      Ok {| result :=
              {| score := 0;
                 feedback := "Error: Worksheet '" +:+ STUDENT_SHEET_NAME
                             +:+ "' not found in your submission." |};
            details := None |}
  | Some student_sheet =>
      match solution_wb !! SOLUTION_SHEET_NAME with
      | None =>
          Ok {| result :=
                  {| score := 0;
                     feedback := "Error: Solution worksheet not found." |};
                details := None |}
      | Some solution_sheet =>
          let counters := indicator_pass student_sheet solution_sheet in
          do hidden_tests_passed <-
            hidden_pass tests student_sheet solution_sheet 0;
          do yn <- yn_score counters;
          do hidden <- hidden_score hidden_tests_passed tests;
          let total := total_score yn hidden in
          Ok {| result :=
                  {| score := total;
                     feedback := score_feedback total counters |};
                details :=
                  Some {| d_matches := matches counters;
                          d_total_cells := total_cells counters;
                          hidden_passed := hidden_tests_passed;
                          hidden_total := Z.of_nat (length tests) |} |}
      end
  end.

Definition grade_with (tests : list HiddenTest)
    (student_load solution_load : res Workbook) : LocalResult :=
  match grade_body tests student_load solution_load with
  | Ok r => r
  | Raise e =>
      {| result :=
           {| score := 0;
              feedback := "Error grading your submission: " +:+ exn_str e |};
         details := None |}
  end.

Definition grade_excel_worksheet : res Workbook -> res Workbook -> LocalResult :=
  grade_with HIDDEN_TEST_CELLS.

End grader.

(** ** Binary64 rounding: the notions used to bound a score *)

(** The record of a right shift describes the quotient [N / D]: its
    mantissa is the integer part, the round bit tells whether the remainder
    reaches one half, and round or sticky tell whether it is not zero. *)
Definition describes (N D : Z) (r : shr_record) : Prop :=
  0 < D /\ 0 <= N /\ shr_m r = N / D
  /\ (shr_r r = true <-> D <= 2 * (N mod D))
  /\ (shr_r r || shr_s r = true <-> N mod D <> 0).

(** [m * 2 ^ e] has the exponent the format gives to its magnitude; zero
    is canonical at the least exponent only. *)
Definition canonical (m e : Z) : Prop :=
  fexp prec emax (Zdigits2 m + e) = e.

(** [r] is a nonnegative number of the format, zero or canonical, and at
    most [mb * 2 ^ eb]. *)
Definition below (r : spec_float) (mb : positive) (eb : Z) : Prop :=
  match r with
  | S754_zero false => True
  | S754_finite false m e =>
      canonical (Zpos m) e /\ e <= eb /\ Zpos m <= Zpos mb * 2 ^ (eb - e)
  | _ => False
  end.

(** The float [1.0]. *)
Definition one_m : positive := 4503599627370496.

(** The floats [0.8] and [0.2] have the same mantissa. *)
Definition point8_m : positive := 7205759403792794.

(** [0.0 <= f <= 1.0] *)
Definition in_unit (f : float) : Prop :=
  (0 <=? f)%float = true /\ (f <=? 1)%float = true.
(** ** Notions used to state the properties *)

(** The result of the [except] clause of autograder.py for the exception
    [e]. *)
Definition error_result (e : exn) : GradeResult :=
  {| score := 0;
     feedback := "Error grading your submission: " +:+ exn_str e |}.

(** The failures of a grading: a workbook that does not load, or a
    comparison of two hidden cells that raises. *)
Inductive failure (tests : list HiddenTest)
  : res Workbook -> res Workbook -> exn -> Prop :=
  | student_load_fails (e : exn) (solution_load : res Workbook) :
      failure tests (Raise e) solution_load e
  | solution_load_fails (student_wb : Workbook) (e : exn) :
      failure tests (Ok student_wb) (Raise e) e
  | comparison_fails (student_wb solution_wb : Workbook)
      (student_sheet solution_sheet : Worksheet) (e : exn) :
      student_wb !! autograder.STUDENT_SHEET_NAME = Some student_sheet ->
      solution_wb !! autograder.SOLUTION_SHEET_NAME = Some solution_sheet ->
      hidden_pass tests student_sheet solution_sheet 0 = Raise e ->
      failure tests (Ok student_wb) (Ok solution_wb) e.

(** Both row-1 values of a column are not [None]. *)
Definition both_present (student_sheet solution_sheet : Worksheet)
    (col_idx : Z) : bool :=
  negb (is_none (cell_value student_sheet 1 col_idx))
  && negb (is_none (cell_value solution_sheet 1 col_idx)).

(** Both are present and [==] holds of them. *)
Definition column_matches (student_sheet solution_sheet : Worksheet)
    (col_idx : Z) : bool :=
  both_present student_sheet solution_sheet col_idx
  && py_eq (cell_value student_sheet 1 col_idx)
       (cell_value solution_sheet 1 col_idx).

(** The number of elements of [l] that satisfy [p]. *)
Definition count (p : Z -> bool) (l : list Z) : Z :=
  Z.of_nat (length (List.filter p l)).

(** The student's workbook has its sheet and the solution workbook lacks
    its own. *)
Definition solution_sheet_missing (student_load solution_load : res Workbook)
  : bool :=
  match student_load, solution_load with
  | Ok student_wb, Ok solution_wb =>
      bool_decide (is_Some (student_wb !! autograder.STUDENT_SHEET_NAME))
      && bool_decide (solution_wb !! autograder.SOLUTION_SHEET_NAME = None)
  | _, _ => false
  end.

(** ** Sample workbooks *)

Definition sheet_of (l : list (Z * Z * value)) (mc : Z) : Worksheet :=
  {| cells := list_to_map l; max_column := mc |}.

(** Row 1 holds Y in E, F and G; the three hidden cells are filled. *)
Definition sheet_yyy : Worksheet :=
  sheet_of [ ((1, 5), VStr "Y"); ((1, 6), VStr "Y"); ((1, 7), VStr "Y");
             ((21, 30), VInt 5); ((62, 13), VStr "ok");
             ((187, 31), VFloat 2.5) ] 31.

(** The same, with N in G1 and another value in AD21. *)
Definition sheet_yyn : Worksheet :=
  sheet_of [ ((1, 5), VStr "Y"); ((1, 6), VStr "Y"); ((1, 7), VStr "N");
             ((21, 30), VInt 6); ((62, 13), VStr " OK ");
             ((187, 31), VFloat 2.50001) ] 31.

(** AD21 holds an integer of 401 digits. *)
Definition sheet_huge : Worksheet :=
  sheet_of [ ((1, 5), VStr "Y"); ((21, 30), VInt (10 ^ 400)) ] 30.

(** AD21 holds the float 1.5. *)
Definition sheet_frac : Worksheet :=
  sheet_of [ ((1, 5), VStr "Y"); ((21, 30), VFloat 1.5) ] 30.

(** E1 holds the integer 1, respectively the float 1.0. *)
Definition sheet_int_one : Worksheet := sheet_of [ ((1, 5), VInt 1) ] 5.
Definition sheet_float_one : Worksheet := sheet_of [ ((1, 5), VFloat 1) ] 5.

Definition workbook_of (name : string) (sheet : Worksheet) : Workbook :=
  {[ name := sheet ]}.

Definition wb_yyy : Workbook := workbook_of "blank" sheet_yyy.
Definition wb_solution_yyn : Workbook := workbook_of "solution" sheet_yyn.
Definition wb_huge : Workbook := workbook_of "blank" sheet_huge.
Definition wb_solution_frac : Workbook := workbook_of "solution" sheet_frac.
Definition wb_int_one : Workbook := workbook_of "blank" sheet_int_one.
Definition wb_solution_float_one : Workbook :=
  workbook_of "solution" sheet_float_one.

(** A solution workbook whose only sheet has another name. *)
Definition wb_misnamed : Workbook := workbook_of "Sheet1" sheet_yyn.
Definition wb_solution_yyy : Workbook := workbook_of "solution" sheet_yyy.

(** The result of the [except] clause of grader.py. *)
Definition local_error_result (e : exn) : grader.LocalResult :=
  {| grader.result := error_result e; grader.details := None |}.

(** ** autograder.py: the script around the grading function *)

Module script.

Definition SUBMISSION_LOCATION : string := "/shared/submission".
Definition SUBMISSION_DESTINATION : string := "/grader/submission.xlsx".
Definition REFERENCE_SOLUTION : string := "/grader/solution.xlsx".
Definition COURSERA_PARTID : string := "Lg9eS".

(** The file [send_feedback] writes. *)
Definition FEEDBACK_FILE : string := "/shared/feedback.json".

(** The dictionary [post] of [send_feedback]. *)
Record Post : Type := { fractionalScore : float; post_feedback : string }.

(** A regular file, as far as the script can tell: a file it only copies
    and loads, known by what [openpyxl.load_workbook(path, data_only=True)]
    makes of it, or a file [send_feedback] has written, which holds the
    JSON object, or no object when the writing stopped short. *)
Inductive File : Type :=
  | Data (loads : res Workbook)
  | Feedback (post : option Post).

(** A line of the standard output: [print(sys.version_info)], or
    [print(json.dumps(post))]. *)
Inductive Line : Type :=
  | VersionInfo
  | Json (post : Post).

(** The world the script runs in. An exception of the operating system is
    kept as its message [str(e)]. *)
Record World : Type := {
  (** the regular files, by path *)
  files : gmap string File;
  (** [os.listdir(SUBMISSION_LOCATION)]: the names of the entries, in the
      order the system gives them, or the exception it raises *)
  listing : string + list string;
  (** [os.environ.get('partId')] *)
  environ_partId : option string;
  (** the exception [shutil.copyfile] raises from a source path, if the
      system refuses the copy (a directory, a missing permission, a full
      disk), and what the destination holds afterwards when it had been
      opened for writing, which empties it, before the failure *)
  copy_error : string -> option (string * option File);
  (** the exception that opening or writing /shared/feedback.json raises,
      if it does, and whether the file had been opened, which empties it,
      before the failure *)
  write_error : option (string * bool);
  stdout : list Line;
  stderr : list string
}.

Definition set_files (w : World) (fs : gmap string File) : World :=
  {| files := fs; listing := listing w; environ_partId := environ_partId w;
     copy_error := copy_error w; write_error := write_error w;
     stdout := stdout w; stderr := stderr w |}.

(** The JSON object held by /shared/feedback.json, if it holds one. *)
Definition feedback_json (w : World) : option Post :=
  match files w !! FEEDBACK_FILE with
  | Some (Feedback post) => post
  | _ => None
  end.

(** [print(...)] *)
Definition print (w : World) (l : Line) : World :=
  {| files := files w; listing := listing w;
     environ_partId := environ_partId w;
     copy_error := copy_error w; write_error := write_error w;
     stdout := stdout w ++ [l]; stderr := stderr w |}.

Definition print_stderr (w : World) (error_msg : string) : World :=
  {| files := files w; listing := listing w;
     environ_partId := environ_partId w;
     copy_error := copy_error w; write_error := write_error w;
     stdout := stdout w; stderr := stderr w ++ [error_msg] |}.

(** Prints the feedback, then writes it to the file; a failure of the
    writing is reported on the standard error and goes no further. *)
Definition send_feedback (w : World) (score : float) (msg : string) : World :=
  let post := {| fractionalScore := score; post_feedback := msg |} in
  let w := print w (Json post) in
  match write_error w with
  | None => set_files w (<[FEEDBACK_FILE := Feedback (Some post)]> (files w))
  | Some (e, truncated) =>
      let w :=
        if truncated
        then set_files w (<[FEEDBACK_FILE := Feedback None]> (files w))
        else w in
      print_stderr w ("Error writing feedback: " +:+ e)
  end.

(** What [openpyxl.load_workbook] makes of a file; one that
    [send_feedback] wrote is no spreadsheet. *)
Definition open_file (file : File) : res Workbook :=
  match file with
  | Data loads => loads
  | Feedback _ => Raise (LoadError "File is not a zip file")
  end.

(** [openpyxl.load_workbook(path, data_only=True)]; a missing file raises
    [FileNotFoundError]. *)
Definition load_workbook (w : World) (path : string) : res Workbook :=
  match files w !! path with
  | Some file => open_file file
  | None =>
      Raise (LoadError ("[Errno 2] No such file or directory: '" +:+ path
                        +:+ "'"))
  end.

(** [grade_excel_worksheet()], which reads the two fixed paths. *)
Definition grade_excel_worksheet (w : World) : GradeResult :=
  autograder.grade_excel_worksheet (load_workbook w SUBMISSION_DESTINATION)
    (load_workbook w REFERENCE_SOLUTION).

(** [name.rfind('.')], when there is a dot. *)
Fixpoint rfind_dot (name : string) : option nat :=
  match name with
  | EmptyString => None
  | String c rest =>
      match rfind_dot rest with
      | Some i => Some (S i)
      | None => if Ascii.eqb c "." then Some O else None
      end
  end.

(** [Path(f).suffix] for the name [f] of a directory entry (a name holds
    no "/"): from the last dot on, unless that dot is the first or the
    last character. *)
Definition suffix (f : string) : string :=
  match rfind_dot f with
  | Some i =>
      if (0 <? i)%nat && (i <? String.length f - 1)%nat
      then substring i (String.length f - i) f
      else ""
  | None => ""
  end.

(** [Path(f).suffix.lower() in ['.xlsx', '.xlsm']] *)
Definition accepted (f : string) : bool :=
  let extension := lower (suffix f) in
  String.eqb extension ".xlsx" || String.eqb extension ".xlsm".

(** The loop that finds the student submission: the first accepted name. *)
Definition find_learner_file (names : list string) : option string :=
  List.find accepted names.

(** [os.path.join(SUBMISSION_LOCATION, learner_file)] *)
Definition submission_path (learner_file : string) : string :=
  SUBMISSION_LOCATION +:+ "/" +:+ learner_file.

(** [shutil.copyfile(src, dst)]: the world after the call, and the
    exception it raises, if any. The source is opened first, so that a
    missing source leaves the destination as it was; the destination is
    opened, and emptied, before the content is read. *)
Definition copyfile (w : World) (src dst : string) : World * option string :=
  match copy_error w src with
  | Some (e, after) =>
      (match after with
       | Some partial => set_files w (<[dst := partial]> (files w))
       | None => w
       end,
       Some e)
  | None =>
      match files w !! src with
      | Some file => (set_files w (<[dst := file]> (files w)), None)
      | None =>
          (w, Some ("[Errno 2] No such file or directory: '" +:+ src +:+ "'"))
      end
  end.

(** [main(part_id)]: the world it leaves, and the exception it raises, if
    any (only [os.listdir] is outside a [try]). *)
Definition main (w : World) (part_id : string) : World * option string :=
  if negb (String.eqb part_id COURSERA_PARTID) then
    let w :=
      print_stderr w
        "Cannot find matching partId. Please double check your partId's" in
    (send_feedback w 0
       "Please verify that you have submitted to the proper part of the assignment.",
     None)
  else
    match listing w with
    | inl e => (w, Some e)
    | inr names =>
        match find_learner_file names with
        | None =>
            (send_feedback w 0
               "Your submission file does not have the right file extension. Please submit an Excel file (.xlsx, .xlsm).",
             None)
        | Some learner_file =>
            match copyfile w (submission_path learner_file)
                    SUBMISSION_DESTINATION with
            | (w, Some e) =>
                let w := print_stderr w ("Error copying submission: " +:+ e) in
                (send_feedback w 0 "Error processing your submission file.",
                 None)
            | (w, None) =>
                let result := grade_excel_worksheet w in
                (send_feedback w (score result) (feedback result), None)
            end
        end
    end.

(** The [__main__] block. *)
Definition run (w : World) : World :=
  let w := print w VersionInfo in
  let part_id := default "" (environ_partId w) in
  match main w part_id with
  | (w, None) => w
  | (w, Some e) =>
      let w := print_stderr w ("Error in autograder: " +:+ e) in
      send_feedback w 0 "Please provide the partId."
  end.

End script.

(** ** Notions used to state the further properties *)

(** A float that is neither an infinity nor a NaN. *)
Definition finite_float (f : float) : bool :=
  match Prim2SF f with
  | S754_zero _ | S754_finite _ _ _ => true
  | _ => false
  end.

(** A value that is not a float, or a finite one. *)
Definition finite_value (v : value) : bool :=
  match v with
  | VFloat f => finite_float f
  | _ => true
  end.




(** A world with the given submission directory and solution file. *)
Definition sample_world (names : list string)
    (fs : list (string * script.File)) (part_id : option string)
  : script.World :=
  {| script.files := list_to_map fs;
     script.listing := inr names;
     script.environ_partId := part_id;
     script.copy_error := fun _ => None;
     script.write_error := None;
     script.stdout := [];
     script.stderr := [] |}.

Definition world_yyy : script.World :=
  sample_world ["notes.txt"; "Homework.XLSX"; "other.xlsx"]
    [ ("/shared/submission/Homework.XLSX", script.Data (Ok wb_yyy));
      ("/shared/submission/other.xlsx", script.Data (Ok wb_huge));
      ("/grader/solution.xlsx", script.Data (Ok wb_solution_yyn)) ]
    (Some "Lg9eS").

(** [sheet_yyy] with a label in A1 and a value in H1, a column the
    solution [sheet_yyn] leaves empty. *)
Definition sheet_yyy_labelled : Worksheet :=
  sheet_of [ ((1, 1), VStr "Name"); ((1, 8), VStr "Y");
             ((1, 5), VStr "Y"); ((1, 6), VStr "Y"); ((1, 7), VStr "Y");
             ((21, 30), VInt 5); ((62, 13), VStr "ok");
             ((187, 31), VFloat 2.5); ((3, 3), VInt 42) ] 31.

Definition wb_yyy_labelled : Workbook := workbook_of "blank" sheet_yyy_labelled.

(** The ways the script ends without grading, each with the feedback it
    sends, the lines it prints on the standard error before that, and what
    the destination of the copy holds in the end. *)
Inductive rejection (w : script.World)
  : string -> list string -> option script.File -> Prop :=
  | wrong_part_id :
      default "" (script.environ_partId w) <> script.COURSERA_PARTID ->
      rejection w
        "Please verify that you have submitted to the proper part of the assignment."
        ["Cannot find matching partId. Please double check your partId's"]
        (script.files w !! script.SUBMISSION_DESTINATION)
  | listing_raises (e : string) :
      default "" (script.environ_partId w) = script.COURSERA_PARTID ->
      script.listing w = inl e ->
      rejection w "Please provide the partId." ["Error in autograder: " +:+ e]
        (script.files w !! script.SUBMISSION_DESTINATION)
  | no_accepted_file (names : list string) :
      default "" (script.environ_partId w) = script.COURSERA_PARTID ->
      script.listing w = inr names ->
      forallb (fun f => negb (script.accepted f)) names = true ->
      rejection w
        "Your submission file does not have the right file extension. Please submit an Excel file (.xlsx, .xlsm)."
        []
        (script.files w !! script.SUBMISSION_DESTINATION)
  | source_missing (names : list string) (learner_file : string) :
      default "" (script.environ_partId w) = script.COURSERA_PARTID ->
      script.listing w = inr names ->
      script.find_learner_file names = Some learner_file ->
      script.copy_error w (script.submission_path learner_file) = None ->
      script.files w !! script.submission_path learner_file = None ->
      rejection w "Error processing your submission file."
        ["Error copying submission: [Errno 2] No such file or directory: '"
         +:+ script.submission_path learner_file +:+ "'"]
        (script.files w !! script.SUBMISSION_DESTINATION)
  | copy_raises (names : list string) (learner_file e : string)
      (after : option script.File) :
      default "" (script.environ_partId w) = script.COURSERA_PARTID ->
      script.listing w = inr names ->
      script.find_learner_file names = Some learner_file ->
      script.copy_error w (script.submission_path learner_file)
      = Some (e, after) ->
      rejection w "Error processing your submission file."
        ["Error copying submission: " +:+ e]
        (match after with
         | Some partial => Some partial
         | None => script.files w !! script.SUBMISSION_DESTINATION
         end).

(** A world where the copy of the submission stops short: the destination,
    which held an earlier submission, is left empty. *)
Definition world_copy_stops : script.World :=
  {| script.files :=
       list_to_map
         [ ("/shared/submission/Homework.xlsx", script.Data (Ok wb_yyy));
           ("/grader/submission.xlsx", script.Data (Ok wb_huge));
           ("/grader/solution.xlsx", script.Data (Ok wb_solution_yyn)) ];
     script.listing := inr ["Homework.xlsx"];
     script.environ_partId := Some "Lg9eS";
     script.copy_error :=
       fun _ =>
         Some ("[Errno 28] No space left on device",
               Some (script.Data (Raise (LoadError "File is not a zip file"))));
     script.write_error := None;
     script.stdout := [];
     script.stderr := [] |}.

(** * Binary64 rounding

    The operations of the kernel's floats are specified by the functions of
    [SpecFloat], which round a mantissa and an exponent with
    [binary_round_aux]. The lemmas below follow that function through its
    shifts and bound its result: a quotient, a product or a sum that is at
    most a number [b] of the format rounds to at most [b]. *)

Lemma fexp_unfold (e : Z) : fexp prec emax e = Z.max (e - 53) (-1074).
Proof. reflexivity. Qed.

Lemma digits2_pos_log2 (p : positive) :
  Zpos (digits2_pos p) = Z.log2 (Zpos p) + 1.
Proof.
  induction p as [p IH | p IH |]; simpl; try reflexivity.
  - rewrite Pos2Z.inj_succ, IH. destruct p; simpl; lia.
  - rewrite Pos2Z.inj_succ, IH. destruct p; simpl; lia.
Qed.

Lemma Zdigits2_bounds (m : Z) :
  0 < m -> 2 ^ (Zdigits2 m - 1) <= m < 2 ^ Zdigits2 m.
Proof.
  intros Hm. destruct m as [|p|p]; try lia.
  cbn [Zdigits2]. rewrite digits2_pos_log2.
  pose proof (Z.log2_spec (Zpos p) Hm) as H.
  replace (Z.log2 (Z.pos p) + 1 - 1) with (Z.log2 (Z.pos p)) by lia.
  replace (Z.log2 (Z.pos p) + 1) with (Z.succ (Z.log2 (Z.pos p))) by lia.
  exact H.
Qed.

Lemma Zdigits2_unique (m d : Z) :
  0 < m -> 2 ^ (d - 1) <= m < 2 ^ d -> Zdigits2 m = d.
Proof.
  intros Hm H. destruct m as [|p|p]; try lia.
  cbn [Zdigits2]. rewrite digits2_pos_log2.
  assert (0 <= d - 1).
  { destruct (Z_lt_le_dec (d - 1) 0) as [Hn|]; [|lia].
    assert (d <= 0) by lia.
    destruct (Z.eq_dec d 0) as [->|].
    - simpl in H. lia.
    - rewrite (Z.pow_neg_r 2 d) in H by lia. lia. }
  rewrite (Z.log2_unique (Zpos p) (d - 1)); try lia.
  replace (Z.succ (d - 1)) with d by lia. exact H.
Qed.

Lemma Zdigits2_pos (m : Z) : 0 < m -> 0 < Zdigits2 m.
Proof. destruct m; simpl; lia. Qed.

Lemma Zdigits2_nonneg (m : Z) : 0 <= Zdigits2 m.
Proof. destruct m; simpl; lia. Qed.

Lemma mod_double (N D : Z) :
  0 < D -> N mod (2 * D) = D * ((N / D) mod 2) + N mod D.
Proof.
  intros HD. rewrite (Z.mul_comm 2 D).
  rewrite Z.rem_mul_r by lia. lia.
Qed.

Lemma shr_1_spec (r : shr_record) :
  0 <= shr_m r ->
  shr_m (shr_1 r) = shr_m r / 2
  /\ shr_r (shr_1 r) = Z.odd (shr_m r)
  /\ shr_s (shr_1 r) = shr_r r || shr_s r.
Proof.
  destruct r as [m rb sb]. cbn [shr_m shr_r shr_s]. intros Hm.
  destruct m as [|[p|p|]|p]; try lia; cbn [shr_1 shr_m shr_r shr_s];
    (split; [|split; reflexivity]).
  - reflexivity.
  - rewrite Pos2Z.inj_xI, Z.add_comm, Z.mul_comm, Z.div_add by lia.
    reflexivity.
  - rewrite Pos2Z.inj_xO, Z.mul_comm, Z.div_mul by lia. reflexivity.
  - reflexivity.
Qed.

Lemma shr_1_describes (N D : Z) (r : shr_record) :
  describes N D r -> describes N (2 * D) (shr_1 r).
Proof.
  intros (HD & HN & Hm & Hr & Hs).
  pose proof (mod_double N D HD) as Hmod.
  pose proof (Z.mod_pos_bound N D HD) as Hb.
  assert (Hdiv : N / (2 * D) = (N / D) / 2).
  { rewrite (Z.mul_comm 2 D). rewrite Z.div_div by lia. reflexivity. }
  assert (Hm0 : 0 <= shr_m r) by (rewrite Hm; apply Z.div_pos; lia).
  destruct (shr_1_spec r Hm0) as (Em & Er & Es).
  pose proof (Zmod_odd (N / D)) as Hodd.
  unfold describes. rewrite Em, Er, Es, Hdiv, Hm.
  split; [lia|]. split; [lia|]. split; [reflexivity|].
  destruct (Z.odd (N / D)).
  - split; [split; [intros _; nia | reflexivity]|].
    split; [intros _; nia | reflexivity].
  - split; [split; [discriminate | intros; nia]|].
    rewrite orb_false_l. rewrite Hs. split; intros; nia.
Qed.

Lemma iter_shr_1_describes (p : positive) (N D : Z) (r : shr_record) :
  describes N D r -> describes N (2 ^ Zpos p * D) (SpecFloat.iter_pos shr_1 p r).
Proof.
  revert N D r.
  induction p as [p IH | p IH |]; intros N D r H; cbn [SpecFloat.iter_pos].
  - apply shr_1_describes in H. apply IH in H. apply IH in H.
    replace (2 ^ Z.pos p~1 * D) with (2 ^ Z.pos p * (2 ^ Z.pos p * (2 * D)));
      [exact H|].
    replace (Z.pos p~1) with (Z.pos p + Z.pos p + 1) by lia.
    rewrite !Z.pow_add_r by lia. change (2 ^ 1) with 2. ring.
  - apply IH in H. apply IH in H.
    replace (2 ^ Z.pos p~0 * D) with (2 ^ Z.pos p * (2 ^ Z.pos p * D));
      [exact H|].
    replace (Z.pos p~0) with (Z.pos p + Z.pos p) by lia.
    rewrite !Z.pow_add_r by lia. ring.
  - apply shr_1_describes in H. exact H.
Qed.

(** [shr] by [n] places, for [0 <= n]. *)
Lemma shr_describes (N D : Z) (r : shr_record) (e n : Z) :
  0 <= n -> describes N D r ->
  describes N (2 ^ n * D) (fst (shr r e n)) /\ snd (shr r e n) = e + n.
Proof.
  intros Hn H. destruct n as [|p|p]; try lia; cbn [shr fst snd].
  - split; [|lia]. replace (2 ^ 0 * D) with D by (simpl; lia). exact H.
  - split; [|reflexivity]. apply iter_shr_1_describes. exact H.
Qed.

Lemma loc_describes_exact (m : Z) :
  0 <= m -> describes m 1 (shr_record_of_loc m loc_Exact).
Proof.
  intros Hm. unfold describes. cbn.
  rewrite Z.div_1_r, Z.mod_1_r.
  repeat split; try lia; try discriminate.
Qed.

(** Rounding to nearest goes up by at most one, and only from a remainder
    of one half or more. *)
Lemma round_nearest_even_describes (N D : Z) (r : shr_record) :
  describes N D r ->
  let m := round_nearest_even (shr_m r) (loc_of_shr_record r) in
  m = N / D \/ (m = N / D + 1 /\ D <= 2 * (N mod D)).
Proof.
  intros (HD & HN & Hm & Hr & Hs). destruct r as [m rb sb].
  cbn [shr_m shr_r shr_s] in *. cbn zeta.
  destruct rb, sb; cbn [loc_of_shr_record round_nearest_even].
  - right. split; [lia|]. apply Hr. reflexivity.
  - destruct (Z.even m); [left; lia|].
    right. split; [lia|]. apply Hr. reflexivity.
  - left. lia.
  - left. lia.
Qed.

(** ** The two stages of [binary_round_aux] *)

Lemma pow2_pos (k : Z) : 0 <= k -> 0 < 2 ^ k.
Proof. intros. apply Z.pow_pos_nonneg; lia. Qed.

Lemma pow2_split (a b : Z) : 0 <= a -> 0 <= b -> 2 ^ (a + b) = 2 ^ a * 2 ^ b.
Proof. intros. apply Z.pow_add_r; lia. Qed.

Lemma pow2_le (a b : Z) : 0 <= a <= b -> 2 ^ a <= 2 ^ b.
Proof. intros. apply Z.pow_le_mono_r; lia. Qed.

Lemma pow2_lt (a b : Z) : 0 <= a < b -> 2 ^ a < 2 ^ b.
Proof. intros. apply Z.pow_lt_mono_r; lia. Qed.

Lemma Zdigits2_le (m d : Z) : 0 <= d -> 0 <= m < 2 ^ d -> Zdigits2 m <= d.
Proof.
  intros Hd [H0 Hm]. destruct (Z.eq_dec m 0) as [-> | Hn]; [simpl; lia|].
  destruct (Zdigits2_bounds m ltac:(lia)) as [Hl _].
  pose proof (Zdigits2_pos m ltac:(lia)).
  destruct (Z_le_gt_dec (Zdigits2 m) d) as [|Hgt]; [assumption|].
  pose proof (pow2_le d (Zdigits2 m - 1) ltac:(lia)). lia.
Qed.

Lemma Zdigits2_ge (m d : Z) : 0 < d -> 2 ^ (d - 1) <= m -> d <= Zdigits2 m.
Proof.
  intros Hd Hm. pose proof (pow2_pos (d - 1) ltac:(lia)).
  destruct (Zdigits2_bounds m ltac:(lia)) as [_ Hu].
  pose proof (Zdigits2_pos m ltac:(lia)).
  destruct (Z_le_gt_dec d (Zdigits2 m)) as [|Hgt]; [assumption|].
  pose proof (pow2_le (Zdigits2 m) (d - 1) ltac:(lia)). lia.
Qed.

Lemma Zdigits2_shift (m k : Z) :
  0 < m -> 0 <= k < Zdigits2 m -> Zdigits2 (m / 2 ^ k) = Zdigits2 m - k.
Proof.
  intros Hm Hk. destruct (Zdigits2_bounds m Hm) as [Hl Hu].
  pose proof (pow2_pos k ltac:(lia)) as Hk2.
  assert (E1 : 2 ^ (Zdigits2 m - 1) = 2 ^ k * 2 ^ (Zdigits2 m - k - 1)).
  { rewrite <- pow2_split by lia. f_equal. lia. }
  assert (E2 : 2 ^ Zdigits2 m = 2 ^ k * 2 ^ (Zdigits2 m - k)).
  { rewrite <- pow2_split by lia. f_equal. lia. }
  assert (Hlow : 2 ^ (Zdigits2 m - k - 1) <= m / 2 ^ k).
  { apply Z.div_le_lower_bound; lia. }
  assert (Hup : m / 2 ^ k < 2 ^ (Zdigits2 m - k)).
  { apply Z.div_lt_upper_bound; lia. }
  pose proof (pow2_pos (Zdigits2 m - k - 1) ltac:(lia)).
  apply Zdigits2_unique; [lia|]. split; [|assumption].
  replace (Zdigits2 m - k - 1) with (Zdigits2 m - k - 1) by lia. assumption.
Qed.

Lemma Zdigits2_shift_out (m k : Z) :
  0 <= m -> Zdigits2 m <= k -> m / 2 ^ k = 0.
Proof.
  intros Hm Hk. destruct (Z.eq_dec m 0) as [-> | Hn].
  - apply Z.div_0_l. pose proof (pow2_pos k (Z.le_trans _ _ _ (Zdigits2_nonneg 0) Hk)). lia.
  - destruct (Zdigits2_bounds m ltac:(lia)) as [_ Hu].
    pose proof (Zdigits2_pos m ltac:(lia)).
    pose proof (pow2_le (Zdigits2 m) k ltac:(lia)).
    apply Z.div_small. lia.
Qed.

Lemma shr_m_of_loc (m : Z) (l : location) : shr_m (shr_record_of_loc m l) = m.
Proof. destruct l as [|[]]; reflexivity. Qed.

(** First stage: the mantissa is cut to the precision of the format. *)
Lemma shr_fexp_stage (N D mx ex : Z) (lx : location) :
  0 <= mx ->
  describes N D (shr_record_of_loc mx lx) ->
  ex <= fexp prec emax (Zdigits2 mx + ex) ->
  (mx = 0 -> ex = -1074) ->
  let e1 := fexp prec emax (Zdigits2 mx + ex) in
  describes N (2 ^ (e1 - ex) * D) (fst (shr_fexp prec emax mx ex lx))
  /\ snd (shr_fexp prec emax mx ex lx) = e1
  /\ canonical (shr_m (fst (shr_fexp prec emax mx ex lx))) e1.
Proof.
  intros Hmx Hd Hex H0 e1. unfold shr_fexp. fold e1.
  destruct (shr_describes N D (shr_record_of_loc mx lx) ex (e1 - ex)
              ltac:(lia) Hd) as [Hd1 He1].
  split; [exact Hd1|]. split; [lia|].
  destruct Hd1 as (HD1 & HN & Hm1 & _). rewrite Hm1.
  destruct Hd as (HD & _ & Hm & _). rewrite shr_m_of_loc in Hm.
  rewrite (Z.mul_comm _ D), <- Z.div_div, <- Hm
    by (try apply pow2_pos; lia).
  unfold canonical. subst e1. revert Hex. rewrite !fexp_unfold. intros Hex.
  destruct (Z.eq_dec mx 0) as [-> | Hn].
  - rewrite (H0 eq_refl). reflexivity.
  - destruct (Z_lt_le_dec (Z.max (Zdigits2 mx + ex - 53) (-1074) - ex)
                (Zdigits2 mx)) as [Hlt|Hge].
    + rewrite Zdigits2_shift by lia. f_equal. lia.
    + rewrite Zdigits2_shift_out by lia. simpl Zdigits2. lia.
Qed.

Lemma Zdigits2_succ (q : Z) :
  0 <= q ->
  Zdigits2 (q + 1) = Zdigits2 q
  \/ (q + 1 = 2 ^ Zdigits2 q /\ Zdigits2 (q + 1) = Zdigits2 q + 1).
Proof.
  intros Hq. destruct (Z.eq_dec q 0) as [-> | Hn].
  - right. split; reflexivity.
  - destruct (Zdigits2_bounds q ltac:(lia)) as [Hl Hu].
    pose proof (Zdigits2_pos q ltac:(lia)) as Hd.
    destruct (Z.eq_dec (q + 1) (2 ^ Zdigits2 q)) as [E|E].
    + right. split; [exact E|].
      apply Zdigits2_unique; [lia|].
      replace (Zdigits2 q + 1 - 1) with (Zdigits2 q) by lia.
      pose proof (pow2_lt (Zdigits2 q) (Zdigits2 q + 1) ltac:(lia)). lia.
    + left. apply Zdigits2_unique; lia.
Qed.

(** Second stage: after rounding, the mantissa is brought back to the
    precision of the format; this loses nothing. *)
Lemma renorm_stage (q e1 m1 : Z) :
  0 <= q -> canonical q e1 -> m1 = q \/ m1 = q + 1 ->
  let r := shr_fexp prec emax m1 e1 loc_Exact in
  0 <= shr_m (fst r) /\ e1 <= snd r
  /\ shr_m (fst r) * 2 ^ (snd r - e1) = m1
  /\ canonical (shr_m (fst r)) (snd r).
Proof.
  intros Hq Hc Hm1. cbn zeta. unfold shr_fexp.
  destruct (Z.eq_dec (fexp prec emax (Zdigits2 m1 + e1)) e1) as [E|E].
  - rewrite E, Z.sub_diag. cbn [shr fst snd shr_m shr_record_of_loc].
    rewrite Z.sub_diag. change (2 ^ 0) with 1.
    repeat split; try lia. exact E.
  - destruct Hm1 as [-> | ->]; [contradiction|].
    unfold canonical in Hc.
    destruct (Zdigits2_succ q Hq) as [Hs|[Hs1 Hs2]];
      [rewrite Hs in E; contradiction|].
    rewrite Hs2 in *. rewrite fexp_unfold in *.
    pose proof (Zdigits2_nonneg q) as Hd.
    assert (Hd53 : Zdigits2 q = 53) by lia.
    rewrite Hd53 in *.
    replace (Z.max (53 + 1 + e1 - 53) (-1074) - e1) with 1 by lia.
    rewrite Hs1. cbn [shr fst snd shr_m shr_record_of_loc].
    replace (e1 + 1 - e1) with 1 by lia.
    change (2 ^ 53) with 9007199254740992. change (2 ^ 1) with 2.
    cbn. unfold canonical. rewrite fexp_unfold. cbn. lia.
Qed.

(** ** A bound on the result of rounding *)

Lemma canonical_digits (m e : Z) : canonical m e -> Zdigits2 m <= 53 /\ -1074 <= e.
Proof. unfold canonical. rewrite fexp_unfold. lia. Qed.

Lemma canonical_lt (m e : Z) : 0 <= m -> canonical m e -> m < 2 ^ 53.
Proof.
  intros Hm Hc. apply canonical_digits in Hc. destruct Hc as [Hd _].
  destruct (Z.eq_dec m 0) as [-> | Hn]; [reflexivity|].
  destruct (Zdigits2_bounds m ltac:(lia)) as [_ Hu].
  pose proof (Zdigits2_nonneg m).
  pose proof (pow2_le (Zdigits2 m) 53 ltac:(lia)). lia.
Qed.

Lemma canonical_normal (m e : Z) :
  0 < m -> canonical m e -> -1074 < e -> 2 ^ 52 <= m.
Proof.
  intros Hm Hc He. unfold canonical in Hc. rewrite fexp_unfold in Hc.
  assert (Hd : Zdigits2 m = 53) by lia.
  destruct (Zdigits2_bounds m Hm) as [Hl _]. rewrite Hd in Hl. exact Hl.
Qed.

(** The quotient [N / D] at exponent [ex], rounded, stays at or below a
    number of the format when it is less than half a unit of its last
    place above it. *)
Lemma binary_round_aux_below (N D mx ex : Z) (lx : location)
    (mb : positive) (eb : Z) :
  0 <= mx ->
  describes N D (shr_record_of_loc mx lx) ->
  ex <= fexp prec emax (Zdigits2 mx + ex) ->
  (mx = 0 -> ex = -1074) ->
  canonical (Zpos mb) eb ->
  fexp prec emax (Zdigits2 mx + ex) <= eb ->
  eb <= 971 ->
  2 * N < 2 ^ (fexp prec emax (Zdigits2 mx + ex) - ex) * D
          * (2 * (Zpos mb * 2 ^ (eb - fexp prec emax (Zdigits2 mx + ex))) + 1) ->
  below (binary_round_aux prec emax false mx ex lx) mb eb.
Proof.
  intros Hmx Hd Hex H0 Hcb He1 Heb Hlt.
  destruct (shr_fexp_stage N D mx ex lx Hmx Hd Hex H0) as (Hd1 & Hs1 & Hc1).
  set (e1 := fexp prec emax (Zdigits2 mx + ex)) in *.
  unfold binary_round_aux.
  destruct (shr_fexp prec emax mx ex lx) as [mrs' e'].
  cbn [fst snd] in *. subst e'.
  pose proof (round_nearest_even_describes _ _ _ Hd1) as Hr. cbn zeta in Hr.
  set (m1 := round_nearest_even (shr_m mrs') (loc_of_shr_record mrs')) in *.
  destruct Hd1 as (HD1 & HN & Hq & _).
  set (D1 := 2 ^ (e1 - ex) * D) in *.
  set (Bm := Z.pos mb * 2 ^ (eb - e1)) in *.
  pose proof (Z.div_mod N D1 ltac:(lia)) as Hdm.
  pose proof (Z.mod_pos_bound N D1 HD1) as Hmod.
  assert (Hq0 : 0 <= N / D1) by (apply Z.div_pos; lia).
  assert (Hm1 : m1 <= Bm) by (destruct Hr as [-> | [-> Hh]]; nia).
  assert (Hm1' : m1 = shr_m mrs' \/ m1 = shr_m mrs' + 1) by lia.
  rewrite <- Hq in Hq0.
  pose proof (renorm_stage (shr_m mrs') e1 m1 Hq0 Hc1 Hm1') as Hs2.
  cbn zeta in Hs2.
  destruct (shr_fexp prec emax m1 e1 loc_Exact) as [mrs'' e''].
  cbn [fst snd] in Hs2. destruct Hs2 as (Hm2 & He2 & Hv & Hc2).
  destruct (shr_m mrs'') as [|p|p] eqn:Ep; [exact I | | lia].
  pose proof (pow2_pos (eb - e1) ltac:(lia)) as HX.
  pose proof (canonical_lt (Zpos mb) eb ltac:(lia) Hcb) as Hmb.
  destruct (canonical_digits _ _ Hcb) as [_ Hebl].
  assert (Hle : e'' <= eb).
  { destruct (Z_le_gt_dec e'' eb) as [|Hgt]; [assumption|exfalso].
    pose proof (canonical_normal (Zpos p) e'' ltac:(lia) Hc2 ltac:(lia)) as Hp.
    assert (E : 2 ^ (e'' - e1) = 2 ^ (e'' - eb - 1) * 2 * 2 ^ (eb - e1)).
    { rewrite <- (Z.pow_1_r 2) at 3. rewrite <- !pow2_split by lia.
      f_equal. lia. }
    pose proof (pow2_pos (e'' - eb - 1) ltac:(lia)).
    change (2 ^ 52) with 4503599627370496 in Hp.
    change (2 ^ 53) with 9007199254740992 in Hmb.
    unfold Bm in Hm1. nia. }
  replace (e'' <=? emax - prec) with true
    by (symmetry; apply Z.leb_le; change (emax - prec) with 971; lia).
  split; [exact Hc2|]. split; [exact Hle|].
  assert (E : 2 ^ (eb - e1) = 2 ^ (eb - e'') * 2 ^ (e'' - e1)).
  { rewrite <- pow2_split by lia. f_equal. lia. }
  pose proof (pow2_pos (e'' - e1) ltac:(lia)).
  pose proof (pow2_pos (eb - e'') ltac:(lia)).
  unfold Bm in Hm1. rewrite E in Hm1. nia.
Qed.

Lemma below_valid (r : spec_float) (mb : positive) (eb : Z) :
  below r mb eb -> eb <= 971 -> valid_binary r = true.
Proof.
  destruct r as [[]|[]| |[] m e]; cbn; try tauto.
  intros (Hc & He & _) Heb. unfold bounded, canonical_mantissa.
  unfold canonical in Hc. cbn [Zdigits2] in Hc. rewrite Hc.
  rewrite Z.eqb_refl. cbn. apply Z.leb_le. change (emax - prec) with 971. lia.
Qed.

Lemma below_leb (r : spec_float) (mb : positive) (eb : Z) :
  below r mb eb -> SFleb r (S754_finite false mb eb) = true.
Proof.
  destruct r as [[]|[]| |[] m e]; cbn; try tauto.
  intros (Hc & He & Hm). unfold SFleb, SFcompare.
  destruct (Z.compare_spec e eb) as [-> | Hlt | Hgt]; [|reflexivity|lia].
  rewrite Z.sub_diag in Hm. change (2 ^ 0) with 1 in Hm.
  rewrite Pos.compare_cont_spec. cbn [Pos.switch_Eq].
  destruct (Pos.compare_spec m mb); try reflexivity. lia.
Qed.

(** ** Division of two positive integers *)

Lemma new_location_describes (N D q r : Z) :
  0 < D -> 0 <= N -> N = D * q + r -> 0 <= r < D ->
  describes N D (shr_record_of_loc q (new_location D r)).
Proof.
  intros HD HN HNq Hr.
  assert (Eq : N / D = q) by (symmetry; apply (Z.div_unique N D q r); lia).
  assert (Er : N mod D = r) by (symmetry; apply (Z.mod_unique N D q r); lia).
  unfold describes. rewrite shr_m_of_loc, Eq, Er.
  split; [lia|]. split; [lia|]. split; [reflexivity|].
  unfold new_location, new_location_even, new_location_odd.
  destruct (Z.even D); cbv beta;
    (destruct (Z.eqb_spec r 0) as [E0 | E0];
     [cbn; split; split; (discriminate || lia)|]).
  - destruct (Z.compare_spec (2 * r) D); cbn;
      (split; split; try discriminate; try reflexivity; lia).
  - destruct (Z.compare_spec (2 * r + 1) D); cbn;
      (split; split; try discriminate; try reflexivity; lia).
Qed.

Lemma pow2_lt_inv (a b : Z) : 0 <= a -> 0 <= b -> 2 ^ a < 2 ^ b -> a < b.
Proof.
  intros Ha Hb H. destruct (Z_lt_le_dec a b) as [|Hge]; [assumption|].
  pose proof (pow2_le b a ltac:(lia)). lia.
Qed.

(** The core of the division of [m] by [t]: a quotient with enough digits,
    its exponent, and the position of the remainder. *)
Lemma div_core_describes (pm pt : positive) :
  let c := SFdiv_core_binary prec emax (Zpos pm) 0 (Zpos pt) 0 in
  let q := fst (fst c) in
  let e' := snd (fst c) in
  e' <= 0 /\ 0 <= q
  /\ describes (Zpos pm * 2 ^ (- e')) (Zpos pt) (shr_record_of_loc q (snd c))
  /\ e' <= fexp prec emax (Zdigits2 q + e')
  /\ (q = 0 -> e' = -1074).
Proof.
  unfold SFdiv_core_binary.
  set (d1 := Zdigits2 (Z.pos pm)). set (d2 := Zdigits2 (Z.pos pt)).
  rewrite !Z.add_0_r, Z.sub_diag, Z.sub_0_l.
  set (e' := Z.min (fexp prec emax (d1 - d2)) 0).
  assert (He' : e' <= 0) by (subst e'; lia).
  assert (Hm' : match - e' with
                | 0 => Z.pos pm
                | Z.pos _ => Z.shiftl (Z.pos pm) (- e')
                | Z.neg _ => 0
                end = Zpos pm * 2 ^ (- e')).
  { destruct (- e') as [|s|s] eqn:Es; [simpl; lia | | lia].
    rewrite Z.shiftl_mul_pow2 by lia. reflexivity. }
  rewrite Hm'. clear Hm'.
  set (N := Z.pos pm * 2 ^ (- e')).
  pose proof (pow2_pos (- e') ltac:(lia)) as Hs.
  assert (HN : 0 < N) by (subst N; lia).
  pose proof (Z_div_mod_full N (Zpos pt) ltac:(lia)) as Hde.
  destruct (Z.div_eucl N (Z.pos pt)) as [q r]. cbn [fst snd].
  destruct Hde as [HNq Hr]. unfold Remainder in Hr.
  assert (Hq : 0 <= q) by nia.
  split; [exact He'|]. split; [exact Hq|].
  split; [apply new_location_describes; lia|].
  destruct (Zdigits2_bounds (Zpos pm) ltac:(lia)) as [Hl1 Hu1].
  destruct (Zdigits2_bounds (Zpos pt) ltac:(lia)) as [Hl2 Hu2].
  pose proof (Zdigits2_pos (Zpos pm) ltac:(lia)) as Hd1.
  pose proof (Zdigits2_pos (Zpos pt) ltac:(lia)) as Hd2.
  fold d1 in Hl1, Hu1, Hd1. fold d2 in Hl2, Hu2, Hd2.
  assert (HNl : 2 ^ (d1 - 1 - e') <= N).
  { subst N. replace (d1 - 1 - e') with ((d1 - 1) + - e') by lia.
    rewrite pow2_split by lia. nia. }
  split.
  - rewrite fexp_unfold. subst e'. rewrite fexp_unfold in *.
    set (e' := Z.min (Z.max (d1 - d2 - 53) (-1074)) 0) in *.
    destruct (Z.eq_dec e' (-1074)) as [E | E]; [lia|].
    assert (Hs53 : d2 - d1 + 53 <= - e') by lia.
    assert (Hq52 : 2 ^ 52 <= q).
    { assert (2 ^ (d1 - 1 - e' - d2) <= q).
      { replace q with (N / Zpos pt)
          by (symmetry; apply (Z.div_unique N (Zpos pt) q r); lia).
        apply Z.div_le_lower_bound; [lia|].
        assert (E2 : 2 ^ (d1 - 1 - e') = 2 ^ d2 * 2 ^ (d1 - 1 - e' - d2)).
        { rewrite <- pow2_split by lia. f_equal. lia. }
        pose proof (pow2_pos (d1 - 1 - e' - d2) ltac:(lia)). nia. }
      pose proof (pow2_le 52 (d1 - 1 - e' - d2) ltac:(lia)). lia. }
    pose proof (Zdigits2_ge q 53 ltac:(lia) Hq52). lia.
  - intros ->. subst e'. rewrite fexp_unfold in *.
    set (e' := Z.min (Z.max (d1 - d2 - 53) (-1074)) 0) in *.
    assert (2 ^ (d1 - 1 - e') < 2 ^ d2) by lia.
    pose proof (pow2_lt_inv (d1 - 1 - e') d2 ltac:(lia) ltac:(lia) H). lia.
Qed.

Lemma canonical_one : canonical (Zpos one_m) (-52).
Proof. reflexivity. Qed.

Lemma le_pow2_digits (q s : Z) : 0 <= s -> 0 <= q <= 2 ^ s -> Zdigits2 q <= s + 1.
Proof.
  intros Hs Hq. apply Zdigits2_le; [lia|].
  pose proof (pow2_lt s (s + 1) ltac:(lia)). lia.
Qed.

(** [m / t] for [0 <= m <= t], [0 < t], is a float in [[0, 1]]. *)
Lemma int_div_below (m t : Z) :
  0 <= m <= t -> 0 < t ->
  below (SFdiv prec emax (int_to_SF m) (int_to_SF t)) one_m (-52).
Proof.
  intros Hm Ht. destruct t as [|pt|pt]; try lia.
  destruct m as [|pm|pm]; try lia; [exact I|].
  cbn [int_to_SF SFdiv xorb].
  pose proof (div_core_describes pm pt) as H. cbn zeta in H.
  destruct (SFdiv_core_binary prec emax (Z.pos pm) 0 (Z.pos pt) 0)
    as [[q e'] l]. cbn [fst snd] in H.
  destruct H as (He' & Hq & Hd & Hpre & H0).
  pose proof (pow2_pos (- e') ltac:(lia)) as Hs.
  assert (Hq2 : q <= 2 ^ (- e')).
  { destruct Hd as (_ & _ & Eq & _). rewrite shr_m_of_loc in Eq. rewrite Eq.
    apply Z.div_le_upper_bound; [lia|]. nia. }
  pose proof (le_pow2_digits q (- e') ltac:(lia) ltac:(lia)) as Hdq.
  assert (He1 : fexp prec emax (Zdigits2 q + e') <= -52)
    by (rewrite fexp_unfold; lia).
  apply (binary_round_aux_below (Zpos pm * 2 ^ (- e')) (Zpos pt) q e' l);
    try assumption; try lia; [exact canonical_one|].
  set (e1 := fexp prec emax (Zdigits2 q + e')) in *.
  pose proof (pow2_pos (e1 - e') ltac:(lia)).
  pose proof (pow2_pos (-52 - e1) ltac:(lia)).
  assert (E : 2 ^ (e1 - e') * (Zpos one_m * 2 ^ (-52 - e1)) = 2 ^ (- e')).
  { change (Zpos one_m) with (2 ^ 52).
    rewrite <- !pow2_split by lia. f_equal. lia. }
  nia.
Qed.

(** ** Multiplication by a constant and addition *)

Lemma Zdigits2_mul_ge (a b : Z) :
  0 < a -> 0 < b -> Zdigits2 a + Zdigits2 b - 1 <= Zdigits2 (a * b).
Proof.
  intros Ha Hb.
  destruct (Zdigits2_bounds a Ha) as [Hla _].
  destruct (Zdigits2_bounds b Hb) as [Hlb _].
  pose proof (Zdigits2_pos a Ha). pose proof (Zdigits2_pos b Hb).
  apply Zdigits2_ge; [lia|].
  replace (Zdigits2 a + Zdigits2 b - 1 - 1)
    with ((Zdigits2 a - 1) + (Zdigits2 b - 1)) by lia.
  rewrite pow2_split by lia.
  pose proof (pow2_pos (Zdigits2 a - 1) ltac:(lia)).
  pose proof (pow2_pos (Zdigits2 b - 1) ltac:(lia)). nia.
Qed.

(** [x * c <= c] for a float [x] in [[0, 1]] and a positive float [c]. *)
Lemma mul_below (mx mc : positive) (ex ec : Z) :
  below (S754_finite false mx ex) one_m (-52) ->
  canonical (Zpos mc) ec -> ec <= 971 ->
  below (SFmul prec emax (S754_finite false mx ex) (S754_finite false mc ec))
    mc ec.
Proof.
  intros (Hcx & Hex & Hmx) Hcc Hec. cbn [SFmul xorb].
  assert (Hx1 : Zpos mx <= 2 ^ (- ex)).
  { change (Zpos one_m) with (2 ^ 52) in Hmx.
    rewrite <- pow2_split in Hmx by lia.
    replace (52 + (-52 - ex)) with (- ex) in Hmx by lia. exact Hmx. }
  pose proof (Zdigits2_mul_ge (Zpos mx) (Zpos mc) ltac:(lia) ltac:(lia)) as Hd.
  pose proof (Zdigits2_pos (Zpos mx) ltac:(lia)) as Hdx.
  pose proof (Zdigits2_pos (Zpos mc) ltac:(lia)) as Hdc.
  destruct (Zdigits2_bounds (Zpos mc) ltac:(lia)) as [_ Huc].
  pose proof (pow2_pos (- ex) ltac:(lia)) as Hpx.
  assert (Hdu : Zdigits2 (Zpos mx * Zpos mc) <= Zdigits2 (Zpos mc) - ex).
  { apply Zdigits2_le; [lia|]. split; [lia|].
    replace (Zdigits2 (Z.pos mc) - ex) with (- ex + Zdigits2 (Z.pos mc)) by lia.
    rewrite pow2_split by lia. nia. }
  unfold canonical in Hcx, Hcc. rewrite fexp_unfold in Hcx, Hcc.
  assert (He1 : fexp prec emax (Zdigits2 (Zpos mx * Zpos mc) + (ex + ec)) <= ec)
    by (rewrite fexp_unfold; lia).
  assert (Hpre : ex + ec
                 <= fexp prec emax (Zdigits2 (Zpos mx * Zpos mc) + (ex + ec)))
    by (rewrite fexp_unfold; lia).
  rewrite Pos2Z.inj_mul.
  apply (binary_round_aux_below (Zpos mx * Zpos mc) 1);
    [lia | apply loc_describes_exact; lia | exact Hpre | lia
    | unfold canonical; rewrite fexp_unfold; exact Hcc | exact He1
    | exact Hec | ].
  set (e1 := fexp prec emax (Zdigits2 (Zpos mx * Zpos mc) + (ex + ec))) in *.
  pose proof (pow2_pos (e1 - (ex + ec)) ltac:(lia)).
  pose proof (pow2_pos (ec - e1) ltac:(lia)).
  assert (E : 2 ^ (e1 - (ex + ec)) * 2 ^ (ec - e1) = 2 ^ (- ex)).
  { rewrite <- pow2_split by lia. f_equal. lia. }
  nia.
Qed.

Lemma iter_xO (m d : positive) : Zpos (Pos.iter xO m d) = Zpos m * 2 ^ Zpos d.
Proof.
  induction d as [|d IH] using Pos.peano_ind.
  - cbn [Pos.iter]. rewrite Pos2Z.inj_xO. change (2 ^ 1) with 2. lia.
  - rewrite Pos.iter_succ, Pos2Z.inj_xO, IH.
    rewrite Pos2Z.inj_succ, Z.pow_succ_r by lia. ring.
Qed.

Lemma shl_align_spec (m : positive) (e e' : Z) :
  e' <= e ->
  Zpos (fst (shl_align m e e')) = Zpos m * 2 ^ (e - e')
  /\ snd (shl_align m e e') = e'.
Proof.
  intros He. unfold shl_align.
  destruct (e' - e) as [|d|d] eqn:Ed; try lia; cbn [fst snd].
  - replace (e - e') with 0 by lia. change (2 ^ 0) with 1. lia.
  - rewrite iter_xO. replace (e - e') with (Zpos d) by lia. lia.
Qed.

Lemma shl_align_id (m : positive) (e e' : Z) :
  e <= e' -> shl_align m e e' = (m, e).
Proof.
  intros He. unfold shl_align.
  destruct (e' - e) as [|d|d] eqn:Ed; try lia; reflexivity.
Qed.

Lemma Zdigits2_mul_pow2 (m k : Z) :
  0 < m -> 0 <= k -> Zdigits2 (m * 2 ^ k) = Zdigits2 m + k.
Proof.
  intros Hm Hk. destruct (Zdigits2_bounds m Hm) as [Hl Hu].
  pose proof (Zdigits2_pos m Hm). pose proof (pow2_pos k Hk).
  apply Zdigits2_unique; [lia|].
  replace (Zdigits2 m + k - 1) with ((Zdigits2 m - 1) + k) by lia.
  rewrite !pow2_split by lia. nia.
Qed.

(** A sum of at most [0.8 + 0.2] (which exceeds 1 by a quarter of the
    unit in the last place of 1) rounds to at most [1.0]. *)
Lemma round_sum_below_one (pM : positive) (ez : Z) :
  ez <= -55 ->
  Zpos pM <= (2 ^ 55 + 2) * 2 ^ (-55 - ez) ->
  below (binary_round prec emax false pM ez) one_m (-52).
Proof.
  intros Hez HM. unfold binary_round.
  pose proof (pow2_pos (-55 - ez) ltac:(lia)) as HK.
  set (K := 2 ^ (-55 - ez)) in *.
  change (2 ^ 55 + 2) with 36028797018963970 in HM.
  assert (HK1 : 2 ^ (1 - ez) = 72057594037927936 * K).
  { replace (1 - ez) with (56 + (-55 - ez)) by lia.
    rewrite pow2_split by lia. reflexivity. }
  assert (HK0 : 2 ^ (- ez) = 36028797018963968 * K).
  { replace (- ez) with (55 + (-55 - ez)) by lia.
    rewrite pow2_split by lia. reflexivity. }
  assert (Hd : Zdigits2 (Zpos pM) + ez <= 1).
  { pose proof (Zdigits2_le (Zpos pM) (1 - ez) ltac:(lia) ltac:(lia)). lia. }
  destruct (Zdigits2_bounds (Zpos pM) ltac:(lia)) as [Hl Hu].
  pose proof (Zdigits2_pos (Zpos pM) ltac:(lia)) as Hdp.
  set (F := fexp prec emax (Z.pos (digits2_pos pM) + ez)).
  assert (HF : F = Z.max (Zdigits2 (Zpos pM) + ez - 53) (-1074))
    by reflexivity.
  clearbody F.
  destruct (Z_lt_le_dec F ez) as [Hlt | Hge].
  - destruct (shl_align_spec pM ez F ltac:(lia)) as [Ea Eb].
    destruct (shl_align pM ez F) as [mz ez']. cbn [fst snd] in *. subst ez'.
    assert (Hdz : Zdigits2 (Zpos mz) + F = Zdigits2 (Zpos pM) + ez).
    { rewrite Ea, Zdigits2_mul_pow2 by lia. lia. }
    apply (binary_round_aux_below (Zpos mz) 1); try lia.
    + apply loc_describes_exact. lia.
    + rewrite Hdz, fexp_unfold. lia.
    + exact canonical_one.
    + rewrite Hdz, fexp_unfold. lia.
    + rewrite Hdz, fexp_unfold, <- HF, Z.sub_diag. change (2 ^ 0) with 1.
      pose proof (pow2_le (Zdigits2 (Zpos pM)) (- ez) ltac:(lia)).
      pose proof (pow2_pos (ez - F) ltac:(lia)).
      assert (E : 2 ^ (- ez) * 2 ^ (ez - F) = Zpos one_m * 2 ^ (-52 - F)).
      { change (Zpos one_m) with (2 ^ 52).
        rewrite <- !pow2_split by lia. f_equal. lia. }
      nia.
  - rewrite shl_align_id by lia.
    apply (binary_round_aux_below (Zpos pM) 1); try lia.
    + apply loc_describes_exact. lia.
    + rewrite fexp_unfold. lia.
    + exact canonical_one.
    + rewrite fexp_unfold. lia.
    + rewrite fexp_unfold, <- HF.
      pose proof (pow2_pos (F - ez) ltac:(lia)).
      pose proof (pow2_pos (-52 - F) ltac:(lia)).
      change (Zpos one_m) with (2 ^ 52).
      assert (E : 2 ^ (F - ez) * (2 ^ 52 * 2 ^ (-52 - F)) = 2 ^ (- ez)).
      { rewrite <- !pow2_split by lia. f_equal. lia. }
      destruct (Z.eq_dec (Zdigits2 (Zpos pM) + ez) 1) as [E1 | E1].
      * assert (EF : F = -52) by lia. rewrite EF in *.
        assert (E3 : 2 ^ (-52 - ez) = 8 * K).
        { replace (-52 - ez) with (3 + (-55 - ez)) by lia.
          rewrite pow2_split by lia. reflexivity. }
        replace (-52 - -52) with 0 in * by lia. change (2 ^ 0) with 1 in *.
        change (2 ^ 52) with 4503599627370496 in *. nia.
      * pose proof (pow2_le (Zdigits2 (Zpos pM)) (- ez) ltac:(lia)). nia.
Qed.

Lemma add_below_one (ma mc : positive) (ea ec : Z) :
  below (S754_finite false ma ea) point8_m (-53) ->
  below (S754_finite false mc ec) point8_m (-55) ->
  below (SFadd prec emax (S754_finite false ma ea) (S754_finite false mc ec))
    one_m (-52).
Proof.
  intros (_ & Hea & Hma) (_ & Hec & Hmc). cbn [SFadd cond_Zopp].
  set (ez := Z.min ea ec).
  destruct (shl_align_spec ma ea ez ltac:(lia)) as [Ea _].
  destruct (shl_align_spec mc ec ez ltac:(lia)) as [Ec _].
  destruct (shl_align ma ea ez) as [a' ?]. destruct (shl_align mc ec ez) as [c' ?].
  cbn [fst] in *. cbn [Z.add binary_normalize].
  apply round_sum_below_one; [lia|].
  rewrite Pos2Z.inj_add, Ea, Ec.
  pose proof (pow2_pos (ea - ez) ltac:(lia)).
  pose proof (pow2_pos (ec - ez) ltac:(lia)).
  pose proof (pow2_pos (-55 - ez) ltac:(lia)).
  assert (E1 : 2 ^ (-53 - ea) * 2 ^ (ea - ez) = 4 * 2 ^ (-55 - ez)).
  { change 4 with (2 ^ 2). rewrite <- !pow2_split by lia. f_equal. lia. }
  assert (E2 : 2 ^ (-55 - ec) * 2 ^ (ec - ez) = 2 ^ (-55 - ez)).
  { rewrite <- !pow2_split by lia. f_equal. lia. }
  change (2 ^ 55 + 2) with 36028797018963970.
  unfold point8_m in *. nia.
Qed.

Lemma below_weaken_one (r : spec_float) (eb : Z) :
  below r point8_m eb -> eb <= -53 -> below r one_m (-52).
Proof.
  destruct r as [[]|[]| |[] m e]; cbn; try tauto.
  intros (Hc & He & Hm) Heb. split; [exact Hc|]. split; [lia|].
  pose proof (pow2_pos (eb - e) ltac:(lia)).
  assert (E : Zpos one_m * 2 ^ (-52 - e)
              = 9007199254740992 * 2 ^ (-53 - eb) * 2 ^ (eb - e)).
  { change (Zpos one_m) with (2 ^ 52). change 9007199254740992 with (2 ^ 53).
    rewrite <- !pow2_split by lia. f_equal. lia. }
  pose proof (pow2_pos (-53 - eb) ltac:(lia)).
  unfold point8_m in *. nia.
Qed.

(** On the specification side: [x * c <= c] for [x] in [[0, 1]]. *)
Lemma sf_mul_below (x : spec_float) (mc : positive) (ec : Z) :
  below x one_m (-52) -> canonical (Zpos mc) ec -> ec <= 971 ->
  below (SFmul prec emax x (S754_finite false mc ec)) mc ec.
Proof.
  intros Hx Hc Hec.
  destruct x as [[]|[]| |[] m e]; cbn in Hx; try contradiction.
  - exact I.
  - apply mul_below; assumption.
Qed.

(** On the specification side: [a + c <= 1] for [a <= 0.8], [c <= 0.2]. *)
Lemma sf_add_below (a c : spec_float) :
  below a point8_m (-53) -> below c point8_m (-55) ->
  below (SFadd prec emax a c) one_m (-52).
Proof.
  intros Ha Hc.
  destruct a as [[]|[]| |[] ma ea]; try (cbn in Ha; contradiction);
    destruct c as [[]|[]| |[] mc ec]; try (cbn in Hc; contradiction).
  - exact I.
  - apply (below_weaken_one _ (-55)); [exact Hc | lia].
  - apply (below_weaken_one _ (-53)); [exact Ha | lia].
  - apply add_below_one; assumption.
Qed.

(** ** The primitive floats *)

Lemma below_in_unit (f : float) : below (Prim2SF f) one_m (-52) -> in_unit f.
Proof.
  intros H. unfold in_unit. rewrite !leb_spec.
  change (Prim2SF 1) with (S754_finite false one_m (-52)).
  change (Prim2SF 0) with (S754_zero false).
  split; [|apply below_leb; exact H].
  destruct (Prim2SF f) as [[]|[]| |[] m e]; cbn in H; try contradiction;
    reflexivity.
Qed.

Lemma total_score_below (yn h : float) :
  below (Prim2SF yn) one_m (-52) -> below (Prim2SF h) one_m (-52) ->
  below (Prim2SF (yn * 0.8 + h * 0.2)%float) one_m (-52).
Proof.
  intros Hy Hh. rewrite add_spec, !mul_spec. unfold SF64add, SF64mul.
  change (Prim2SF 0.8) with (S754_finite false point8_m (-53)).
  change (Prim2SF 0.2) with (S754_finite false point8_m (-55)).
  apply sf_add_below; apply sf_mul_below;
    try assumption; try reflexivity; lia.
Qed.

Lemma int_truediv_below (m t : Z) :
  0 <= m <= t -> 0 < t ->
  exists f, int_truediv m t = Ok f /\ below (Prim2SF f) one_m (-52).
Proof.
  intros Hm Ht. pose proof (int_div_below m t Hm Ht) as Hb.
  unfold int_truediv. destruct (Z.eqb_spec t 0) as [E | _]; [lia|].
  pose proof (below_valid _ _ _ Hb ltac:(lia)) as Hv.
  destruct (SFdiv prec emax (int_to_SF m) (int_to_SF t)) as [s|s| |s p e] eqn:Er;
    try (cbn in Hb; contradiction);
    (eexists; split; [reflexivity|]; rewrite Prim2SF_SF2Prim by exact Hv;
     exact Hb).
Qed.

(** * The grader: its tests, passes and scores *)

(** ** The tests of [equal_values] *)

(** [isinstance(v, (int, float))] holds of the values that are numbers. *)
Lemma isinstance_int_float_number (v : value) :
  isinstance_int_float v = true <-> exists n, as_number v = Some n.
Proof.
  destruct v; cbn; split; try discriminate;
    try (intros [n Hn]; discriminate Hn);
    try (intros _; eexists; reflexivity); reflexivity.
Qed.

(** The three branches of [equal_values] after the blank rule. *)
Lemma equal_values_branches (val1 val2 : value) :
  none_or_empty val1 && none_or_empty val2 = false ->
  equal_values val1 val2
  = if isinstance_int_float val1 && isinstance_int_float val2
    then match as_number val1, as_number val2 with
         | Some n1, Some n2 =>
             do d <- py_sub n1 n2; Ok (py_lt (py_abs d) (inr 0.0001%float))
         | _, _ => Ok false
         end
    else if isinstance_str val1 && isinstance_str val2
    then match val1, val2 with
         | VStr s1, VStr s2 =>
             Ok (String.eqb (lower (strip s1)) (lower (strip s2)))
         | _, _ => Ok false
         end
    else Ok (py_eq val1 val2).
Proof.
  intros H. unfold equal_values. rewrite H.
  destruct val1, val2; reflexivity.
Qed.

(** ** The two passes *)

Section Passes.

Variables student_sheet solution_sheet : Worksheet.

Lemma indicator_step_counts (st : Counters) (col_idx : Z) :
  indicator_step student_sheet solution_sheet st col_idx
  = {| matches := matches st
         + (if column_matches student_sheet solution_sheet col_idx
            then 1 else 0);
       total_cells := total_cells st
         + (if both_present student_sheet solution_sheet col_idx
            then 1 else 0) |}.
Proof.
  unfold indicator_step, column_matches, both_present.
  destruct st as [m t]. cbn [matches total_cells].
  destruct (negb (is_none (cell_value student_sheet 1 col_idx))
            && negb (is_none (cell_value solution_sheet 1 col_idx)));
    cbn [andb].
  - destruct (py_eq _ _); f_equal; lia.
  - f_equal; lia.
Qed.

(** The loop over the columns, from any state of the counters. *)
Lemma fold_indicator_step (cols : list Z) (st : Counters) :
  fold_left (indicator_step student_sheet solution_sheet) cols st
  = {| matches := matches st
         + count (column_matches student_sheet solution_sheet) cols;
       total_cells := total_cells st
         + count (both_present student_sheet solution_sheet) cols |}.
Proof.
  revert st. induction cols as [|c cols IH]; intros st; cbn [fold_left].
  - destruct st as [m t]. unfold count. cbn. f_equal; lia.
  - rewrite IH, indicator_step_counts. cbn [matches total_cells].
    unfold count. cbn [List.filter].
    destruct (column_matches student_sheet solution_sheet c);
      destruct (both_present student_sheet solution_sheet c);
      cbn [length]; f_equal; lia.
Qed.

Lemma count_le (p q : Z -> bool) (l : list Z) :
  (forall x, p x = true -> q x = true) -> 0 <= count p l <= count q l.
Proof.
  intros Hpq. unfold count. split; [lia|].
  induction l as [|x l IH]; cbn [List.filter]; [lia|].
  specialize (Hpq x).
  destruct (p x); destruct (q x); cbn [length]; lia.
Qed.

Lemma indicator_pass_counts :
  0 <= matches (indicator_pass student_sheet solution_sheet)
    <= total_cells (indicator_pass student_sheet solution_sheet).
Proof.
  unfold indicator_pass. rewrite fold_indicator_step. cbn [matches total_cells].
  rewrite !Z.add_0_l. apply count_le.
  intros x. unfold column_matches. intros H.
  apply andb_true_iff in H. tauto.
Qed.

(** The counter of the hidden tests grows by at most one a test. *)
Lemma hidden_pass_bounds (tests : list HiddenTest) (passed hp : Z) :
  hidden_pass tests student_sheet solution_sheet passed = Ok hp ->
  passed <= hp <= passed + Z.of_nat (length tests).
Proof.
  revert passed. induction tests as [|test rest IH]; intros passed H;
    cbn [hidden_pass length] in *.
  - injection H as <-. lia.
  - destruct (equal_values _ _) as [eq | e]; cbn [res_bind] in H;
      [|discriminate].
    apply IH in H. destruct eq; lia.
Qed.

End Passes.

(** ** The scores *)

Lemma zero_below : below (Prim2SF 0) one_m (-52).
Proof. exact I. Qed.

Lemma yn_score_below (c : Counters) :
  0 <= matches c <= total_cells c ->
  exists yn, yn_score c = Ok yn /\ below (Prim2SF yn) one_m (-52).
Proof.
  intros Hc. unfold yn_score.
  destruct (Z.ltb_spec 0 (total_cells c)) as [Ht | Ht].
  - apply int_truediv_below; assumption.
  - exists 0%float. split; [reflexivity | exact zero_below].
Qed.

Lemma hidden_score_below (tests : list HiddenTest) (hp : Z) :
  tests <> [] -> 0 <= hp <= Z.of_nat (length tests) ->
  exists h, hidden_score hp tests = Ok h /\ below (Prim2SF h) one_m (-52).
Proof.
  intros Hne Hhp. unfold hidden_score. apply int_truediv_below; [assumption|].
  destruct tests; [contradiction | cbn [length]; lia].
Qed.

Lemma hidden_score_empty (hp : Z) :
  hidden_score hp [] = Raise (ZeroDivisionError "division by zero").
Proof. reflexivity. Qed.

(** ** The grading function, case by case *)

(** What [autograder.grade_with] returns once both sheets are found. *)
Lemma autograder_graded (tests : list HiddenTest)
    (student_wb solution_wb : Workbook)
    (student_sheet solution_sheet : Worksheet) :
  student_wb !! autograder.STUDENT_SHEET_NAME = Some student_sheet ->
  solution_wb !! autograder.SOLUTION_SHEET_NAME = Some solution_sheet ->
  autograder.grade_with tests (Ok student_wb) (Ok solution_wb)
  = match hidden_pass tests student_sheet solution_sheet 0 with
    | Raise e => error_result e
    | Ok hp =>
        match yn_score (indicator_pass student_sheet solution_sheet) with
        | Raise e => error_result e
        | Ok yn =>
            match hidden_score hp tests with
            | Raise e => error_result e
            | Ok h =>
                {| score := total_score yn h;
                   feedback :=
                     score_feedback (total_score yn h)
                       (indicator_pass student_sheet solution_sheet) |}
            end
        end
    end.
Proof.
  intros Hs Ht. unfold autograder.grade_with, autograder.grade_body.
  cbn [res_bind]. rewrite Hs, Ht.
  destruct (hidden_pass tests student_sheet solution_sheet 0) as [hp | e];
    cbn [res_bind]; [|reflexivity].
  destruct (yn_score _) as [yn | e]; cbn [res_bind]; [|reflexivity].
  destruct (hidden_score hp tests) as [h | e]; reflexivity.
Qed.

(** The same for [grader.grade_with]. *)
Lemma grader_graded (tests : list HiddenTest)
    (student_wb solution_wb : Workbook)
    (student_sheet solution_sheet : Worksheet) :
  student_wb !! grader.STUDENT_SHEET_NAME = Some student_sheet ->
  solution_wb !! grader.SOLUTION_SHEET_NAME = Some solution_sheet ->
  grader.grade_with tests (Ok student_wb) (Ok solution_wb)
  = match hidden_pass tests student_sheet solution_sheet 0 with
    | Raise e =>
        {| grader.result := error_result e; grader.details := None |}
    | Ok hp =>
        match yn_score (indicator_pass student_sheet solution_sheet) with
        | Raise e =>
            {| grader.result := error_result e; grader.details := None |}
        | Ok yn =>
            match hidden_score hp tests with
            | Raise e =>
                {| grader.result := error_result e; grader.details := None |}
            | Ok h =>
                {| grader.result :=
                     {| score := total_score yn h;
                        feedback :=
                          score_feedback (total_score yn h)
                            (indicator_pass student_sheet solution_sheet) |};
                   grader.details :=
                     Some
                       {| grader.d_matches :=
                            matches
                              (indicator_pass student_sheet solution_sheet);
                          grader.d_total_cells :=
                            total_cells
                              (indicator_pass student_sheet solution_sheet);
                          grader.hidden_passed := hp;
                          grader.hidden_total := Z.of_nat (length tests) |} |}
            end
        end
    end.
Proof.
  intros Hs Ht. unfold grader.grade_with, grader.grade_body.
  cbn [res_bind]. rewrite Hs, Ht.
  destruct (hidden_pass tests student_sheet solution_sheet 0) as [hp | e];
    cbn [res_bind]; [|reflexivity].
  destruct (yn_score _) as [yn | e]; cbn [res_bind]; [|reflexivity].
  destruct (hidden_score hp tests) as [h | e]; reflexivity.
Qed.

(** A grading that finds both sheets and whose comparisons return has
    both component scores, each in [[0, 1]]. *)
Lemma component_scores (tests : list HiddenTest)
    (student_sheet solution_sheet : Worksheet) (hp : Z) :
  tests <> [] ->
  hidden_pass tests student_sheet solution_sheet 0 = Ok hp ->
  exists yn h,
    yn_score (indicator_pass student_sheet solution_sheet) = Ok yn
    /\ hidden_score hp tests = Ok h
    /\ below (Prim2SF yn) one_m (-52) /\ below (Prim2SF h) one_m (-52).
Proof.
  intros Hne Hp. apply hidden_pass_bounds in Hp.
  destruct (yn_score_below _ (indicator_pass_counts student_sheet solution_sheet))
    as (yn & Hy & Hyb).
  destruct (hidden_score_below tests hp Hne ltac:(lia)) as (h & Hh & Hhb).
  exists yn, h. tauto.
Qed.

Lemma in_unit_zero : in_unit 0.
Proof. split; reflexivity. Qed.

Lemma total_score_in_unit (yn h : float) :
  below (Prim2SF yn) one_m (-52) -> below (Prim2SF h) one_m (-52) ->
  in_unit (total_score yn h).
Proof.
  intros Hy Hh. apply below_in_unit. unfold total_score.
  apply total_score_below; assumption.
Qed.

(** Unfolds the two grading functions down to the lookups of the sheets. *)
Ltac unfold_grade :=
  unfold autograder.grade_excel_worksheet, grader.grade_excel_worksheet,
    autograder.grade_with, grader.grade_with,
    autograder.grade_body, grader.grade_body;
  cbn [res_bind];
  change grader.STUDENT_SHEET_NAME with autograder.STUDENT_SHEET_NAME;
  change grader.SOLUTION_SHEET_NAME with autograder.SOLUTION_SHEET_NAME;
  change grader.HIDDEN_TEST_CELLS with autograder.HIDDEN_TEST_CELLS.

(** The cases of a grading whose score is 0.0, then the graded case, given
    the equation [graded] of the function once both sheets are found. *)
Ltac score_cases graded :=
  lazymatch goal with
  | |- context [_ ?tests ?student_load ?solution_load] =>
      destruct student_load as [swb | e]; [|exact in_unit_zero];
      destruct solution_load as [twb | e]; [|exact in_unit_zero];
      destruct (swb !! autograder.STUDENT_SHEET_NAME) as [st|] eqn:Hs;
        [|unfold_grade; rewrite Hs; exact in_unit_zero];
      destruct (twb !! autograder.SOLUTION_SHEET_NAME) as [sol|] eqn:Ht;
        [|unfold_grade; rewrite Hs, Ht; exact in_unit_zero];
      rewrite (graded tests swb twb st sol Hs Ht);
      destruct (hidden_pass tests st sol 0) as [hp | e] eqn:Hp;
        [|exact in_unit_zero];
      destruct tests as [|t0 tests'];
        [ destruct (yn_score _); [|exact in_unit_zero];
          rewrite hidden_score_empty; exact in_unit_zero
        | destruct (component_scores (t0 :: tests') st sol hp
                      ltac:(discriminate) Hp)
            as (yn & h & -> & -> & Hyb & Hhb);
          apply total_score_in_unit; assumption ]
  end.

(** The score of [autograder.grade_with] is in [[0, 1]], whatever the list
    of hidden tests. *)
Lemma autograder_score_in_unit (tests : list HiddenTest)
    (student_load solution_load : res Workbook) :
  in_unit (score (autograder.grade_with tests student_load solution_load)).
Proof. score_cases autograder_graded. Qed.

Lemma grader_score_in_unit (tests : list HiddenTest)
    (student_load solution_load : res Workbook) :
  in_unit (score (grader.result
                    (grader.grade_with tests student_load solution_load))).
Proof. score_cases grader_graded. Qed.

(** ** The conversion of an [int] to a [float] *)

Lemma binary_round_aux_sign (mx ex : Z) (lx : location) :
  SFabs (binary_round_aux prec emax true mx ex lx)
  = SFabs (binary_round_aux prec emax false mx ex lx).
Proof.
  unfold binary_round_aux.
  destruct (shr_fexp prec emax mx ex lx) as [mrs' e'].
  destruct (shr_fexp prec emax _ e' loc_Exact) as [mrs'' e''].
  destruct (shr_m mrs''); try reflexivity.
  destruct (e'' <=? emax - prec); reflexivity.
Qed.

(** From a remainder of one half or more, an odd mantissa is rounded up. *)
Lemma round_nearest_even_up (N D : Z) (r : shr_record) :
  describes N D r -> D <= 2 * (N mod D) -> Z.odd (N / D) = true ->
  round_nearest_even (shr_m r) (loc_of_shr_record r) = N / D + 1.
Proof.
  intros (HD & HN & Hm & Hr & Hs) Hhalf Hodd. destruct r as [m rb sb].
  cbn [shr_m shr_r shr_s] in *.
  assert (rb = true) as -> by (apply Hr; exact Hhalf).
  rewrite <- Hm in Hodd.
  destruct sb; cbn [loc_of_shr_record round_nearest_even]; [lia|].
  rewrite <- Z.negb_odd, Hodd. cbn [negb]. lia.
Qed.

Lemma canonical_max : canonical 9007199254740991 971.
Proof. reflexivity. Qed.

Lemma binary_round_sign (p : positive) (e : Z) :
  SFabs (binary_round prec emax true p e)
  = SFabs (binary_round prec emax false p e).
Proof.
  unfold binary_round. destruct (shl_align p e _) as [mz ez].
  apply binary_round_aux_sign.
Qed.

(** An integer below [2 ^ 1024 - 2 ^ 970] rounds to a float. *)
Lemma int_round_finite (p : positive) :
  Zpos p < 2 ^ 1024 - 2 ^ 970 ->
  below (binary_round prec emax false p 0) 9007199254740991 971.
Proof.
  intros Hp. unfold binary_round.
  pose proof (pow2_pos 970 ltac:(lia)) as HH.
  assert (E1024 : 2 ^ 1024 = 18014398509481984 * 2 ^ 970).
  { change 1024 with (54 + 970). rewrite pow2_split by lia. reflexivity. }
  assert (E1023 : 2 ^ 1023 = 9007199254740992 * 2 ^ 970).
  { change 1023 with (53 + 970). rewrite pow2_split by lia. reflexivity. }
  assert (E971 : 2 ^ 971 = 2 * 2 ^ 970).
  { change 971 with (1 + 970). rewrite pow2_split by lia. reflexivity. }
  rewrite E1024 in Hp. set (H := 2 ^ 970) in *.
  assert (Hd : Zdigits2 (Zpos p) <= 1024).
  { apply Zdigits2_le; [lia|]. rewrite E1024. fold H. lia. }
  destruct (Zdigits2_bounds (Zpos p) ltac:(lia)) as [Hl Hu].
  pose proof (Zdigits2_pos (Zpos p) ltac:(lia)) as Hdp.
  set (F := fexp prec emax (Z.pos (digits2_pos p) + 0)).
  assert (HF : F = Z.max (Zdigits2 (Zpos p) + 0 - 53) (-1074))
    by reflexivity.
  clearbody F.
  destruct (Z_lt_le_dec F 0) as [Hlt | Hge].
  - destruct (shl_align_spec p 0 F ltac:(lia)) as [Ea Eb].
    destruct (shl_align p 0 F) as [mz ez']. cbn [fst snd] in *. subst ez'.
    assert (Hdz : Zdigits2 (Zpos mz) + F = Zdigits2 (Zpos p) + 0).
    { rewrite Ea, Zdigits2_mul_pow2 by lia. lia. }
    apply (binary_round_aux_below (Zpos mz) 1); try lia.
    + apply loc_describes_exact. lia.
    + rewrite Hdz, fexp_unfold. lia.
    + exact canonical_max.
    + rewrite Hdz, fexp_unfold. lia.
    + rewrite Hdz, fexp_unfold, <- HF, Z.sub_diag. change (2 ^ 0) with 1.
      pose proof (pow2_le (Zdigits2 (Zpos p)) 52 ltac:(lia)) as H52.
      change (2 ^ 52) with 4503599627370496 in H52.
      pose proof (pow2_pos (0 - F) ltac:(lia)).
      assert (E : 2 ^ (971 - F) = 2 ^ 971 * 2 ^ (0 - F)).
      { rewrite <- pow2_split by lia. reflexivity. }
      rewrite E, E971. fold H. nia.
  - rewrite shl_align_id by lia.
    apply (binary_round_aux_below (Zpos p) 1); try lia.
    + apply loc_describes_exact. lia.
    + rewrite fexp_unfold. lia.
    + exact canonical_max.
    + rewrite fexp_unfold. lia.
    + rewrite fexp_unfold, <- HF.
      pose proof (pow2_pos (F - 0) ltac:(lia)).
      pose proof (pow2_pos (971 - F) ltac:(lia)).
      assert (E : 2 ^ (F - 0) * 2 ^ (971 - F) = 2 ^ 971).
      { rewrite <- pow2_split by lia. f_equal. lia. }
      rewrite E971 in E. fold H in E.
      destruct (Z.eq_dec (Zdigits2 (Zpos p)) 1024) as [E1 | E1].
      * assert (EF : F = 971) by lia. rewrite EF in *.
        replace (971 - 971) with 0 in * by lia. change (2 ^ 0) with 1 in *.
        nia.
      * pose proof (pow2_le (Zdigits2 (Zpos p)) 1023 ltac:(lia)) as H1023.
        rewrite E1023 in H1023. fold H in H1023. nia.
Qed.

(** An integer from [2 ^ 1024 - 2 ^ 970] on rounds to infinity. *)
Lemma int_round_overflow (p : positive) :
  2 ^ 1024 - 2 ^ 970 <= Zpos p ->
  binary_round prec emax false p 0 = S754_infinity false.
Proof.
  intros Hp. unfold binary_round.
  pose proof (pow2_pos 970 ltac:(lia)) as HH.
  assert (E1024 : 2 ^ 1024 = 18014398509481984 * 2 ^ 970).
  { change 1024 with (54 + 970). rewrite pow2_split by lia. reflexivity. }
  assert (E1023 : 2 ^ 1023 = 9007199254740992 * 2 ^ 970).
  { change 1023 with (53 + 970). rewrite pow2_split by lia. reflexivity. }
  assert (E971 : 2 ^ 971 = 2 * 2 ^ 970).
  { change 971 with (1 + 970). rewrite pow2_split by lia. reflexivity. }
  rewrite E1024 in Hp. set (H := 2 ^ 970) in *.
  assert (Hd : 1024 <= Zdigits2 (Zpos p)).
  { apply Zdigits2_ge; [lia|]. change (1024 - 1) with 1023.
    rewrite E1023. fold H. lia. }
  set (F := fexp prec emax (Z.pos (digits2_pos p) + 0)).
  assert (HF : F = Z.max (Zdigits2 (Zpos p) + 0 - 53) (-1074))
    by reflexivity.
  assert (HF' : F = fexp prec emax (Zdigits2 (Zpos p) + 0)) by reflexivity.
  clearbody F.
  rewrite shl_align_id by lia.
  destruct (shr_fexp_stage (Zpos p) 1 (Zpos p) 0 loc_Exact ltac:(lia)
              (loc_describes_exact (Zpos p) ltac:(lia))
              ltac:(rewrite fexp_unfold; lia) ltac:(lia))
    as (Hd1 & Hs1 & Hc1).
  rewrite <- HF' in Hd1, Hs1, Hc1.
  unfold binary_round_aux.
  destruct (shr_fexp prec emax (Zpos p) 0 loc_Exact) as [mrs' e'].
  cbn [fst snd] in *. subst e'.
  pose proof (round_nearest_even_describes _ _ _ Hd1) as Hr. cbn zeta in Hr.
  pose proof (round_nearest_even_up _ _ _ Hd1) as Hup.
  set (m1 := round_nearest_even (shr_m mrs') (loc_of_shr_record mrs')) in *.
  destruct Hd1 as (HD1 & HN & Hq & _).
  replace (2 ^ (F - 0) * 1) with (2 ^ F) in * by (rewrite Z.sub_0_r; lia).
  pose proof (Z.div_mod (Zpos p) (2 ^ F) ltac:(lia)) as Hdm.
  pose proof (Z.mod_pos_bound (Zpos p) (2 ^ F) HD1) as Hmod.
  assert (Hq0 : 0 <= shr_m mrs') by (rewrite Hq; apply Z.div_pos; lia).
  assert (Hm1' : m1 = shr_m mrs' \/ m1 = shr_m mrs' + 1) by lia.
  pose proof (canonical_lt _ _ Hq0 Hc1) as Hq53.
  change (2 ^ 53) with 9007199254740992 in Hq53.
  assert (Hqpos : 0 < shr_m mrs').
  { destruct (Z.eq_dec (shr_m mrs') 0) as [E0|]; [|lia]. exfalso.
    rewrite E0 in Hq. rewrite <- Hq in Hdm.
    destruct (Zdigits2_bounds (Zpos p) ltac:(lia)) as [Hl _].
    pose proof (pow2_le F (Zdigits2 (Zpos p) - 1) ltac:(lia)). lia. }
  pose proof (renorm_stage (shr_m mrs') F m1 Hq0 Hc1 Hm1') as Hs2.
  cbn zeta in Hs2.
  destruct (shr_fexp prec emax m1 F loc_Exact) as [mrs'' e''].
  cbn [fst snd] in Hs2. destruct Hs2 as (Hm2 & He2 & Hv & Hc2).
  assert (Hgt : 971 < e'').
  { destruct (Z.eq_dec F 971) as [EF | NF]; [|lia].
    rewrite EF in *. rewrite E971 in *. fold H in Hdm, Hmod, Hup, HD1.
    assert (Eq : shr_m mrs' = 9007199254740991) by nia.
    assert (Em1 : m1 = 9007199254740992).
    { rewrite Hup; [rewrite <- Hq; lia | nia |].
      rewrite <- Hq, Eq. reflexivity. }
    pose proof (canonical_lt _ _ Hm2 Hc2) as H53.
    change (2 ^ 53) with 9007199254740992 in H53.
    destruct (Z.eq_dec e'' 971) as [E'' | ]; [|lia]. exfalso.
    rewrite E'', Z.sub_diag in Hv. change (2 ^ 0) with 1 in Hv. lia. }
  destruct (shr_m mrs'') as [|m|m] eqn:Em.
  - exfalso. lia.
  - replace (e'' <=? emax - prec) with false; [reflexivity|].
    symmetry. apply Z.leb_gt. change (emax - prec) with 971. lia.
  - exfalso. lia.
Qed.

(** [float(z)] raises exactly from the magnitude [2 ^ 1024 - 2 ^ 970] on,
    half a unit in the last place above the largest float. *)
Lemma float_of_int_cases (z : Z) :
  match float_of_int z with
  | Ok _ => Z.abs z < 2 ^ 1024 - 2 ^ 970
  | Raise e =>
      e = OverflowError "int too large to convert to float"
      /\ 2 ^ 1024 - 2 ^ 970 <= Z.abs z
  end.
Proof.
  assert (H0 : 0 < 2 ^ 1024 - 2 ^ 970).
  { pose proof (pow2_lt 970 1024 ltac:(lia)). lia. }
  unfold float_of_int, Z2SF.
  destruct z as [|p|p]; cbn [binary_normalize Z.abs].
  - exact H0.
  - destruct (Z_lt_le_dec (Zpos p) (2 ^ 1024 - 2 ^ 970)) as [Hlt | Hge].
    + pose proof (int_round_finite p Hlt) as Hb.
      destruct (binary_round prec emax false p 0) as [[]|[]| |[] m e];
        cbn [below] in Hb; try contradiction; exact Hlt.
    + rewrite (int_round_overflow p Hge). split; [reflexivity | exact Hge].
  - pose proof (binary_round_sign p 0) as Hsign.
    destruct (Z_lt_le_dec (Zpos p) (2 ^ 1024 - 2 ^ 970)) as [Hlt | Hge].
    + pose proof (int_round_finite p Hlt) as Hb.
      destruct (binary_round prec emax false p 0) as [[]|[]| |[] m e];
        cbn [below] in Hb; try contradiction;
        destruct (binary_round prec emax true p 0) as [s|s| |s m' e'];
        cbn [SFabs] in Hsign; try discriminate Hsign; exact Hlt.
    + rewrite (int_round_overflow p Hge) in Hsign.
      destruct (binary_round prec emax true p 0) as [s|s| |s m' e'];
        cbn [SFabs] in Hsign; try discriminate Hsign.
      split; [reflexivity | exact Hge].
Qed.


Lemma valid_binary_abs (r : spec_float) :
  valid_binary (SFabs r) = valid_binary r.
Proof. destruct r; reflexivity. Qed.

(** Below the threshold [float(z)] is the integer [z] rounded by the
    format. *)
Lemma float_of_int_rounds_int (z : Z) :
  Z.abs z < 2 ^ 1024 - 2 ^ 970 ->
  exists g : float,
    float_of_int z = Ok g
    /\ Prim2SF g = binary_normalize prec emax z 0 false.
Proof.
  intros Hz. pose proof (float_of_int_cases z) as Hc.
  assert (Hv : valid_binary (Z2SF z) = true).
  { unfold Z2SF. destruct z as [|p|p]; cbn [binary_normalize];
      [reflexivity | |].
    - apply (below_valid _ _ 971 (int_round_finite p Hz)). lia.
    - rewrite <- valid_binary_abs, binary_round_sign, valid_binary_abs.
      apply (below_valid _ _ 971 (int_round_finite p Hz)). lia. }
  unfold float_of_int in *. fold (Z2SF z).
  destruct (Z2SF z) as [s|s| |s m e] eqn:E;
    try (eexists; split; [reflexivity|];
         rewrite Prim2SF_SF2Prim by exact Hv; reflexivity).
  destruct Hc as [_ Hc]. lia.
Qed.

(** An integer of less than 54 bits is a float. *)
Lemma binary_round_exact (sx : bool) (p : positive) :
  Zpos p < 2 ^ 53 ->
  exists (m : positive) (e : Z),
    binary_round prec emax sx p 0 = S754_finite sx m e
    /\ e <= 0 /\ Zpos m = Zpos p * 2 ^ (- e).
Proof.
  intros Hp. unfold binary_round.
  assert (Hd : Zdigits2 (Zpos p) <= 53) by (apply Zdigits2_le; lia).
  pose proof (Zdigits2_pos (Zpos p) ltac:(lia)) as Hdp.
  set (F := fexp prec emax (Z.pos (digits2_pos p) + 0)).
  assert (HF : F = Z.max (Zdigits2 (Zpos p) + 0 - 53) (-1074))
    by reflexivity.
  clearbody F.
  destruct (shl_align_spec p 0 F ltac:(lia)) as [Ea Eb].
  destruct (shl_align p 0 F) as [mz ez]. cbn [fst snd] in *. subst ez.
  assert (Hdz : Zdigits2 (Zpos mz) + F = Zdigits2 (Zpos p) + 0).
  { rewrite Ea, Zdigits2_mul_pow2 by lia. lia. }
  assert (HFz : fexp prec emax (Zdigits2 (Zpos mz) + F) - F = 0).
  { rewrite Hdz, fexp_unfold. lia. }
  exists mz, F. split; [|split; [lia | rewrite Ea; f_equal]].
  unfold binary_round_aux, shr_fexp. rewrite HFz. cbn [shr].
  cbn [shr_record_of_loc shr_m loc_of_shr_record round_nearest_even].
  rewrite HFz. cbn [shr shr_record_of_loc shr_m].
  replace (F <=? emax - prec) with true; [reflexivity|].
  symmetry. apply Z.leb_le. change (emax - prec) with 971. lia.
Qed.

(** Up to [2 ^ 53] in magnitude, [float(z) == z]. *)
Lemma float_of_int_exact (z : Z) (g : float) :
  Z.abs z <= 2 ^ 53 ->
  Prim2SF g = binary_normalize prec emax z 0 false ->
  int_cmp_float z g = Some Eq.
Proof.
  intros Hz Hg. unfold int_cmp_float. rewrite Hg.
  destruct (Z.eq_dec (Z.abs z) (2 ^ 53)) as [E | NE].
  - assert (z = 9007199254740992 \/ z = -9007199254740992) as [-> | ->]
      by (change (2 ^ 53) with 9007199254740992 in E; lia);
      vm_compute; reflexivity.
  - destruct z as [|p|p]; cbn [binary_normalize Z.abs] in *.
    + reflexivity.
    + destruct (binary_round_exact false p ltac:(lia)) as (m & e & -> & He & Hm).
      cbn [cond_Zopp].
      destruct (Z.leb_spec 0 e) as [H0 | H0].
      * assert (e = 0) as -> by lia. change (2 ^ (- 0)) with 1 in Hm.
        change (2 ^ 0) with 1.
        replace (Z.pos p ?= Z.pos m * 1) with Eq; [reflexivity|].
        symmetry. apply Z.compare_eq_iff. lia.
      * replace (Z.pos p * 2 ^ (- e) ?= Z.pos m) with Eq; [reflexivity|].
        symmetry. apply Z.compare_eq_iff. lia.
    + destruct (binary_round_exact true p ltac:(lia)) as (m & e & -> & He & Hm).
      cbn [cond_Zopp].
      destruct (Z.leb_spec 0 e) as [H0 | H0].
      * assert (e = 0) as -> by lia. change (2 ^ (- 0)) with 1 in Hm.
        change (2 ^ 0) with 1.
        replace (Z.neg p ?= - Z.pos m * 1) with Eq; [reflexivity|].
        symmetry. apply Z.compare_eq_iff. lia.
      * replace (Z.neg p * 2 ^ (- e) ?= - Z.pos m) with Eq; [reflexivity|].
        symmetry. apply Z.compare_eq_iff. lia.
Qed.

(** * The properties *)

(** ** Sample values *)

Example equal_values_close :
  equal_values (VFloat 1.00005) (VFloat 1.0) = Ok true.
Proof. reflexivity. Qed.

Example equal_values_text :
  equal_values (VStr " Yes ") (VStr "yes") = Ok true
  /\ equal_values (VStr "Yes") (VStr "No") = Ok false.
Proof. split; reflexivity. Qed.

Example equal_values_blank :
  equal_values VNone (VStr "") = Ok true /\ equal_values VNone VNone = Ok true.
Proof. split; reflexivity. Qed.

Example int_truediv_thirds :
  int_truediv 1 3 = Ok 0.3333333333333333%float
  /\ int_truediv 2 3 = Ok 0.6666666666666666%float.
Proof. split; vm_compute; reflexivity. Qed.

Example int_truediv_large : int_truediv (2 ^ 60 + 1) (2 ^ 61 + 3) = Ok 0.5%float.
Proof. vm_compute. reflexivity. Qed.

Example int_truediv_underflow : int_truediv 1 (2 ^ 2000) = Ok 0%float.
Proof. vm_compute. reflexivity. Qed.

Example float_of_int_rounds :
  float_of_int (2 ^ 53 + 1) = Ok 9007199254740992%float
  /\ float_of_int (2 ^ 1024)
     = Raise (OverflowError "int too large to convert to float").
Proof. split; vm_compute; reflexivity. Qed.

Example py_eq_numbers :
  py_eq (VInt 1) (VFloat 1) = true /\ py_eq (VBool true) (VInt 1) = true
  /\ py_eq (VInt (2 ^ 53 + 1)) (VFloat 9007199254740992) = false
  /\ py_eq (VStr "1") (VInt 1) = false.
Proof. repeat split; vm_compute; reflexivity. Qed.

Example strip_lower_samples :
  lower (strip (String "009" " Yes" +:+ String "010" "")) = "yes"
  /\ strip "a b " = "a b".
Proof. split; reflexivity. Qed.

Example format_2f_samples :
  format_2f 93.33333333333334 = "93.33" /\ format_2f 2.675 = "2.67"
  /\ format_2f 0.375 = "0.38" /\ format_2f 80 = "80.00".
Proof. repeat split; vm_compute; reflexivity. Qed.

Example hidden_cell_addresses :
  map (fun t => coordinate_to_tuple (cell t)) autograder.HIDDEN_TEST_CELLS
  = [Some (21, 30); Some (62, 13); Some (187, 31)].
Proof. reflexivity. Qed.

(** Scenario A of the specification: all three indicators match and no
    hidden cell does. *)
Example scenario_A :
  autograder.grade_excel_worksheet
    (Ok (workbook_of "blank" (sheet_of [((1,5), VStr "Y"); ((1,6), VStr "Y");
                                        ((1,7), VStr "Y")] 7)))
    (Ok (workbook_of "solution" sheet_yyy))
  = {| score := 0.8;
       feedback := "Your score: 80.00%" +:+ String "010" ""
                   +:+ "You correctly matched 3 out of 3 cells." |}.
Proof. vm_compute. reflexivity. Qed.

(** ** C1: the weighting of the two components *)

(** C1 as stated fails: with both sheets loaded, a hidden cell that holds
    an integer too large for a float, against a float in the solution,
    makes the comparison raise; the score is then 0.0, which is not
    [yn_score * 0.8 + hidden_score * 0.2] for the indicator score 1.0 and
    any of the values the hidden score can take. *)
Lemma C1_counterexample :
  wb_huge !! autograder.STUDENT_SHEET_NAME = Some sheet_huge
  /\ wb_solution_frac !! autograder.SOLUTION_SHEET_NAME = Some sheet_frac
  /\ yn_score (indicator_pass sheet_huge sheet_frac) = Ok 1%float
  /\ hidden_pass autograder.HIDDEN_TEST_CELLS sheet_huge sheet_frac 0
     = Raise (OverflowError "int too large to convert to float")
  /\ autograder.grade_excel_worksheet (Ok wb_huge) (Ok wb_solution_frac)
     = error_result (OverflowError "int too large to convert to float")
  /\ (forall hp h,
        0 <= hp <= 3 ->
        hidden_score hp autograder.HIDDEN_TEST_CELLS = Ok h ->
        score (autograder.grade_excel_worksheet (Ok wb_huge)
                 (Ok wb_solution_frac))
        <> (1 * 0.8 + h * 0.2)%float).
Proof.
  split; [reflexivity|]. split; [reflexivity|].
  split; [vm_compute; reflexivity|]. split; [vm_compute; reflexivity|].
  split; [vm_compute; reflexivity|].
  intros hp h Hhp Hh.
  assert (Hs : score (autograder.grade_excel_worksheet (Ok wb_huge)
                        (Ok wb_solution_frac)) = 0%float)
    by (vm_compute; reflexivity).
  rewrite Hs. intros E. apply (f_equal Prim2SF) in E.
  assert (Hc : hp = 0 \/ hp = 1 \/ hp = 2 \/ hp = 3) by lia.
  destruct Hc as [-> | [-> | [-> | ->]]]; vm_compute in Hh;
    injection Hh as <-; vm_compute in E; discriminate E.
Qed.

(** C1, amended: for every pair of loaded sheets on which the comparisons
    of the hidden cells return, both component scores exist and the
    score of both grading functions is [yn_score * 0.8 + hidden_score * 0.2]. *)
Theorem C1_score_weighting (student_wb solution_wb : Workbook)
    (student_sheet solution_sheet : Worksheet) (hidden_tests_passed : Z) :
  student_wb !! autograder.STUDENT_SHEET_NAME = Some student_sheet ->
  solution_wb !! autograder.SOLUTION_SHEET_NAME = Some solution_sheet ->
  hidden_pass autograder.HIDDEN_TEST_CELLS student_sheet solution_sheet 0
  = Ok hidden_tests_passed ->
  exists yn hidden : float,
    yn_score (indicator_pass student_sheet solution_sheet) = Ok yn
    /\ hidden_score hidden_tests_passed autograder.HIDDEN_TEST_CELLS
       = Ok hidden
    /\ score (autograder.grade_excel_worksheet (Ok student_wb) (Ok solution_wb))
       = (yn * 0.8 + hidden * 0.2)%float
    /\ score (grader.result
                (grader.grade_excel_worksheet (Ok student_wb) (Ok solution_wb)))
       = (yn * 0.8 + hidden * 0.2)%float.
Proof.
  intros Hs Ht Hp.
  destruct (component_scores autograder.HIDDEN_TEST_CELLS student_sheet
              solution_sheet hidden_tests_passed ltac:(discriminate) Hp)
    as (yn & h & Hy & Hh & _).
  exists yn, h. split; [exact Hy|]. split; [exact Hh|].
  unfold autograder.grade_excel_worksheet, grader.grade_excel_worksheet.
  rewrite (autograder_graded _ _ _ _ _ Hs Ht).
  rewrite (grader_graded _ _ _ _ _ Hs Ht).
  change grader.HIDDEN_TEST_CELLS with autograder.HIDDEN_TEST_CELLS.
  rewrite Hp, Hy, Hh. split; reflexivity.
Qed.

Lemma C1_witness :
  exists yn hidden : float,
    yn_score (indicator_pass sheet_yyy sheet_yyn) = Ok yn
    /\ hidden_score 2 autograder.HIDDEN_TEST_CELLS = Ok hidden
    /\ score (autograder.grade_excel_worksheet (Ok wb_yyy) (Ok wb_solution_yyn))
       = (yn * 0.8 + hidden * 0.2)%float
    /\ score (grader.result
                (grader.grade_excel_worksheet (Ok wb_yyy) (Ok wb_solution_yyn)))
       = (yn * 0.8 + hidden * 0.2)%float.
Proof.
  apply (C1_score_weighting wb_yyy wb_solution_yyn sheet_yyy sheet_yyn 2);
    vm_compute; reflexivity.
Defined.

(** ** C2: the indicator-row pass *)

(** C2 as stated fails: the integer 1 in the student's E1 and the float
    1.0 in the solution's E1 are of different types, and the column is
    counted as a match, because [==] compares numbers by value. *)
Lemma C2_counterexample :
  cell_value sheet_int_one 1 5 = VInt 1
  /\ cell_value sheet_float_one 1 5 = VFloat 1
  /\ type_of (VInt 1) <> type_of (VFloat 1)
  /\ VInt 1 <> VFloat 1
  /\ indicator_pass sheet_int_one sheet_float_one
     = {| matches := 1; total_cells := 1 |}.
Proof.
  split; [reflexivity|]. split; [reflexivity|].
  split; [discriminate|]. split; [discriminate|]. reflexivity.
Qed.

(** C2, amended: the pass visits the columns 5 to [max_col] inclusive, once
    each; [total_cells] counts the columns whose two row-1 values are not
    [None], [matches] counts those of them whose values are equal under
    Python's [==] (equal type and value, or numbers of equal numeric
    value whatever their types), and [yn_score] is [matches / total_cells],
    which returns, when [total_cells > 0], and 0.0 otherwise. *)
Theorem C2_indicator_pass (student_sheet solution_sheet : Worksheet) :
  let cols := range 5 (max_col student_sheet solution_sheet + 1) in
  let c := indicator_pass student_sheet solution_sheet in
  max_col student_sheet solution_sheet
  = Z.max (max_column student_sheet) (max_column solution_sheet)
  /\ NoDup cols
  /\ (forall col_idx,
        col_idx ∈ cols
        <-> 5 <= col_idx <= max_col student_sheet solution_sheet)
  /\ total_cells c = count (both_present student_sheet solution_sheet) cols
  /\ matches c = count (column_matches student_sheet solution_sheet) cols
  /\ (0 < total_cells c ->
      yn_score c = int_truediv (matches c) (total_cells c)
      /\ exists yn, yn_score c = Ok yn)
  /\ (total_cells c = 0 -> yn_score c = Ok 0%float).
Proof.
  cbn zeta. split; [unfold max_col; lia|].
  split; [apply NoDup_seqZ|].
  split; [intros col_idx; unfold range; rewrite elem_of_seqZ; lia|].
  unfold indicator_pass at 1 2. rewrite fold_indicator_step.
  cbn [matches total_cells]. rewrite !Z.add_0_l.
  split; [reflexivity|]. split; [reflexivity|].
  pose proof (indicator_pass_counts student_sheet solution_sheet) as Hc.
  split.
  - intros Ht. split.
    + unfold yn_score. destruct (Z.ltb_spec 0 (total_cells
        (indicator_pass student_sheet solution_sheet))); [reflexivity | lia].
    + destruct (yn_score_below _ Hc) as (yn & Hy & _). exists yn. exact Hy.
  - intros Ht. unfold yn_score. rewrite Ht. reflexivity.
Qed.

(** What [==] means on two row-1 values: they are of the same type and
    equal, or they are numbers ([int], [float] or [bool]) of equal value. *)
Lemma py_eq_cases (a b : value) :
  py_eq a b = true ->
  a = b \/ exists x y, as_number a = Some x /\ as_number b = Some y
                       /\ number_eq x y = true.
Proof.
  destruct a as [|a|a|a|a|ka a], b as [|b|b|b|b|kb b]; cbn;
    try discriminate; try (intros; left; reflexivity);
    try (intros H; right; eexists _, _; repeat split; exact H).
  - intros H. left. f_equal. apply String.eqb_eq. exact H.
  - intros H. apply andb_true_iff in H. destruct H as [Hk Hx].
    left. apply Z.eqb_eq in Hx. subst.
    destruct ka, kb; try discriminate; reflexivity.
Qed.

(** ** C3: failures become a zero score *)

(** The [try] block raises only through a failure. *)
Lemma body_raises_only_failures (tests : list HiddenTest)
    (student_load solution_load : res Workbook) (e : exn) :
  tests <> [] ->
  autograder.grade_body tests student_load solution_load = Raise e ->
  failure tests student_load solution_load e.
Proof.
  intros Hne H. unfold autograder.grade_body in H.
  destruct student_load as [swb | e1]; cbn [res_bind] in H;
    [|injection H as <-; constructor].
  destruct solution_load as [twb | e1]; cbn [res_bind] in H;
    [|injection H as <-; constructor].
  destruct (swb !! autograder.STUDENT_SHEET_NAME) as [st|] eqn:Hs;
    [|discriminate].
  destruct (twb !! autograder.SOLUTION_SHEET_NAME) as [sol|] eqn:Ht;
    [|discriminate].
  destruct (hidden_pass tests st sol 0) as [hp | e1] eqn:Hp;
    cbn [res_bind] in H;
    [|injection H as <-; apply (comparison_fails _ _ _ st sol); assumption].
  destruct (component_scores tests st sol hp Hne Hp)
    as (yn & h & Hy & Hh & _).
  rewrite Hy in H. cbn [res_bind] in H. rewrite Hh in H. discriminate.
Qed.

(** The only exception a comparison raises. *)
Lemma float_of_int_raise (z : Z) (e : exn) :
  float_of_int z = Raise e ->
  e = OverflowError "int too large to convert to float".
Proof.
  unfold float_of_int. destruct (Z2SF z); intros H;
    first [discriminate H | injection H as <-; reflexivity].
Qed.

Lemma equal_values_raise (val1 val2 : value) (e : exn) :
  equal_values val1 val2 = Raise e ->
  e = OverflowError "int too large to convert to float".
Proof.
  unfold equal_values.
  destruct (none_or_empty val1 && none_or_empty val2); [discriminate|].
  destruct (as_number val1) as [[x | f]|], (as_number val2) as [[y | g]|];
    cbn [py_sub res_bind]; try discriminate;
    try (destruct val1, val2; discriminate).
  - destruct (float_of_int x) as [f | e1] eqn:E; cbn [res_bind];
      [discriminate|].
    intros [= <-]. exact (float_of_int_raise x e1 E).
  - destruct (float_of_int y) as [g | e1] eqn:E; cbn [res_bind];
      [discriminate|].
    intros [= <-]. exact (float_of_int_raise y e1 E).
Qed.

Lemma hidden_pass_raise (tests : list HiddenTest)
    (student_sheet solution_sheet : Worksheet) (passed : Z) (e : exn) :
  hidden_pass tests student_sheet solution_sheet passed = Raise e ->
  e = OverflowError "int too large to convert to float".
Proof.
  revert passed. induction tests as [|test rest IH]; intros passed;
    cbn [hidden_pass]; [discriminate|].
  destruct (equal_values _ _) as [eq | e1] eqn:E; cbn [res_bind].
  - apply IH.
  - intros [= <-]. exact (equal_values_raise _ _ _ E).
Qed.

(** C3: [grade_excel_worksheet] is a total function, so it raises nothing;
    when a workbook fails to load or a comparison raises, with an
    exception [e] whose message is [msg], the [try] block raises [e] and
    the result has the score 0.0 and the feedback "Error grading your
    submission: " followed by [msg], in both source files. When both
    workbooks load, the failure is a comparison, and the feedback is
    "Error grading your submission: int too large to convert to float". *)
Theorem C3_failure_gives_zero_score (student_load solution_load : res Workbook)
    (e : exn) :
  failure autograder.HIDDEN_TEST_CELLS student_load solution_load e ->
  exists msg : string,
    (e = LoadError msg \/ e = OverflowError msg \/ e = ZeroDivisionError msg)
    /\ autograder.grade_body autograder.HIDDEN_TEST_CELLS student_load
         solution_load = Raise e
    /\ autograder.grade_excel_worksheet student_load solution_load
       = {| score := 0;
            feedback := "Error grading your submission: " +:+ msg |}
    /\ grader.grade_excel_worksheet student_load solution_load
       = {| grader.result :=
              {| score := 0;
                 feedback := "Error grading your submission: " +:+ msg |};
            grader.details := None |}
    /\ (forall student_wb solution_wb,
          student_load = Ok student_wb -> solution_load = Ok solution_wb ->
          e = OverflowError "int too large to convert to float"
          /\ feedback
               (autograder.grade_excel_worksheet student_load solution_load)
             = "Error grading your submission: int too large to convert to float").
Proof.
  intros H. unfold autograder.grade_excel_worksheet,
    grader.grade_excel_worksheet.
  destruct H as [e tl | swb e | swb twb st sol e Hs Ht Hp].
  - exists (match e with
            | OverflowError m | ZeroDivisionError m | LoadError m => m
            end).
    split; [destruct e; tauto|].
    split; [reflexivity|].
    split; [destruct e; reflexivity|].
    split; [destruct e; reflexivity|].
    intros swb twb E. discriminate E.
  - exists (match e with
            | OverflowError m | ZeroDivisionError m | LoadError m => m
            end).
    split; [destruct e; tauto|].
    split; [reflexivity|].
    split; [destruct e; reflexivity|].
    split; [destruct e; reflexivity|].
    intros swb' twb _ E. discriminate E.
  - pose proof (hidden_pass_raise _ _ _ _ _ Hp) as ->.
    exists "int too large to convert to float".
    rewrite (autograder_graded _ _ _ _ _ Hs Ht).
    rewrite (grader_graded _ _ _ _ _ Hs Ht).
    change grader.HIDDEN_TEST_CELLS with autograder.HIDDEN_TEST_CELLS.
    unfold autograder.grade_body. cbn [res_bind]. rewrite Hs, Ht, Hp.
    split; [tauto|].
    repeat split; reflexivity.
Qed.

Lemma C3_witness :
  exists msg : string,
    (OverflowError "int too large to convert to float" = LoadError msg
     \/ OverflowError "int too large to convert to float" = OverflowError msg
     \/ OverflowError "int too large to convert to float"
        = ZeroDivisionError msg)
    /\ autograder.grade_body autograder.HIDDEN_TEST_CELLS (Ok wb_huge)
         (Ok wb_solution_frac)
       = Raise (OverflowError "int too large to convert to float")
    /\ autograder.grade_excel_worksheet (Ok wb_huge) (Ok wb_solution_frac)
       = {| score := 0;
            feedback := "Error grading your submission: " +:+ msg |}
    /\ grader.grade_excel_worksheet (Ok wb_huge) (Ok wb_solution_frac)
       = {| grader.result :=
              {| score := 0;
                 feedback := "Error grading your submission: " +:+ msg |};
            grader.details := None |}
    /\ (forall student_wb solution_wb,
          Ok wb_huge = Ok student_wb ->
          Ok wb_solution_frac = Ok solution_wb ->
          OverflowError "int too large to convert to float"
          = OverflowError "int too large to convert to float"
          /\ feedback
               (autograder.grade_excel_worksheet (Ok wb_huge)
                  (Ok wb_solution_frac))
             = "Error grading your submission: int too large to convert to float").
Proof.
  apply (C3_failure_gives_zero_score (Ok wb_huge) (Ok wb_solution_frac)).
  apply (comparison_fails _ wb_huge wb_solution_frac sheet_huge sheet_frac);
    vm_compute; reflexivity.
Defined.

(** ** C4: a missing sheet *)

(** C4: when the student workbook has no sheet "blank" or the solution
    workbook no sheet "solution", both functions return the score 0.0 and
    a "not found" message that tells which sheet is missing (the student's
    is looked for first); the result is the same for every list of hidden
    tests, no cell being read, and grader.py reports no counts. *)
Theorem C4_missing_sheet (student_wb solution_wb : Workbook) :
  student_wb !! autograder.STUDENT_SHEET_NAME = None
  \/ solution_wb !! autograder.SOLUTION_SHEET_NAME = None ->
  let a := autograder.grade_excel_worksheet (Ok student_wb) (Ok solution_wb) in
  let l := grader.grade_excel_worksheet (Ok student_wb) (Ok solution_wb) in
  score a = 0%float /\ score (grader.result l) = 0%float
  /\ grader.details l = None
  /\ (student_wb !! autograder.STUDENT_SHEET_NAME = None ->
      feedback a = "Error: Worksheet 'blank' not found in your submission."
      /\ feedback (grader.result l)
         = "Error: Worksheet 'blank' not found in your submission.")
  /\ (student_wb !! autograder.STUDENT_SHEET_NAME <> None ->
      feedback a = "Error: Internal error - Solution worksheet not found."
      /\ feedback (grader.result l) = "Error: Solution worksheet not found.")
  /\ (forall tests,
        autograder.grade_with tests (Ok student_wb) (Ok solution_wb) = a
        /\ grader.grade_with tests (Ok student_wb) (Ok solution_wb) = l).
Proof.
  intros H. cbn zeta. unfold_grade.
  destruct (student_wb !! autograder.STUDENT_SHEET_NAME) as [st|] eqn:Hs.
  - destruct H as [H | H]; [discriminate|]. rewrite H.
    cbn [score feedback grader.result grader.details].
    split; [reflexivity|]. split; [reflexivity|]. split; [reflexivity|].
    split; [intros E; discriminate E|].
    split; [intros _; split; reflexivity|].
    intros tests. split; reflexivity.
  - cbn [score feedback grader.result grader.details].
    split; [reflexivity|]. split; [reflexivity|]. split; [reflexivity|].
    split; [intros _; split; reflexivity|].
    split; [intros E; contradiction|].
    intros tests. split; reflexivity.
Qed.

Lemma C4_witness :
  let a := autograder.grade_excel_worksheet (Ok wb_yyy) (Ok wb_misnamed) in
  let l := grader.grade_excel_worksheet (Ok wb_yyy) (Ok wb_misnamed) in
  score a = 0%float /\ score (grader.result l) = 0%float
  /\ grader.details l = None
  /\ (wb_yyy !! autograder.STUDENT_SHEET_NAME = None ->
      feedback a = "Error: Worksheet 'blank' not found in your submission."
      /\ feedback (grader.result l)
         = "Error: Worksheet 'blank' not found in your submission.")
  /\ (wb_yyy !! autograder.STUDENT_SHEET_NAME <> None ->
      feedback a = "Error: Internal error - Solution worksheet not found."
      /\ feedback (grader.result l) = "Error: Solution worksheet not found.")
  /\ (forall tests,
        autograder.grade_with tests (Ok wb_yyy) (Ok wb_misnamed) = a
        /\ grader.grade_with tests (Ok wb_yyy) (Ok wb_misnamed) = l).
Proof.
  apply (C4_missing_sheet wb_yyy wb_misnamed). right. reflexivity.
Defined.

(** ** C5: the numeric tolerance *)

Lemma int_lt_tolerance (z : Z) :
  0 <= z -> py_lt (inl z) (inr 0.0001%float) = (z =? 0).
Proof.
  intros Hz. unfold py_lt, int_cmp_float.
  change (Prim2SF 0.0001) with (S754_finite false 7378697629483821 (-66)).
  cbn [cond_Zopp Z.leb Z.compare].
  change (2 ^ (- (-66))) with 73786976294838206464.
  destruct (Z.eqb_spec z 0) as [-> | Hn]; [reflexivity|].
  destruct (Z.compare_spec (z * 73786976294838206464) 7378697629483821);
    try reflexivity; lia.
Qed.

(** Against the claim as stated: the [int] 2 ** 53 + 1 and the [float]
    9007199254740992.0, which is 2 ** 53 exactly, differ by 1 and are
    equal for [equal_values], since the subtraction first rounds the
    [int] to a [float]; and a comparison of an [int] too large for a
    [float] with a [float] returns nothing, it raises. *)
Lemma C5_counterexample :
  equal_values (VInt (2 ^ 53 + 1)) (VFloat 9007199254740992) = Ok true
  /\ int_cmp_float (2 ^ 53) 9007199254740992%float = Some Eq
  /\ Z.abs (2 ^ 53 + 1 - 2 ^ 53) = 1
  /\ equal_values (VInt (10 ^ 400)) (VFloat 1.5)
     = Raise (OverflowError "int too large to convert to float").
Proof. vm_compute. repeat split; reflexivity. Qed.

(** C5, amended: on two numbers (a [bool] counts as the [int] 1 or 0)
    [equal_values] is [abs(a - b) < 0.0001] in Python's arithmetic, not in
    exact arithmetic.
    - Two [int]s are equal exactly when they are the same integer.
    - Two [float]s are equal exactly when their binary64 difference has
      an absolute value below the float 0.0001.
    - An [int] [x] against a [float]: below [2 ** 1024 - 2 ** 970] in
      magnitude, [x] is first rounded to the float [g] of the format
      ([g == x] up to [2 ** 53]), and the rule of two floats is applied;
      from that magnitude on, the comparison raises OverflowError.
    - 1.00005 equals 1.0 and 1.01 does not. *)
Theorem C5_numeric_tolerance (a : value) (x : Z) (f h : float) :
  as_number a = Some (inl x) ->
  (forall (b : value) (y : Z),
     as_number b = Some (inl y) -> equal_values a b = Ok (x =? y))
  /\ equal_values (VFloat f) (VFloat h) = Ok (abs (f - h) <? 0.0001)%float
  /\ (Z.abs x < 2 ^ 1024 - 2 ^ 970 ->
      exists g : float,
        Prim2SF g = binary_normalize prec emax x 0 false
        /\ (Z.abs x <= 2 ^ 53 -> int_cmp_float x g = Some Eq)
        /\ equal_values a (VFloat f) = Ok (abs (g - f) <? 0.0001)%float
        /\ equal_values (VFloat f) a = Ok (abs (f - g) <? 0.0001)%float)
  /\ (2 ^ 1024 - 2 ^ 970 <= Z.abs x ->
      equal_values a (VFloat f)
      = Raise (OverflowError "int too large to convert to float")
      /\ equal_values (VFloat f) a
         = Raise (OverflowError "int too large to convert to float"))
  /\ equal_values (VFloat 1.00005) (VFloat 1.0) = Ok true
  /\ equal_values (VFloat 1.01) (VFloat 1.0) = Ok false.
Proof.
  intros Ha.
  assert (Hblank : none_or_empty a = false)
    by (destruct a; try discriminate; reflexivity).
  split.
  { intros b y Hb. unfold equal_values. rewrite Hblank, Ha, Hb.
    cbn [andb py_sub res_bind py_abs]. rewrite int_lt_tolerance by lia.
    f_equal. destruct (Z.eqb_spec (Z.abs (x - y)) 0);
      destruct (Z.eqb_spec x y); try reflexivity; lia. }
  split; [reflexivity|].
  split.
  { intros Hx.
    destruct (float_of_int_rounds_int x Hx) as (g & Hg & Hr).
    exists g. split; [exact Hr|].
    split; [intros H53; exact (float_of_int_exact x g H53 Hr)|].
    unfold equal_values. rewrite Hblank, Ha.
    cbn [none_or_empty andb as_number py_sub]. rewrite Hg.
    split; reflexivity. }
  split; [|split; reflexivity].
  intros Hx. pose proof (float_of_int_cases x) as Hc.
  unfold equal_values. rewrite Hblank, Ha.
  cbn [none_or_empty andb as_number py_sub].
  destruct (float_of_int x) as [g | e]; [lia|].
  destruct Hc as [-> _]. split; reflexivity.
Qed.

Lemma C5_witness :
  (forall (b : value) (y : Z),
     as_number b = Some (inl y) -> equal_values (VBool true) b = Ok (1 =? y))
  /\ equal_values (VFloat 1.00005) (VFloat 1.0)
     = Ok (abs (1.00005 - 1.0) <? 0.0001)%float
  /\ (Z.abs 1 < 2 ^ 1024 - 2 ^ 970 ->
      exists g : float,
        Prim2SF g = binary_normalize prec emax 1 0 false
        /\ (Z.abs 1 <= 2 ^ 53 -> int_cmp_float 1 g = Some Eq)
        /\ equal_values (VBool true) (VFloat 1.00005)
           = Ok (abs (g - 1.00005) <? 0.0001)%float
        /\ equal_values (VFloat 1.00005) (VBool true)
           = Ok (abs (1.00005 - g) <? 0.0001)%float)
  /\ (2 ^ 1024 - 2 ^ 970 <= Z.abs 1 ->
      equal_values (VBool true) (VFloat 1.00005)
      = Raise (OverflowError "int too large to convert to float")
      /\ equal_values (VFloat 1.00005) (VBool true)
         = Raise (OverflowError "int too large to convert to float"))
  /\ equal_values (VFloat 1.00005) (VFloat 1.0) = Ok true
  /\ equal_values (VFloat 1.01) (VFloat 1.0) = Ok false.
Proof.
  apply (C5_numeric_tolerance (VBool true) 1 1.00005 1.0); reflexivity.
Defined.

(** ** C6: the other types *)

(** C6 as stated fails: [True] and the integer 1 are of different types
    and [equal_values] returns true on them, a [bool] being an [int] for
    [isinstance]. *)
Lemma C6_counterexample :
  none_or_empty (VBool true) = false /\ none_or_empty (VInt 1) = false
  /\ type_of (VBool true) <> type_of (VInt 1)
  /\ VBool true <> VInt 1
  /\ equal_values (VBool true) (VInt 1) = Ok true.
Proof. repeat split; try reflexivity; discriminate. Qed.

(** C6, amended: on two values that are not both blank, not both numbers
    in Python's sense ([int], [float] or [bool]) and not both text,
    [equal_values] returns, and returns true exactly when the two values
    are equal in value and type; a [bool] paired with a number is compared
    as the integer 1 or 0 under the numeric tolerance. *)
Theorem C6_exact_equality (a b : value) :
  none_or_empty a && none_or_empty b = false ->
  isinstance_int_float a && isinstance_int_float b = false ->
  isinstance_str a && isinstance_str b = false ->
  (exists r : bool,
      equal_values a b = Ok r
      /\ (r = true <-> type_of a = type_of b /\ a = b))
  /\ (forall (t : bool) (v : value),
        isinstance_int_float v = true ->
        equal_values (VBool t) v = equal_values (VInt (Z.b2z t)) v
        /\ equal_values v (VBool t) = equal_values v (VInt (Z.b2z t))).
Proof.
  intros Hblank Hnum Hstr. split.
  - destruct a as [|a|a|a|a|ka a], b as [|b|b|b|b|kb b];
      try discriminate Hblank; try discriminate Hnum; try discriminate Hstr;
      try (exists false; split;
           [unfold equal_values; rewrite Hblank; reflexivity
           | split; [discriminate | intros [E _]; discriminate E]]).
    exists (other_kind_eqb ka kb && (a =? b)). split; [reflexivity|].
    rewrite andb_true_iff, Z.eqb_eq. split.
    + intros [Hk ->]. destruct ka, kb; try discriminate Hk; split; reflexivity.
    + intros [_ E]. injection E as -> ->. split; [destruct kb|]; reflexivity.
  - intros t v Hv. destruct v; try discriminate Hv; split; reflexivity.
Qed.

Lemma C6_witness :
  (exists r : bool,
      equal_values (VBool true) (VStr "TRUE") = Ok r
      /\ (r = true
          <-> type_of (VBool true) = type_of (VStr "TRUE")
              /\ VBool true = VStr "TRUE"))
  /\ (forall (t : bool) (v : value),
        isinstance_int_float v = true ->
        equal_values (VBool t) v = equal_values (VInt (Z.b2z t)) v
        /\ equal_values v (VBool t) = equal_values v (VInt (Z.b2z t))).
Proof.
  apply (C6_exact_equality (VBool true) (VStr "TRUE")); reflexivity.
Defined.

(** ** C7: the range of the score *)

(** C7: for every input, the score of the result is in [[0.0, 1.0]], in
    both source files. *)
Theorem C7_score_in_unit (student_load solution_load : res Workbook) :
  let a := autograder.grade_excel_worksheet student_load solution_load in
  let l := grader.grade_excel_worksheet student_load solution_load in
  ((0 <=? score a)%float = true /\ (score a <=? 1)%float = true)
  /\ ((0 <=? score (grader.result l))%float = true
      /\ (score (grader.result l) <=? 1)%float = true).
Proof.
  cbn zeta. split.
  - apply autograder_score_in_unit.
  - apply grader_score_in_unit.
Qed.

(** ** C8: the denominator of the hidden score *)

(** C8 as stated fails: were the list of hidden tests empty, the division
    by its length would raise; the grading then returns the error result
    with the score 0.0, not a score computed with a hidden score of 0.0
    (here 1.0 * 0.8 + 0.0 * 0.2). *)
Lemma C8_counterexample :
  hidden_pass [] sheet_yyy sheet_yyy 0 = Ok 0
  /\ yn_score (indicator_pass sheet_yyy sheet_yyy) = Ok 1%float
  /\ hidden_score 0 [] = Raise (ZeroDivisionError "division by zero")
  /\ autograder.grade_with [] (Ok wb_yyy) (Ok wb_solution_yyy)
     = error_result (ZeroDivisionError "division by zero")
  /\ score (autograder.grade_with [] (Ok wb_yyy) (Ok wb_solution_yyy))
     <> (1 * 0.8 + 0 * 0.2)%float.
Proof.
  split; [reflexivity|]. split; [vm_compute; reflexivity|].
  split; [reflexivity|]. split; [vm_compute; reflexivity|].
  intros E. apply (f_equal Prim2SF) in E. vm_compute in E. discriminate E.
Qed.

(** C8, amended: were the list of hidden tests empty, a grading that
    finds both sheets would still return (nothing is raised to the caller),
    but the division by zero is caught and the result is the error result
    with the score 0.0 and the feedback "Error grading your submission:
    division by zero"; for the actual list, the hidden score is the number
    of passed tests, which is between 0 and 3, divided by 3, and the
    division returns. *)
Theorem C8_hidden_denominator (student_wb solution_wb : Workbook)
    (student_sheet solution_sheet : Worksheet) :
  student_wb !! autograder.STUDENT_SHEET_NAME = Some student_sheet ->
  solution_wb !! autograder.SOLUTION_SHEET_NAME = Some solution_sheet ->
  autograder.grade_with [] (Ok student_wb) (Ok solution_wb)
  = {| score := 0;
       feedback := "Error grading your submission: division by zero" |}
  /\ grader.grade_with [] (Ok student_wb) (Ok solution_wb)
     = {| grader.result :=
            {| score := 0;
               feedback :=
                 "Error grading your submission: division by zero" |};
          grader.details := None |}
  /\ Z.of_nat (length autograder.HIDDEN_TEST_CELLS) = 3
  /\ (forall hp,
        hidden_pass autograder.HIDDEN_TEST_CELLS student_sheet solution_sheet 0
        = Ok hp ->
        0 <= hp <= 3
        /\ hidden_score hp autograder.HIDDEN_TEST_CELLS = int_truediv hp 3
        /\ exists hidden : float,
             hidden_score hp autograder.HIDDEN_TEST_CELLS = Ok hidden).
Proof.
  intros Hs Ht.
  destruct (yn_score_below _ (indicator_pass_counts student_sheet
                                solution_sheet)) as (yn & Hy & _).
  split; [|split; [|split; [reflexivity|]]].
  - rewrite (autograder_graded _ _ _ _ _ Hs Ht).
    cbn [hidden_pass]. rewrite Hy, hidden_score_empty. reflexivity.
  - rewrite (grader_graded _ _ _ _ _ Hs Ht).
    cbn [hidden_pass]. rewrite Hy, hidden_score_empty. reflexivity.
  - intros hp Hp. pose proof (hidden_pass_bounds _ _ _ _ _ Hp) as Hb.
    cbn [length autograder.HIDDEN_TEST_CELLS] in Hb.
    split; [lia|]. split; [reflexivity|].
    destruct (hidden_score_below autograder.HIDDEN_TEST_CELLS hp
                ltac:(discriminate) ltac:(cbn [length autograder.HIDDEN_TEST_CELLS]; lia))
      as (h & Hh & _).
    exists h. exact Hh.
Qed.

Lemma C8_witness :
  autograder.grade_with [] (Ok wb_yyy) (Ok wb_solution_yyn)
  = {| score := 0;
       feedback := "Error grading your submission: division by zero" |}
  /\ grader.grade_with [] (Ok wb_yyy) (Ok wb_solution_yyn)
     = {| grader.result :=
            {| score := 0;
               feedback :=
                 "Error grading your submission: division by zero" |};
          grader.details := None |}
  /\ Z.of_nat (length autograder.HIDDEN_TEST_CELLS) = 3
  /\ (forall hp,
        hidden_pass autograder.HIDDEN_TEST_CELLS sheet_yyy sheet_yyn 0 = Ok hp ->
        0 <= hp <= 3
        /\ hidden_score hp autograder.HIDDEN_TEST_CELLS = int_truediv hp 3
        /\ exists hidden : float,
             hidden_score hp autograder.HIDDEN_TEST_CELLS = Ok hidden).
Proof.
  apply (C8_hidden_denominator wb_yyy wb_solution_yyn sheet_yyy sheet_yyn);
    reflexivity.
Defined.

(** ** C9: the two source files *)

(** C9 as stated fails: when the solution workbook lacks its sheet, the
    two functions return different feedback strings. *)
Lemma C9_counterexample :
  feedback (autograder.grade_excel_worksheet (Ok wb_yyy) (Ok wb_misnamed))
  = "Error: Internal error - Solution worksheet not found."
  /\ feedback (grader.result
                 (grader.grade_excel_worksheet (Ok wb_yyy) (Ok wb_misnamed)))
     = "Error: Solution worksheet not found."
  /\ feedback (autograder.grade_excel_worksheet (Ok wb_yyy) (Ok wb_misnamed))
     <> feedback (grader.result
                    (grader.grade_excel_worksheet (Ok wb_yyy) (Ok wb_misnamed))).
Proof.
  split; [reflexivity|]. split; [reflexivity|].
  vm_compute. discriminate.
Qed.

Lemma lookup_cases (wb : Workbook) (name : string) :
  (bool_decide (is_Some (wb !! name)) = true
   /\ bool_decide (wb !! name = None) = false
   /\ exists sheet, wb !! name = Some sheet)
  \/ (bool_decide (is_Some (wb !! name)) = false
      /\ bool_decide (wb !! name = None) = true /\ wb !! name = None).
Proof.
  destruct (wb !! name) as [sheet|] eqn:E.
  - left. split; [apply bool_decide_eq_true; eexists; reflexivity|].
    split; [apply bool_decide_eq_false; discriminate|].
    exists sheet. reflexivity.
  - right. split; [apply bool_decide_eq_false; intros [x Hx]; discriminate|].
    split; [apply bool_decide_eq_true; reflexivity | reflexivity].
Qed.

(** The two functions on the same pair of loads. *)
Lemma local_agrees_cases (student_load solution_load : res Workbook) :
  let a := autograder.grade_excel_worksheet student_load solution_load in
  let l := grader.grade_excel_worksheet student_load solution_load in
  score (grader.result l) = score a
  /\ (if solution_sheet_missing student_load solution_load
      then feedback a = "Error: Internal error - Solution worksheet not found."
           /\ feedback (grader.result l)
              = "Error: Solution worksheet not found."
      else feedback (grader.result l) = feedback a)
  /\ match grader.details l with
     | None => score a = 0%float
     | Some d =>
         exists student_wb solution_wb student_sheet solution_sheet,
           student_load = Ok student_wb /\ solution_load = Ok solution_wb
           /\ student_wb !! grader.STUDENT_SHEET_NAME = Some student_sheet
           /\ solution_wb !! grader.SOLUTION_SHEET_NAME = Some solution_sheet
           /\ hidden_pass grader.HIDDEN_TEST_CELLS student_sheet solution_sheet 0
              = Ok (grader.hidden_passed d)
           /\ grader.d_matches d
              = matches (indicator_pass student_sheet solution_sheet)
           /\ grader.d_total_cells d
              = total_cells (indicator_pass student_sheet solution_sheet)
           /\ grader.hidden_total d = 3
     end.
Proof.
  cbn zeta.
  unfold autograder.grade_excel_worksheet, grader.grade_excel_worksheet.
  destruct student_load as [swb | e]; [|repeat split; reflexivity].
  destruct solution_load as [twb | e]; [|repeat split; reflexivity].
  unfold solution_sheet_missing.
  destruct (lookup_cases swb autograder.STUDENT_SHEET_NAME)
    as [(-> & _ & st & Hs) | (-> & _ & Hs)].
  - destruct (lookup_cases twb autograder.SOLUTION_SHEET_NAME)
      as [(_ & -> & sol & Ht) | (_ & -> & Ht)]; cbn [andb].
    + rewrite (autograder_graded _ _ _ _ _ Hs Ht).
      rewrite (grader_graded _ _ _ _ _ Hs Ht).
      change grader.HIDDEN_TEST_CELLS with autograder.HIDDEN_TEST_CELLS.
      destruct (hidden_pass autograder.HIDDEN_TEST_CELLS st sol 0)
        as [hp | e] eqn:Hp; [|repeat split; reflexivity].
      destruct (yn_score (indicator_pass st sol)) as [yn | e];
        [|repeat split; reflexivity].
      destruct (hidden_score hp autograder.HIDDEN_TEST_CELLS) as [h | e];
        [|repeat split; reflexivity].
      split; [reflexivity|]. split; [reflexivity|].
      cbn [grader.details]. exists swb, twb, st, sol.
      repeat split; try reflexivity; assumption.
    + unfold_grade. rewrite Hs, Ht. repeat split; reflexivity.
  - cbn [andb]. unfold_grade. rewrite Hs. repeat split; reflexivity.
Qed.

(** C9, amended: for every pair of workbooks (loaded or not) the two
    functions return the same score; they return the same feedback unless
    the student's sheet is found and the solution's is not, where the
    platform version says "Error: Internal error - Solution worksheet not
    found." and the local one "Error: Solution worksheet not found."; the
    local version adds its four diagnostic fields exactly when the grading
    runs to its end (both sheets found and every comparison of hidden
    cells returning), and they hold the counts of that grading. *)
Theorem C9_local_agrees (student_load solution_load : res Workbook) :
  let a := autograder.grade_excel_worksheet student_load solution_load in
  let l := grader.grade_excel_worksheet student_load solution_load in
  score (grader.result l) = score a
  /\ (if solution_sheet_missing student_load solution_load
      then feedback a = "Error: Internal error - Solution worksheet not found."
           /\ feedback (grader.result l)
              = "Error: Solution worksheet not found."
      else feedback (grader.result l) = feedback a)
  /\ match grader.details l with
     | None => score a = 0%float
     | Some d =>
         exists student_wb solution_wb student_sheet solution_sheet,
           student_load = Ok student_wb /\ solution_load = Ok solution_wb
           /\ student_wb !! grader.STUDENT_SHEET_NAME = Some student_sheet
           /\ solution_wb !! grader.SOLUTION_SHEET_NAME = Some solution_sheet
           /\ hidden_pass grader.HIDDEN_TEST_CELLS student_sheet solution_sheet 0
              = Ok (grader.hidden_passed d)
           /\ grader.d_matches d
              = matches (indicator_pass student_sheet solution_sheet)
           /\ grader.d_total_cells d
              = total_cells (indicator_pass student_sheet solution_sheet)
           /\ grader.hidden_total d = 3
     end
  /\ (forall student_wb solution_wb student_sheet solution_sheet
        hidden_tests_passed,
        student_load = Ok student_wb -> solution_load = Ok solution_wb ->
        student_wb !! grader.STUDENT_SHEET_NAME = Some student_sheet ->
        solution_wb !! grader.SOLUTION_SHEET_NAME = Some solution_sheet ->
        hidden_pass grader.HIDDEN_TEST_CELLS student_sheet solution_sheet 0
        = Ok hidden_tests_passed ->
        grader.details l
        = Some
            {| grader.d_matches :=
                 matches (indicator_pass student_sheet solution_sheet);
               grader.d_total_cells :=
                 total_cells (indicator_pass student_sheet solution_sheet);
               grader.hidden_passed := hidden_tests_passed;
               grader.hidden_total := 3 |}).
Proof.
  cbn zeta.
  destruct (local_agrees_cases student_load solution_load) as (H1 & H2 & H3).
  split; [exact H1|]. split; [exact H2|]. split; [exact H3|].
  intros swb twb st sol hp -> -> Hs Ht Hp.
  unfold grader.grade_excel_worksheet.
  rewrite (grader_graded _ _ _ _ _ Hs Ht), Hp.
  destruct (component_scores grader.HIDDEN_TEST_CELLS st sol hp
              ltac:(discriminate) Hp) as (yn & h & -> & -> & _).
  reflexivity.
Qed.

(** ** C10: the tolerant equality is not transitive *)

(** C10: a text of one space equals the empty text, the empty text equals
    [None], and the text of one space does not equal [None]; the same
    holds of every non-empty text that [strip] empties, so [equal_values]
    is not transitive. *)
Theorem C10_not_transitive :
  equal_values (VStr " ") (VStr "") = Ok true
  /\ equal_values (VStr "") VNone = Ok true
  /\ equal_values (VStr " ") VNone = Ok false
  /\ (forall s : string,
        s <> "" -> strip s = "" ->
        equal_values (VStr s) (VStr "") = Ok true
        /\ equal_values (VStr s) VNone = Ok false)
  /\ ~ (forall a b c : value,
          equal_values a b = Ok true -> equal_values b c = Ok true ->
          equal_values a c = Ok true).
Proof.
  split; [reflexivity|]. split; [reflexivity|]. split; [reflexivity|].
  split.
  - intros s Hs Hstrip. unfold equal_values. cbn [none_or_empty as_number].
    destruct (String.eqb_spec s "") as [E | _]; [contradiction|].
    cbn [andb]. rewrite Hstrip. split; reflexivity.
  - intros H. specialize (H (VStr " ") (VStr "") VNone eq_refl eq_refl).
    discriminate H.
Qed.

(** * Further properties *)

(** ** Subtraction and comparison of floats *)

Lemma binary_normalize_opp (m e : Z) :
  SFabs (binary_normalize prec emax (- m) e false)
  = SFabs (binary_normalize prec emax m e false).
Proof.
  destruct m as [|p|p]; [reflexivity | |].
  - change (- Z.pos p) with (Z.neg p). cbn [binary_normalize].
    unfold binary_round. destruct (shl_align p e _) as [mz ez].
    apply binary_round_aux_sign.
  - change (- Z.neg p) with (Z.pos p). cbn [binary_normalize].
    unfold binary_round. destruct (shl_align p e _) as [mz ez].
    symmetry. apply binary_round_aux_sign.
Qed.

(** [abs(x - y) = abs(y - x)] on the specification side. *)
Lemma SFabs_sub_comm (x y : spec_float) :
  SFabs (SFsub prec emax x y) = SFabs (SFsub prec emax y x).
Proof.
  destruct x as [sx|sx| |sx mx ex], y as [sy|sy| |sy my ey];
    try reflexivity;
    try (destruct sx, sy; reflexivity).
  cbn [SFsub]. rewrite (Z.min_comm ey ex).
  rewrite <- binary_normalize_opp. f_equal. f_equal. lia.
Qed.

Lemma abs_sub_comm (f g : float) : abs (f - g) = abs (g - f).
Proof.
  apply Prim2SF_inj. rewrite !abs_spec, !sub_spec. apply SFabs_sub_comm.
Qed.

Lemma SFcompare_antisym (x y : spec_float) :
  SFcompare y x = option_map CompOpp (SFcompare x y).
Proof.
  destruct x as [sx|sx| |sx mx ex], y as [sy|sy| |sy my ey];
    try reflexivity;
    try (destruct sx; reflexivity); try (destruct sy; reflexivity);
    try (destruct sx, sy; reflexivity).
  cbn [SFcompare option_map].
  rewrite (Z.compare_antisym ex ey), !Pos.compare_cont_spec.
  rewrite (Pos.compare_antisym mx my).
  destruct sx, sy; try reflexivity;
    destruct (ex ?= ey); cbn [CompOpp]; try reflexivity;
    destruct (mx ?= my)%positive; reflexivity.
Qed.

Lemma float_eqb_sym (f g : float) : (f =? g)%float = (g =? f)%float.
Proof.
  rewrite !FloatAxioms.eqb_spec. unfold SFeqb.
  rewrite (SFcompare_antisym (Prim2SF f) (Prim2SF g)).
  destruct (SFcompare (Prim2SF f) (Prim2SF g)) as [[]|]; reflexivity.
Qed.

(** [x - x] is a zero for a finite [x], and a NaN otherwise. *)
Lemma SFsub_diag (x : spec_float) :
  SFabs (SFsub prec emax x x)
  = match x with
    | S754_zero _ | S754_finite _ _ _ => S754_zero false
    | _ => S754_nan
    end.
Proof.
  destruct x as [[]|[]| |s m e]; try reflexivity.
  cbn [SFsub]. rewrite Z.sub_diag. reflexivity.
Qed.

Lemma float_sub_diag (f : float) :
  (abs (f - f) <? 0.0001)%float = finite_float f.
Proof.
  rewrite ltb_spec, abs_spec, sub_spec. unfold SF64sub, finite_float.
  rewrite SFsub_diag.
  destruct (Prim2SF f) as [s|s| |s m e]; reflexivity.
Qed.

Lemma SFcompare_refl (x : spec_float) :
  SFcompare x x = match x with S754_nan => None | _ => Some Eq end.
Proof.
  destruct x as [[]|[]| |[] m e]; try reflexivity;
    cbn [SFcompare]; rewrite Z.compare_refl, Pos.compare_cont_spec,
      Pos.compare_refl; reflexivity.
Qed.

Lemma float_eqb_refl (f : float) :
  finite_float f = true -> (f =? f)%float = true.
Proof.
  unfold finite_float. rewrite FloatAxioms.eqb_spec. unfold SFeqb.
  rewrite SFcompare_refl. destruct (Prim2SF f); try discriminate; reflexivity.
Qed.

(** ** X1, X2: [equal_values] as a relation *)

Lemma number_eq_sym (x y : number) : number_eq x y = number_eq y x.
Proof.
  destruct x as [x | f], y as [y | g]; cbn [number_eq]; try reflexivity.
  - apply Z.eqb_sym.
  - apply float_eqb_sym.
Qed.

Lemma other_kind_eqb_sym (a b : other_kind) :
  other_kind_eqb a b = other_kind_eqb b a.
Proof. destruct a, b; reflexivity. Qed.

(** Python's [==] on cell values is symmetric. *)
Lemma py_eq_sym (a b : value) : py_eq a b = py_eq b a.
Proof.
  destruct a as [|a|a|a|a|ka a], b as [|b|b|b|b|kb b]; cbn [py_eq as_number];
    try reflexivity; try apply number_eq_sym.
  - apply String.eqb_sym.
  - rewrite other_kind_eqb_sym, Z.eqb_sym. reflexivity.
Qed.

Lemma py_sub_abs_sym (x y : number) :
  (do d <- py_sub x y; Ok (py_lt (py_abs d) (inr 0.0001%float)))
  = (do d <- py_sub y x; Ok (py_lt (py_abs d) (inr 0.0001%float))).
Proof.
  destruct x as [x | f], y as [y | g]; cbn [py_sub res_bind py_abs].
  - do 3 f_equal. lia.
  - destruct (float_of_int x); cbn [res_bind py_abs]; [|reflexivity].
    rewrite abs_sub_comm. reflexivity.
  - destruct (float_of_int y); cbn [res_bind py_abs]; [|reflexivity].
    rewrite abs_sub_comm. reflexivity.
  - rewrite abs_sub_comm. reflexivity.
Qed.

(** X1: [equal_values] is symmetric: the two orders of the arguments
    return the same boolean or raise the same exception. *)
Theorem X1_equal_values_symmetric (val1 val2 : value) :
  equal_values val1 val2 = equal_values val2 val1.
Proof.
  unfold equal_values. rewrite (andb_comm (none_or_empty val2)).
  destruct (none_or_empty val1 && none_or_empty val2); [reflexivity|].
  destruct (as_number val1) as [n1|] eqn:E1, (as_number val2) as [n2|] eqn:E2.
  - apply py_sub_abs_sym.
  - destruct val1, val2; try discriminate; cbv beta iota;
      rewrite py_eq_sym; reflexivity.
  - destruct val1, val2; try discriminate; cbv beta iota;
      rewrite py_eq_sym; reflexivity.
  - destruct val1, val2; try discriminate; cbv beta iota;
      try reflexivity; try (rewrite py_eq_sym; reflexivity).
    rewrite String.eqb_sym. reflexivity.
Qed.

Lemma equal_values_diag (val : value) :
  equal_values val val = Ok (finite_value val).
Proof.
  destruct val as [|b|n|f|s|k t]; cbn [finite_value].
  - reflexivity.
  - unfold equal_values. cbn [none_or_empty andb as_number py_sub res_bind py_abs].
    rewrite int_lt_tolerance by lia. rewrite Z.sub_diag. reflexivity.
  - unfold equal_values. cbn [none_or_empty andb as_number py_sub res_bind py_abs].
    rewrite int_lt_tolerance by lia. rewrite Z.sub_diag. reflexivity.
  - unfold equal_values. cbn [none_or_empty andb as_number py_sub res_bind py_abs py_lt].
    rewrite float_sub_diag. reflexivity.
  - unfold equal_values. cbn [none_or_empty as_number].
    rewrite andb_diag. destruct (String.eqb s ""); [reflexivity|].
    rewrite String.eqb_refl. reflexivity.
  - unfold equal_values. cbn [none_or_empty andb as_number py_eq].
    rewrite Z.eqb_refl. destruct k; reflexivity.
Qed.

(** X2: [equal_values] holds of a value and itself, except of an infinite
    float or a NaN, whose difference with itself is a NaN. *)
Theorem X2_equal_values_reflexive (val : value) :
  equal_values val val = Ok (finite_value val)
  /\ equal_values (VFloat infinity) (VFloat infinity) = Ok false.
Proof. split; [apply equal_values_diag | reflexivity]. Qed.

(** ** X3: the hidden-test pass *)



(** ** X4 to X6: particular scores *)

Lemma div_eucl_pair (a b : Z) : Z.div_eucl a b = (a / b, a mod b).
Proof.
  unfold Z.div, Z.modulo. destruct (Z.div_eucl a b). reflexivity.
Qed.

(** A positive integer divided by itself is exactly [1.0]. *)
Lemma int_truediv_self (m : Z) : 0 < m -> int_truediv m m = Ok 1%float.
Proof.
  intros Hm. unfold int_truediv.
  destruct (Z.eqb_spec m 0) as [E | _]; [lia|].
  destruct m as [|p|p]; try lia. cbn [int_to_SF SFdiv xorb].
  unfold SFdiv_core_binary.
  replace (Zdigits2 (Z.pos p) + 0 - (Zdigits2 (Z.pos p) + 0)) with 0 by lia.
  change (Z.min (fexp prec emax 0) (0 - 0)) with (-53).
  change (0 - 0 - -53) with 53. cbv beta iota zeta.
  rewrite Z.shiftl_mul_pow2 by lia. rewrite div_eucl_pair.
  rewrite Z.mul_comm, Z.div_mul, Z.mod_mul by lia.
  unfold new_location, new_location_even, new_location_odd.
  destruct (Z.even (Z.pos p)); vm_compute; reflexivity.
Qed.

(** X4: when both sheets are found, every column of the indicator row that
    is filled on both sides matches, there is at least one, and all the
    hidden tests pass, the score is exactly 1.0 and the feedback reports
    100.00%; columns the student left empty do not count against it. *)
Theorem X4_full_score (student_wb solution_wb : Workbook)
    (student_sheet solution_sheet : Worksheet) :
  student_wb !! autograder.STUDENT_SHEET_NAME = Some student_sheet ->
  solution_wb !! autograder.SOLUTION_SHEET_NAME = Some solution_sheet ->
  0 < total_cells (indicator_pass student_sheet solution_sheet) ->
  matches (indicator_pass student_sheet solution_sheet)
  = total_cells (indicator_pass student_sheet solution_sheet) ->
  hidden_pass autograder.HIDDEN_TEST_CELLS student_sheet solution_sheet 0
  = Ok 3 ->
  autograder.grade_excel_worksheet (Ok student_wb) (Ok solution_wb)
  = {| score := 1;
       feedback :=
         "Your score: 100.00%" +:+ String "010" ""
         +:+ "You correctly matched "
         +:+ pretty (total_cells (indicator_pass student_sheet solution_sheet))
         +:+ " out of "
         +:+ pretty (total_cells (indicator_pass student_sheet solution_sheet))
         +:+ " cells." |}.
Proof.
  intros Hs Ht Hpos Hm Hp. unfold autograder.grade_excel_worksheet.
  rewrite (autograder_graded _ _ _ _ _ Hs Ht), Hp.
  unfold yn_score. rewrite Hm.
  destruct (Z.ltb_spec 0 (total_cells (indicator_pass student_sheet
                                         solution_sheet))) as [_ | H];
    [|lia].
  rewrite int_truediv_self by exact Hpos.
  change (hidden_score 3 autograder.HIDDEN_TEST_CELLS) with (Ok 1%float).
  unfold score_feedback. rewrite Hm. reflexivity.
Qed.

Lemma X4_witness :
  autograder.grade_excel_worksheet (Ok wb_yyy) (Ok wb_solution_yyy)
  = {| score := 1;
       feedback :=
         "Your score: 100.00%" +:+ String "010" ""
         +:+ "You correctly matched "
         +:+ pretty (total_cells (indicator_pass sheet_yyy sheet_yyy))
         +:+ " out of "
         +:+ pretty (total_cells (indicator_pass sheet_yyy sheet_yyy))
         +:+ " cells." |}.
Proof.
  apply (X4_full_score wb_yyy wb_solution_yyy sheet_yyy sheet_yyy);
    vm_compute; reflexivity.
Defined.

Lemma py_eq_diag (val : value) : finite_value val = true -> py_eq val val = true.
Proof.
  destruct val as [|b|n|f|s|k t]; cbn [finite_value py_eq as_number number_eq];
    intros H; try reflexivity.
  - apply Z.eqb_refl.
  - apply Z.eqb_refl.
  - apply float_eqb_refl. exact H.
  - apply String.eqb_refl.
  - rewrite Z.eqb_refl. destruct k; reflexivity.
Qed.

Lemma count_ext (p q : Z -> bool) (l : list Z) :
  Forall (fun x => p x = q x) l -> count p l = count q l.
Proof.
  unfold count. intros H. f_equal. f_equal.
  induction H as [|x l Hx _ IH]; cbn [List.filter]; [reflexivity|].
  rewrite Hx, IH. reflexivity.
Qed.

Lemma forallb_Forall_range (p : Z -> bool) (l : list Z) :
  forallb p l = true -> Forall (fun x => p x = true) l.
Proof.
  induction l as [|x l IH]; cbn [forallb]; intros H; constructor;
    apply andb_true_iff in H; [tauto | apply IH; tauto].
Qed.

(** The hidden-test pass on a sheet and itself. *)
Lemma hidden_pass_diag (tests : list HiddenTest) (sheet : Worksheet) (passed : Z) :
  forallb (fun t => finite_value (get_cell_value sheet (cell t))) tests = true ->
  hidden_pass tests sheet sheet passed = Ok (passed + Z.of_nat (length tests)).
Proof.
  revert passed. induction tests as [|test rest IH]; intros passed H;
    cbn [hidden_pass forallb length] in *.
  - f_equal. lia.
  - apply andb_true_iff in H. destruct H as [Hv Hr].
    rewrite equal_values_diag, Hv. cbn [res_bind]. rewrite IH by exact Hr.
    f_equal. lia.
Qed.

(** X5: the solution sheet graded against itself, its compared cells
    holding no infinite float and no NaN, gets 1.0 when row 1 holds a value
    from column 5 on, and 0.2 when it holds none. *)
Theorem X5_sheet_against_itself (student_wb solution_wb : Workbook)
    (sheet : Worksheet) :
  student_wb !! autograder.STUDENT_SHEET_NAME = Some sheet ->
  solution_wb !! autograder.SOLUTION_SHEET_NAME = Some sheet ->
  forallb (fun col_idx => finite_value (cell_value sheet 1 col_idx))
    (range 5 (max_column sheet + 1)) = true ->
  forallb (fun t => finite_value (get_cell_value sheet (cell t)))
    autograder.HIDDEN_TEST_CELLS = true ->
  score (autograder.grade_excel_worksheet (Ok student_wb) (Ok solution_wb))
  = if 0 <? count (fun col_idx => negb (is_none (cell_value sheet 1 col_idx)))
              (range 5 (max_column sheet + 1))
    then 1%float else 0.2%float.
Proof.
  intros Hs Ht Hrow Hhid. unfold autograder.grade_excel_worksheet.
  rewrite (autograder_graded _ _ _ _ _ Hs Ht).
  rewrite (hidden_pass_diag _ _ _ Hhid).
  change (hidden_score _ autograder.HIDDEN_TEST_CELLS) with (Ok 1%float).
  assert (Hc : indicator_pass sheet sheet
               = {| matches := count (fun c => negb (is_none (cell_value sheet 1 c)))
                                 (range 5 (max_column sheet + 1));
                    total_cells := count (fun c => negb (is_none (cell_value sheet 1 c)))
                                     (range 5 (max_column sheet + 1)) |}).
  { unfold indicator_pass. rewrite fold_indicator_step.
    cbn [matches total_cells]. rewrite !Z.add_0_l.
    unfold max_col. rewrite Z.max_id.
    apply forallb_Forall_range in Hrow.
    f_equal; apply count_ext; eapply Forall_impl; try exact Hrow;
      intros c Hf; cbv beta in *; unfold column_matches, both_present;
      rewrite ?(py_eq_diag _ Hf), ?andb_true_r, andb_diag; reflexivity. }
  rewrite Hc. unfold yn_score. cbn [matches total_cells].
  destruct (Z.ltb_spec 0 (count (fun c => negb (is_none (cell_value sheet 1 c)))
                            (range 5 (max_column sheet + 1)))) as [Hpos | Hz].
  - rewrite int_truediv_self by exact Hpos. reflexivity.
  - reflexivity.
Qed.

Lemma X5_witness :
  score (autograder.grade_excel_worksheet (Ok wb_yyy) (Ok wb_solution_yyy))
  = if 0 <? count (fun col_idx => negb (is_none (cell_value sheet_yyy 1 col_idx)))
              (range 5 (max_column sheet_yyy + 1))
    then 1%float else 0.2%float.
Proof.
  apply (X5_sheet_against_itself wb_yyy wb_solution_yyy sheet_yyy);
    vm_compute; reflexivity.
Defined.

(** [0.0 * 0.8 + x] is [x] for a float [x] that is zero or positive. *)
Lemma zero_yn_total (h : float) (mb : positive) (eb : Z) :
  below (Prim2SF (h * 0.2)%float) mb eb ->
  total_score 0 h = (h * 0.2)%float.
Proof.
  intros Hb. unfold total_score. apply Prim2SF_inj. rewrite add_spec.
  unfold SF64add. change (Prim2SF (0 * 0.8)) with (S754_zero false).
  destruct (Prim2SF (h * 0.2)) as [[]|[]| |[] m e]; cbn in Hb;
    try contradiction; reflexivity.
Qed.

(** X6: when no column of the indicator row is filled on both sides, the
    indicator score is 0.0 and the score is the hidden score times 0.2, at
    most 0.2. *)
Theorem X6_empty_indicator_row (student_wb solution_wb : Workbook)
    (student_sheet solution_sheet : Worksheet) (hidden_tests_passed : Z) :
  student_wb !! autograder.STUDENT_SHEET_NAME = Some student_sheet ->
  solution_wb !! autograder.SOLUTION_SHEET_NAME = Some solution_sheet ->
  total_cells (indicator_pass student_sheet solution_sheet) = 0 ->
  hidden_pass autograder.HIDDEN_TEST_CELLS student_sheet solution_sheet 0
  = Ok hidden_tests_passed ->
  exists hidden : float,
    hidden_score hidden_tests_passed autograder.HIDDEN_TEST_CELLS = Ok hidden
    /\ score (autograder.grade_excel_worksheet (Ok student_wb) (Ok solution_wb))
       = (hidden * 0.2)%float
    /\ (hidden * 0.2 <=? 0.2)%float = true.
Proof.
  intros Hs Ht Hz Hp.
  destruct (component_scores autograder.HIDDEN_TEST_CELLS student_sheet
              solution_sheet hidden_tests_passed ltac:(discriminate) Hp)
    as (yn & h & Hy & Hh & _ & Hhb).
  assert (Hb : below (Prim2SF (h * 0.2)%float) point8_m (-55)).
  { rewrite mul_spec. unfold SF64mul.
    change (Prim2SF 0.2) with (S754_finite false point8_m (-55)).
    apply sf_mul_below; [exact Hhb | reflexivity | lia]. }
  exists h. split; [exact Hh|]. split.
  - unfold autograder.grade_excel_worksheet.
    rewrite (autograder_graded _ _ _ _ _ Hs Ht), Hp, Hh.
    unfold yn_score. rewrite Hz. cbn [Z.ltb Z.compare score].
    apply (zero_yn_total h _ _ Hb).
  - rewrite leb_spec.
    change (Prim2SF 0.2) with (S754_finite false point8_m (-55)).
    apply below_leb. exact Hb.
Qed.

Lemma X6_witness :
  exists hidden : float,
    hidden_score 1 autograder.HIDDEN_TEST_CELLS = Ok hidden
    /\ score (autograder.grade_excel_worksheet
                (Ok (workbook_of "blank" (sheet_of [((21, 30), VInt 5)] 30)))
                (Ok wb_solution_yyy))
       = (hidden * 0.2)%float
    /\ (hidden * 0.2 <=? 0.2)%float = true.
Proof.
  apply (X6_empty_indicator_row
           (workbook_of "blank" (sheet_of [((21, 30), VInt 5)] 30))
           wb_solution_yyy (sheet_of [((21, 30), VInt 5)] 30) sheet_yyy 1);
    vm_compute; reflexivity.
Defined.

(** ** X7: the cells that matter *)

Lemma hidden_pass_ext (tests : list HiddenTest)
    (sheet sheet' solution_sheet : Worksheet) (passed : Z) :
  Forall (fun t => get_cell_value sheet (cell t)
                   = get_cell_value sheet' (cell t)) tests ->
  hidden_pass tests sheet solution_sheet passed
  = hidden_pass tests sheet' solution_sheet passed.
Proof.
  intros H. revert passed.
  induction H as [|test rest Ht _ IH]; intros passed; cbn [hidden_pass];
    [reflexivity|].
  rewrite Ht. destruct (equal_values _ _); cbn [res_bind]; [apply IH|].
  reflexivity.
Qed.

(** X7: two student sheets of the same extent that agree on the three
    hidden cells and on the row-1 cells, from column 5 on, of the columns
    the solution fills get the same result: no other cell of the student
    sheet is taken into account, and a column the solution leaves empty
    neither helps nor hurts. *)
Theorem X7_compared_cells_only (student_wb student_wb' solution_wb : Workbook)
    (student_sheet student_sheet' solution_sheet : Worksheet) :
  student_wb !! autograder.STUDENT_SHEET_NAME = Some student_sheet ->
  student_wb' !! autograder.STUDENT_SHEET_NAME = Some student_sheet' ->
  solution_wb !! autograder.SOLUTION_SHEET_NAME = Some solution_sheet ->
  max_column student_sheet = max_column student_sheet' ->
  Forall (fun col_idx =>
            cell_value solution_sheet 1 col_idx <> VNone ->
            cell_value student_sheet 1 col_idx
            = cell_value student_sheet' 1 col_idx)
    (range 5 (max_col student_sheet solution_sheet + 1)) ->
  Forall (fun t => get_cell_value student_sheet (cell t)
                   = get_cell_value student_sheet' (cell t))
    autograder.HIDDEN_TEST_CELLS ->
  autograder.grade_excel_worksheet (Ok student_wb) (Ok solution_wb)
  = autograder.grade_excel_worksheet (Ok student_wb') (Ok solution_wb).
Proof.
  intros Hs Hs' Ht Hmax Hrow Hhid. unfold autograder.grade_excel_worksheet.
  rewrite (autograder_graded _ _ _ _ _ Hs Ht).
  rewrite (autograder_graded _ _ _ _ _ Hs' Ht).
  rewrite (hidden_pass_ext _ _ _ _ _ Hhid).
  assert (Hi : indicator_pass student_sheet solution_sheet
               = indicator_pass student_sheet' solution_sheet).
  { unfold indicator_pass. rewrite !fold_indicator_step.
    assert (Hm : max_col student_sheet' solution_sheet
                 = max_col student_sheet solution_sheet)
      by (unfold max_col; rewrite Hmax; reflexivity).
    rewrite Hm.
    f_equal; f_equal; apply count_ext; eapply Forall_impl; try exact Hrow;
      intros c Hc; cbv beta in *; unfold column_matches, both_present;
      (destruct (cell_value solution_sheet 1 c) eqn:E;
       [cbn [is_none negb]; rewrite !andb_false_r; reflexivity
       | rewrite Hc by discriminate; reflexivity ..]). }
  rewrite Hi. reflexivity.
Qed.

Lemma X7_witness :
  autograder.grade_excel_worksheet (Ok wb_yyy) (Ok wb_solution_yyn)
  = autograder.grade_excel_worksheet (Ok wb_yyy_labelled) (Ok wb_solution_yyn).
Proof.
  apply (X7_compared_cells_only wb_yyy wb_yyy_labelled wb_solution_yyn
           sheet_yyy sheet_yyy_labelled sheet_yyn);
    try reflexivity.
  - change (range 5 (max_col sheet_yyy sheet_yyn + 1)) with (seqZ 5 27).
    apply Forall_forall. intros c Hc Hsol.
    apply elem_of_seqZ in Hc.
    assert (Hcase : c = 5 \/ c = 6 \/ c = 7 \/ c = 8 \/ 9 <= c <= 31) by lia.
    destruct Hcase as [-> | [-> | [-> | [-> | Hc9]]]];
      try reflexivity.
    + exfalso. apply Hsol. reflexivity.
    + exfalso. apply Hsol. unfold cell_value, sheet_yyn, sheet_of.
      cbn [cells list_to_map foldr uncurry Datatypes.uncurry].
      rewrite !lookup_insert_ne by (intros E; injection E; lia).
      reflexivity.
  - repeat constructor.
Defined.

(** ** X8 to X10: the script *)

Lemma send_feedback_stdout (w : script.World) (score : float) (msg : string) :
  script.stdout (script.send_feedback w score msg)
  = script.stdout w
    ++ [script.Json {| script.fractionalScore := score;
                       script.post_feedback := msg |}].
Proof.
  unfold script.send_feedback. cbn.
  destruct (script.write_error w) as [[e []]|]; reflexivity.
Qed.

Lemma send_feedback_stderr (w : script.World) (score : float) (msg : string) :
  script.write_error w = None ->
  script.stderr (script.send_feedback w score msg) = script.stderr w.
Proof.
  intros H. unfold script.send_feedback. cbn. rewrite H. reflexivity.
Qed.

(** [send_feedback] writes to one file only. *)
Lemma send_feedback_other_files (w : script.World) (score : float)
    (msg path : string) :
  path <> script.FEEDBACK_FILE ->
  script.files (script.send_feedback w score msg) !! path
  = script.files w !! path.
Proof.
  intros Hp. unfold script.send_feedback. cbn.
  destruct (script.write_error w) as [[e []]|]; cbn;
    rewrite ?lookup_insert_ne by congruence; reflexivity.
Qed.

Lemma send_feedback_written (w : script.World) (score : float) (msg : string) :
  script.write_error w = None ->
  script.files (script.send_feedback w score msg)
  = <[script.FEEDBACK_FILE :=
        script.Feedback
          (Some {| script.fractionalScore := score;
                   script.post_feedback := msg |})]> (script.files w).
Proof.
  intros H. unfold script.send_feedback. cbn. rewrite H. reflexivity.
Qed.

(** What [send_feedback] leaves in the feedback file and on the standard
    error. *)
Lemma send_feedback_file (w : script.World) (score : float) (msg : string) :
  match script.write_error w with
  | None =>
      script.feedback_json (script.send_feedback w score msg)
      = Some {| script.fractionalScore := score; script.post_feedback := msg |}
      /\ script.stderr (script.send_feedback w score msg) = script.stderr w
  | Some (e, truncated) =>
      script.feedback_json (script.send_feedback w score msg)
      = (if truncated then None else script.feedback_json w)
      /\ script.stderr (script.send_feedback w score msg)
         = script.stderr w ++ ["Error writing feedback: " +:+ e]
  end.
Proof.
  unfold script.send_feedback, script.feedback_json. cbn.
  destruct (script.write_error w) as [[e []]|]; cbn;
    rewrite ?lookup_insert_eq; split; reflexivity.
Qed.

Lemma destination_not_feedback :
  script.SUBMISSION_DESTINATION <> script.FEEDBACK_FILE.
Proof. discriminate. Qed.

(** The feedback the script sends: a score and a message. *)
Lemma run_sends (w : script.World) :
  exists (score : float) (msg : string) (w' : script.World),
    script.run w = script.send_feedback w' score msg
    /\ script.stdout w' = script.stdout w ++ [script.VersionInfo]
    /\ script.write_error w' = script.write_error w
    /\ script.feedback_json w' = script.feedback_json w
    /\ in_unit score.
Proof.
  unfold script.run, script.main.
  destruct (negb (String.eqb _ script.COURSERA_PARTID)).
  { eexists _, _, _. split; [reflexivity|].
    repeat split; try reflexivity. }
  cbn [script.listing script.print].
  destruct (script.listing w) as [e | names].
  { eexists _, _, _. split; [reflexivity|].
    repeat split; try reflexivity. }
  destruct (script.find_learner_file names) as [learner_file|].
  2:{ eexists _, _, _. split; [reflexivity|].
      repeat split; try reflexivity. }
  unfold script.copyfile. cbn [script.copy_error script.files script.print].
  destruct (script.copy_error _ _) as [[e [partial|]]|].
  - eexists _, _, _. split; [reflexivity|].
    split; [reflexivity|]. split; [reflexivity|].
    split; [|split; reflexivity].
    unfold script.feedback_json. cbn.
    rewrite lookup_insert_ne by exact destination_not_feedback. reflexivity.
  - eexists _, _, _. split; [reflexivity|].
    repeat split; try reflexivity.
  - destruct (script.files _ !! _) as [file|].
    2:{ eexists _, _, _. split; [reflexivity|].
        repeat split; try reflexivity. }
    eexists _, _, _. split; [reflexivity|].
    split; [reflexivity|]. split; [reflexivity|].
    split; [|apply autograder_score_in_unit].
    unfold script.feedback_json. cbn.
    rewrite lookup_insert_ne by exact destination_not_feedback. reflexivity.
Qed.

(** X8: whatever the world, the script prints exactly one feedback object
    after the version line, with a score in [[0, 1]]; it writes the same
    object to the feedback file, and when the writing fails it reports the
    failure on the standard error and ends normally. *)
Theorem X8_one_feedback (w : script.World) :
  exists p : script.Post,
    script.stdout (script.run w)
    = script.stdout w ++ [script.VersionInfo; script.Json p]
    /\ (0 <=? script.fractionalScore p)%float = true
    /\ (script.fractionalScore p <=? 1)%float = true
    /\ match script.write_error w with
       | None => script.feedback_json (script.run w) = Some p
       | Some (e, truncated) =>
           script.feedback_json (script.run w)
           = (if truncated then None else script.feedback_json w)
           /\ last (script.stderr (script.run w))
              = Some ("Error writing feedback: " +:+ e)
       end.
Proof.
  destruct (run_sends w) as (score & msg & w' & -> & Hout & Hwe & Hfj & [H0 H1]).
  exists {| script.fractionalScore := score; script.post_feedback := msg |}.
  split; [rewrite send_feedback_stdout, Hout, <- app_assoc; reflexivity|].
  split; [exact H0|]. split; [exact H1|].
  pose proof (send_feedback_file w' score msg) as Hf. rewrite Hwe in Hf.
  destruct (script.write_error w) as [[e truncated]|].
  - destruct Hf as [-> ->]. rewrite Hfj. split; [reflexivity|].
    apply last_snoc.
  - destruct Hf as [-> _]. reflexivity.
Qed.

Lemma find_first (p : string -> bool) (before after : list string) (f : string) :
  forallb (fun n => negb (p n)) before = true -> p f = true ->
  List.find p (before ++ f :: after) = Some f.
Proof.
  intros Hb Hf. induction before as [|n before IH]; cbn [app List.find forallb] in *.
  - rewrite Hf. reflexivity.
  - apply andb_true_iff in Hb. destruct Hb as [Hn Hb].
    destruct (p n); [discriminate Hn | apply IH; exact Hb].
Qed.

(** X9: with the right part id, the first entry of the submission
    directory that has an accepted extension, in the order of the listing,
    is copied to the fixed destination and graded against the reference
    solution as it was before the run; the entries before and after it
    play no part, and the printed feedback is the result of that grading.
    Apart from the feedback file, the destination is the only file that
    changes; when the feedback file can be written it holds the printed
    feedback. *)
Theorem X9_first_accepted_file_is_graded (w : script.World)
    (before after : list string) (learner_file : string) (file : script.File) :
  script.environ_partId w = Some script.COURSERA_PARTID ->
  script.listing w = inr (before ++ learner_file :: after) ->
  forallb (fun f => negb (script.accepted f)) before = true ->
  script.accepted learner_file = true ->
  script.copy_error w (script.submission_path learner_file) = None ->
  script.files w !! script.submission_path learner_file = Some file ->
  let result :=
    autograder.grade_excel_worksheet (script.open_file file)
      (script.load_workbook w script.REFERENCE_SOLUTION) in
  let post :=
    {| script.fractionalScore := score result;
       script.post_feedback := feedback result |} in
  script.stdout (script.run w)
  = script.stdout w ++ [script.VersionInfo; script.Json post]
  /\ (forall path : string,
        path <> script.FEEDBACK_FILE ->
        script.files (script.run w) !! path
        = <[script.SUBMISSION_DESTINATION := file]> (script.files w) !! path)
  /\ (script.write_error w = None ->
      script.files (script.run w)
      = <[script.FEEDBACK_FILE := script.Feedback (Some post)]>
          (<[script.SUBMISSION_DESTINATION := file]> (script.files w))).
Proof.
  intros Hid Hl Hb Hf Hce Hfile. cbn zeta.
  unfold script.run, script.main.
  cbn [script.environ_partId script.print script.listing]. rewrite Hid.
  cbn [default]. rewrite String.eqb_refl. cbn [negb]. rewrite Hl.
  unfold script.find_learner_file. rewrite (find_first _ _ _ _ Hb Hf).
  unfold script.copyfile. cbn [script.copy_error script.files script.print].
  rewrite Hce, Hfile.
  assert (Hg : script.grade_excel_worksheet
                 (script.set_files (script.print w script.VersionInfo)
                    (<[script.SUBMISSION_DESTINATION := file]>
                       (script.files w)))
               = autograder.grade_excel_worksheet (script.open_file file)
                   (script.load_workbook w script.REFERENCE_SOLUTION)).
  { unfold script.grade_excel_worksheet, script.load_workbook.
    cbn [script.set_files script.files].
    rewrite lookup_insert_eq.
    rewrite lookup_insert_ne by discriminate. reflexivity. }
  rewrite Hg. split; [|split].
  - rewrite send_feedback_stdout. cbn [script.set_files script.stdout script.print].
    rewrite <- app_assoc. reflexivity.
  - intros path Hp. rewrite send_feedback_other_files by exact Hp.
    reflexivity.
  - intros Hw. rewrite send_feedback_written by exact Hw. reflexivity.
Qed.

Lemma X9_witness :
  let result :=
    autograder.grade_excel_worksheet (script.open_file (script.Data (Ok wb_yyy)))
      (script.load_workbook world_yyy script.REFERENCE_SOLUTION) in
  let post :=
    {| script.fractionalScore := score result;
       script.post_feedback := feedback result |} in
  script.stdout (script.run world_yyy)
  = script.stdout world_yyy ++ [script.VersionInfo; script.Json post]
  /\ (forall path : string,
        path <> script.FEEDBACK_FILE ->
        script.files (script.run world_yyy) !! path
        = <[script.SUBMISSION_DESTINATION := script.Data (Ok wb_yyy)]>
            (script.files world_yyy) !! path)
  /\ (script.write_error world_yyy = None ->
      script.files (script.run world_yyy)
      = <[script.FEEDBACK_FILE := script.Feedback (Some post)]>
          (<[script.SUBMISSION_DESTINATION := script.Data (Ok wb_yyy)]>
             (script.files world_yyy))).
Proof.
  apply (X9_first_accepted_file_is_graded world_yyy ["notes.txt"]
           ["other.xlsx"] "Homework.XLSX" (script.Data (Ok wb_yyy)));
    reflexivity.
Defined.

Lemma find_nothing (names : list string) :
  forallb (fun f => negb (script.accepted f)) names = true ->
  script.find_learner_file names = None.
Proof.
  unfold script.find_learner_file.
  induction names as [|n names IH]; cbn [List.find forallb];
    [reflexivity|].
  intros Hn. apply andb_true_iff in Hn. destruct Hn as [Hn1 Hn2].
  destruct (script.accepted n); [discriminate Hn1 | apply IH; exact Hn2].
Qed.

(** What a feedback sent from the world [w'] leaves, in terms of the
    world [w] the script started in. *)
Lemma rejection_sent (w w' : script.World) (msg : string)
    (diagnostics : list string) (destination : option script.File) :
  script.stdout w' = script.stdout w ++ [script.VersionInfo] ->
  script.stderr w' = script.stderr w ++ diagnostics ->
  script.write_error w' = script.write_error w ->
  (forall path, path <> script.SUBMISSION_DESTINATION ->
                script.files w' !! path = script.files w !! path) ->
  script.files w' !! script.SUBMISSION_DESTINATION = destination ->
  let post := {| script.fractionalScore := 0; script.post_feedback := msg |} in
  let w'' := script.send_feedback w' 0 msg in
  script.stdout w''
  = script.stdout w ++ [script.VersionInfo; script.Json post]
  /\ (forall path : string,
        path <> script.FEEDBACK_FILE ->
        path <> script.SUBMISSION_DESTINATION ->
        script.files w'' !! path = script.files w !! path)
  /\ script.files w'' !! script.SUBMISSION_DESTINATION = destination
  /\ (script.write_error w = None ->
      script.stderr w'' = script.stderr w ++ diagnostics
      /\ script.files w'' !! script.FEEDBACK_FILE
         = Some (script.Feedback (Some post))).
Proof.
  intros Hout Herr Hwe Hother Hdest. cbn zeta.
  split; [rewrite send_feedback_stdout, Hout, <- app_assoc; reflexivity|].
  split.
  { intros path Hp Hd. rewrite send_feedback_other_files by exact Hp.
    apply Hother. exact Hd. }
  split.
  { rewrite send_feedback_other_files by exact destination_not_feedback.
    exact Hdest. }
  intros Hw. rewrite <- Hwe in Hw.
  rewrite send_feedback_stderr by exact Hw.
  rewrite send_feedback_written by exact Hw.
  split; [exact Herr | apply lookup_insert_eq].
Qed.

(** X10: when the part id is not the expected one, the listing of the
    submission directory raises, no entry has an accepted extension, or the
    copy raises, the script grades nothing: it prints the score 0.0 with
    the message of that case (for a listing that raises, "Please provide
    the partId.", whatever the part id) and reports the cause on the
    standard error, except for the missing extension, which it does not
    report there. The feedback file is rewritten; the only other file that
    can change is the destination of the copy, which a copy that stops
    short leaves with what was written of it. *)
Theorem X10_rejections (w : script.World) (msg : string)
    (diagnostics : list string) (destination : option script.File) :
  rejection w msg diagnostics destination ->
  let post := {| script.fractionalScore := 0; script.post_feedback := msg |} in
  script.stdout (script.run w)
  = script.stdout w ++ [script.VersionInfo; script.Json post]
  /\ (forall path : string,
        path <> script.FEEDBACK_FILE ->
        path <> script.SUBMISSION_DESTINATION ->
        script.files (script.run w) !! path = script.files w !! path)
  /\ script.files (script.run w) !! script.SUBMISSION_DESTINATION
     = destination
  /\ (script.write_error w = None ->
      script.stderr (script.run w) = script.stderr w ++ diagnostics
      /\ script.files (script.run w) !! script.FEEDBACK_FILE
         = Some (script.Feedback (Some post))).
Proof.
  intros H. cbn zeta. unfold script.run, script.main.
  cbn [script.environ_partId script.print script.listing].
  destruct H as [Hid | e Hid Hl | names Hid Hl Hn | names f Hid Hl Hf Hc Hs
                | names f e after Hid Hl Hf Hc].
  - destruct (String.eqb_spec (default "" (script.environ_partId w))
                script.COURSERA_PARTID) as [E | _]; [contradiction|].
    cbn [negb]. apply rejection_sent; reflexivity.
  - rewrite Hid, String.eqb_refl, Hl. cbn [negb].
    apply rejection_sent; reflexivity.
  - rewrite Hid, String.eqb_refl, Hl. cbn [negb].
    rewrite (find_nothing names Hn).
    apply rejection_sent; try reflexivity.
    cbn. rewrite app_nil_r. reflexivity.
  - rewrite Hid, String.eqb_refl, Hl, Hf. cbn [negb].
    unfold script.copyfile.
    cbn [script.copy_error script.files script.print]. rewrite Hc, Hs.
    apply rejection_sent; reflexivity.
  - rewrite Hid, String.eqb_refl, Hl, Hf. cbn [negb].
    unfold script.copyfile.
    cbn [script.copy_error script.files script.print]. rewrite Hc.
    destruct after as [partial|].
    + apply rejection_sent; try reflexivity.
      all: try (intros path Hp; cbn; rewrite lookup_insert_ne by congruence;
                reflexivity).
      all: try (cbn; apply lookup_insert_eq).
    + apply rejection_sent; reflexivity.
Qed.

Lemma X10_witness :
  let post :=
    {| script.fractionalScore := 0;
       script.post_feedback := "Error processing your submission file." |} in
  script.stdout (script.run world_copy_stops)
  = script.stdout world_copy_stops ++ [script.VersionInfo; script.Json post]
  /\ (forall path : string,
        path <> script.FEEDBACK_FILE ->
        path <> script.SUBMISSION_DESTINATION ->
        script.files (script.run world_copy_stops) !! path
        = script.files world_copy_stops !! path)
  /\ script.files (script.run world_copy_stops)
       !! script.SUBMISSION_DESTINATION
     = Some (script.Data (Raise (LoadError "File is not a zip file")))
  /\ (script.write_error world_copy_stops = None ->
      script.stderr (script.run world_copy_stops)
      = script.stderr world_copy_stops
        ++ ["Error copying submission: [Errno 28] No space left on device"]
      /\ script.files (script.run world_copy_stops) !! script.FEEDBACK_FILE
         = Some (script.Feedback (Some post))).
Proof.
  apply (X10_rejections world_copy_stops
           "Error processing your submission file."
           ["Error copying submission: [Errno 28] No space left on device"]
           (Some (script.Data (Raise (LoadError "File is not a zip file"))))).
  apply (copy_raises world_copy_stops ["Homework.xlsx"] "Homework.xlsx"
           "[Errno 28] No space left on device"
           (Some (script.Data (Raise (LoadError "File is not a zip file")))));
    reflexivity.
Defined.

(** ** X11: the names the script accepts *)

Lemma rfind_dot_lt (name : string) (i : nat) :
  script.rfind_dot name = Some i -> (i < String.length name)%nat.
Proof.
  revert i. induction name as [|c rest IH]; intros i; cbn [script.rfind_dot].
  - discriminate.
  - destruct (script.rfind_dot rest) as [j|].
    + intros [= <-]. specialize (IH j eq_refl). cbn [String.length]. lia.
    + destruct (Ascii.eqb c "."); [|discriminate].
      intros [= <-]. cbn [String.length]. lia.
Qed.

Lemma rfind_dot_app (s t : string) :
  script.rfind_dot t = Some O ->
  script.rfind_dot (s +:+ t) = Some (String.length s).
Proof.
  intros Ht. induction s as [|c s IH].
  - exact Ht.
  - change (String c s +:+ t) with (String c (s +:+ t)).
    cbn [script.rfind_dot String.length]. rewrite IH. reflexivity.
Qed.

Lemma substring_all (s : string) : substring 0 (String.length s) s = s.
Proof.
  induction s as [|c s IH]; cbn [String.length substring]; [reflexivity|].
  rewrite IH. reflexivity.
Qed.

Lemma substring_split (s : string) (i : nat) :
  (i <= String.length s)%nat ->
  s = substring 0 i s +:+ substring i (String.length s - i) s.
Proof.
  revert i. induction s as [|c s IH]; intros i Hi.
  - cbn [String.length] in Hi. assert (i = O) as -> by lia. reflexivity.
  - destruct i as [|i].
    + rewrite Nat.sub_0_r, substring_all. reflexivity.
    + cbn [String.length] in *. cbn [substring Nat.sub].
      change (String c ?a +:+ ?b) with (String c (a +:+ b)).
      rewrite <- (IH i) by lia. reflexivity.
Qed.

Lemma substring_app_r (s t : string) :
  substring (String.length s) (String.length t) (s +:+ t) = t.
Proof.
  induction s as [|c s IH].
  - apply substring_all.
  - change (String c s +:+ t) with (String c (s +:+ t)).
    cbn [String.length substring]. exact IH.
Qed.

Lemma length_append (s t : string) :
  String.length (s +:+ t) = (String.length s + String.length t)%nat.
Proof.
  induction s as [|c s IH]; [reflexivity|].
  change (String c s +:+ t) with (String c (s +:+ t)).
  cbn [String.length]. rewrite IH. reflexivity.
Qed.

Lemma lower_char_dot (c : ascii) : lower_char c = "."%char -> c = "."%char.
Proof.
  destruct c as [[] [] [] [] [] [] [] []]; vm_compute; intros H;
    first [reflexivity | discriminate H].
Qed.

Lemma lower_char_letter (c d : ascii) :
  lower_char c = d -> d <> "."%char -> Ascii.eqb c "." = false.
Proof.
  intros H Hd. apply Ascii.eqb_neq. intros ->. apply Hd. rewrite <- H.
  reflexivity.
Qed.

(** An extension that lowercases to [.xlsx] or [.xlsm] is a dot followed
    by four characters other than the dot. *)
Lemma extension_shape (ext : string) :
  lower ext = ".xlsx" \/ lower ext = ".xlsm" ->
  script.rfind_dot ext = Some O /\ String.length ext = 5%nat.
Proof.
  intros H.
  destruct ext as [|c0 [|c1 [|c2 [|c3 [|c4 [|c5 r]]]]]]; cbn [lower] in H;
    try (destruct H as [H | H]; discriminate H).
  assert (H' : lower_char c0 = "."%char
               /\ Ascii.eqb c1 "." = false /\ Ascii.eqb c2 "." = false
               /\ Ascii.eqb c3 "." = false /\ Ascii.eqb c4 "." = false).
  { destruct H as [H | H]; injection H as H0 H1 H2 H3 H4;
      (split; [exact H0|]);
      repeat split; eapply lower_char_letter; eauto; discriminate. }
  destruct H' as (H0 & H1 & H2 & H3 & H4).
  apply lower_char_dot in H0. subst c0.
  cbn [script.rfind_dot String.length]. rewrite H1, H2, H3, H4.
  split; reflexivity.
Qed.

Lemma suffix_app (stem ext : string) :
  stem <> "" ->
  script.rfind_dot ext = Some O -> (1 < String.length ext)%nat ->
  script.suffix (stem +:+ ext) = ext.
Proof.
  intros Hs Hd Hl. unfold script.suffix.
  rewrite (rfind_dot_app stem ext Hd), length_append.
  assert (0 < String.length stem)%nat as Hpos.
  { destruct stem; [contradiction | cbn [String.length]; lia]. }
  destruct (Nat.ltb_spec 0 (String.length stem)) as [_|]; [|lia].
  destruct (Nat.ltb_spec (String.length stem)
              (String.length stem + String.length ext - 1)) as [_|]; [|lia].
  cbn [andb].
  replace (String.length stem + String.length ext - String.length stem)%nat
    with (String.length ext) by lia.
  apply substring_app_r.
Qed.

Lemma suffix_split (f : string) :
  script.suffix f <> "" ->
  exists stem : string, f = stem +:+ script.suffix f /\ stem <> "".
Proof.
  unfold script.suffix.
  destruct (script.rfind_dot f) as [i|] eqn:Hi; [|contradiction].
  destruct (Nat.ltb_spec 0 i) as [Hpos|]; [|contradiction].
  destruct (i <? String.length f - 1)%nat; cbn [andb]; [|contradiction].
  intros _. exists (substring 0 i f). split.
  - apply substring_split. apply rfind_dot_lt in Hi. lia.
  - apply rfind_dot_lt in Hi.
    destruct f as [|c f]; [cbn [String.length] in Hi; lia|].
    destruct i as [|i]; [lia|]. cbn [substring]. discriminate.
Qed.

(** X11: a directory entry is accepted as the submission exactly when its
    name is a non-empty stem followed by an extension that reads [.xlsx]
    or [.xlsm] once lowercased; so the case of the extension does not
    matter, a name that is only the extension is not accepted, and neither
    is a name with anything after the extension. *)
Theorem X11_accepted_names (f : string) :
  script.accepted f = true <->
  exists stem ext : string,
    f = stem +:+ ext /\ stem <> ""
    /\ (lower ext = ".xlsx" \/ lower ext = ".xlsm").
Proof.
  unfold script.accepted. cbn zeta. split.
  - intros H. apply orb_true_iff in H.
    assert (Hl : lower (script.suffix f) = ".xlsx"
                 \/ lower (script.suffix f) = ".xlsm").
    { destruct H as [H | H]; apply String.eqb_eq in H; [left | right]; exact H. }
    assert (Hne : script.suffix f <> "").
    { intros E. rewrite E in Hl. cbn [lower] in Hl.
      destruct Hl as [Hl | Hl]; discriminate Hl. }
    destruct (suffix_split f Hne) as (stem & Hf & Hs).
    exists stem, (script.suffix f). split; [exact Hf|]. split; assumption.
  - intros (stem & ext & -> & Hs & Hl).
    destruct (extension_shape ext Hl) as [Hd Hlen].
    rewrite (suffix_app stem ext Hs Hd) by lia.
    apply orb_true_iff.
    destruct Hl as [-> | ->]; [left | right]; reflexivity.
Qed.

(** ** X12: when a comparison of hidden cells raises *)

(** X12: a comparison of two cell values raises in one case only, an
    [int] of magnitude [2 ^ 1024 - 2 ^ 970] or more against a [float]
    (the subtraction cannot convert the [int]); the exception is then
    OverflowError "int too large to convert to float". Every other pair
    of values, two huge [int]s included, is compared. *)
Theorem X12_equal_values_raises (val1 val2 : value) (e : exn) :
  equal_values val1 val2 = Raise e <->
  e = OverflowError "int too large to convert to float"
  /\ exists (z : Z) (f : float),
       (val1 = VInt z /\ val2 = VFloat f \/ val1 = VFloat f /\ val2 = VInt z)
       /\ 2 ^ 1024 - 2 ^ 970 <= Z.abs z.
Proof.
  split.
  - destruct val1 as [|b1|z1|f1|s1|k1 t1], val2 as [|b2|z2|f2|s2|k2 t2];
      unfold equal_values; cbn [none_or_empty andb as_number py_sub res_bind];
      try discriminate;
      try (destruct (String.eqb _ _); cbn [andb]; discriminate).
    + destruct b1; discriminate.
    + pose proof (float_of_int_cases z1) as Hc.
      destruct (float_of_int z1) as [g | e1]; cbn [res_bind];
        [discriminate|].
      intros [= <-]. destruct Hc as [-> Hz]. split; [reflexivity|].
      exists z1, f2. split; [left; split; reflexivity | exact Hz].
    + destruct b2; discriminate.
    + pose proof (float_of_int_cases z2) as Hc.
      destruct (float_of_int z2) as [g | e1]; cbn [res_bind];
        [discriminate|].
      intros [= <-]. destruct Hc as [-> Hz]. split; [reflexivity|].
      exists z2, f1. split; [right; split; reflexivity | exact Hz].
    + destruct (String.eqb s1 ""), (String.eqb s2 ""); cbn [andb];
        discriminate.
  - intros (-> & z & f & [[-> ->] | [-> ->]] & Hz);
      unfold equal_values; cbn [none_or_empty andb as_number py_sub];
      pose proof (float_of_int_cases z) as Hc;
      destruct (float_of_int z) as [g | e1]; cbn [res_bind];
      try lia; destruct Hc as [-> _]; reflexivity.
Qed.

(** ** X13: the counts of the local grader *)

(** X13: whenever grader.py returns its four diagnostic fields, the counts
    are consistent (no more matches than compared cells, no more hidden
    tests passed than the three there are) and the feedback text shows the
    two indicator counts of those fields. *)
Theorem X13_local_counts (student_load solution_load : res Workbook)
    (d : grader.Details) :
  let l := grader.grade_excel_worksheet student_load solution_load in
  grader.details l = Some d ->
  0 <= grader.d_matches d <= grader.d_total_cells d
  /\ 0 <= grader.hidden_passed d <= grader.hidden_total d
  /\ grader.hidden_total d = 3
  /\ feedback (grader.result l)
     = score_feedback (score (grader.result l))
         {| matches := grader.d_matches d;
            total_cells := grader.d_total_cells d |}.
Proof.
  cbn zeta. unfold grader.grade_excel_worksheet.
  destruct student_load as [swb | e]; [|discriminate].
  destruct solution_load as [twb | e]; [|discriminate].
  destruct (swb !! grader.STUDENT_SHEET_NAME) as [st|] eqn:Hs.
  2:{ unfold_grade. change grader.STUDENT_SHEET_NAME
        with autograder.STUDENT_SHEET_NAME in Hs.
      rewrite Hs. discriminate. }
  destruct (twb !! grader.SOLUTION_SHEET_NAME) as [sol|] eqn:Ht.
  2:{ unfold_grade. change grader.STUDENT_SHEET_NAME
        with autograder.STUDENT_SHEET_NAME in Hs.
      change grader.SOLUTION_SHEET_NAME
        with autograder.SOLUTION_SHEET_NAME in Ht.
      rewrite Hs, Ht. discriminate. }
  rewrite (grader_graded _ _ _ _ _ Hs Ht).
  destruct (hidden_pass grader.HIDDEN_TEST_CELLS st sol 0) as [hp | e] eqn:Hp;
    [|discriminate].
  destruct (yn_score (indicator_pass st sol)) as [yn | e]; [|discriminate].
  destruct (hidden_score hp grader.HIDDEN_TEST_CELLS) as [h | e];
    [|discriminate].
  cbn [grader.details grader.result score feedback]. intros [= <-].
  cbn [grader.d_matches grader.d_total_cells grader.hidden_passed
       grader.hidden_total].
  split; [apply indicator_pass_counts|].
  apply hidden_pass_bounds in Hp.
  change (Z.of_nat (length grader.HIDDEN_TEST_CELLS)) with 3 in *.
  split; [lia|]. split; [reflexivity|].
  destruct (indicator_pass st sol) as [m t]. reflexivity.
Qed.

Lemma X13_witness :
  let l := grader.grade_excel_worksheet (Ok wb_yyy) (Ok wb_solution_yyn) in
  let d := {| grader.d_matches := 2; grader.d_total_cells := 3;
              grader.hidden_passed := 2; grader.hidden_total := 3 |} in
  0 <= grader.d_matches d <= grader.d_total_cells d
  /\ 0 <= grader.hidden_passed d <= grader.hidden_total d
  /\ grader.hidden_total d = 3
  /\ feedback (grader.result l)
     = score_feedback (score (grader.result l))
         {| matches := grader.d_matches d;
            total_cells := grader.d_total_cells d |}.
Proof.
  apply (X13_local_counts (Ok wb_yyy) (Ok wb_solution_yyn)).
  vm_compute. reflexivity.
Defined.
